(** * Bid_Review: the win-probability / risk-scoring pipeline

    A shallow embedding of [bids/ml/bid_predictor.py] (class [BidPredictor])
    together with the parts of [bids/models.py] it reads.

    - Python floats are IEEE binary64 values: Rocq's primitive [float].
    - Python ints are [Z]; [Decimal] values are a coefficient and a power of ten.
    - A [dict] with string keys is a [gmap string _]; [set] is a [gset].
    - A call that may raise returns an [outcome]; the methods of
      [BidPredictor] run in a state-and-exception monad over a [world]
      holding the instance attributes, the model directory, the bid table
      and a trace of the effects performed. *)

From Stdlib Require Import ZArith Floats Lia.
From stdpp Require Import base option list gmap strings pretty.

Set Warnings "-inexact-float,-register-all".

(** ** Python values *)

Module Py.

(** Exceptions, by class. *)
Inductive exn : Type :=
  | KeyError
  | TypeError
  | ValueError
  | AttributeError
  | OverflowError
  | NotFittedError
  | FileNotFoundError
  | UnpicklingError
  | IndexError
  | OSError.

Inductive outcome (A : Type) : Type :=
  | Return (a : A)
  | Raise (e : exn).
Arguments Return {A} a.
Arguments Raise {A} e.

#[global] Instance outcome_ret : MRet outcome := @Return.
#[global] Instance outcome_bind : MBind outcome := λ A B f m,
  match m with
  | Return a => f a
  | Raise e => Raise e
  end.
#[global] Instance outcome_fmap : FMap outcome := λ A B f m,
  match m with
  | Return a => Return (f a)
  | Raise e => Raise e
  end.

Definition returns {A} (m : outcome A) : Prop := ∃ a, m = Return a.

(** [decimal.Decimal]: the value [dec_coeff * 10 ^ dec_exp]. *)
Record decimal : Type := Decimal { dec_coeff : Z; dec_exp : Z }.

Inductive pyval : Type :=
  | PNone
  | PInt (z : Z)
  | PFloat (f : float)
  | PStr (s : string)
  | PDec (d : decimal).

(** [float(z)] for an int: the nearest binary64 value, ties to even. *)
Definition float_of_Z (z : Z) : float :=
  SF2Prim (binary_normalize prec emax z 0 false).

(** The correctly rounded quotient [n / d] of two integers; this is also
    Python's true division of ints. *)
Definition float_of_ratio (n : Z) (d : positive) : float :=
  match n with
  | Z0 => 0%float
  | Zpos m =>
      SF2Prim (SFdiv prec emax (S754_finite false m 0) (S754_finite false d 0))
  | Zneg m =>
      SF2Prim (SFdiv prec emax (S754_finite true m 0) (S754_finite false d 0))
  end.

(** [float(d)] for a Decimal: the nearest binary64 value. *)
Definition float_of_decimal (d : decimal) : float :=
  match dec_exp d with
  | Zneg k => float_of_ratio (dec_coeff d) (10 ^ k)%positive
  | e => float_of_Z (dec_coeff d * 10 ^ e)
  end.

(** Truth value of an object, as used by [x or y]. *)
Definition py_truthy (v : pyval) : bool :=
  match v with
  | PNone => false
  | PInt z => negb (z =? 0)%Z
  | PFloat f => negb (f =? 0)%float
  | PStr s => negb (String.eqb s "")
  | PDec d => negb (dec_coeff d =? 0)%Z
  end.

Definition py_or (a b : pyval) : pyval := if py_truthy a then a else b.

(** Exact values of numbers, for comparisons across numeric types. *)
Inductive xnum : Type :=
  | XNaN
  | XInf (negative : bool)
  | XRat (n : Z) (d : Z).

Definition xnum_of_float (f : float) : xnum :=
  match Prim2SF f with
  | S754_zero _ => XRat 0 1
  | S754_infinity s => XInf s
  | S754_nan => XNaN
  | S754_finite s m e =>
      let v := if s then Zneg m else Zpos m in
      if (0 <=? e)%Z then XRat (v * 2 ^ e) 1 else XRat v (2 ^ (- e))
  end.

Definition xnum_of_decimal (d : decimal) : xnum :=
  if (0 <=? dec_exp d)%Z then XRat (dec_coeff d * 10 ^ dec_exp d) 1
  else XRat (dec_coeff d) (10 ^ (- dec_exp d)).

Definition xnum_ltb (a b : xnum) : bool :=
  match a, b with
  | XNaN, _ | _, XNaN => false
  | XInf true, XInf true => false
  | XInf true, _ => true
  | _, XInf true => false
  | XInf false, _ => false
  | _, XInf false => true
  | XRat n1 d1, XRat n2 d2 => (n1 * d2 <? n2 * d1)%Z
  end.

Definition xnum_eqb (a b : xnum) : bool :=
  match a, b with
  | XInf s1, XInf s2 => Bool.eqb s1 s2
  | XRat n1 d1, XRat n2 d2 => (n1 * d2 =? n2 * d1)%Z
  | _, _ => false
  end.

Definition num_view (v : pyval) : option xnum :=
  match v with
  | PInt z => Some (XRat z 1)
  | PFloat f => Some (xnum_of_float f)
  | PDec d => Some (xnum_of_decimal d)
  | PNone | PStr _ => None
  end.

(** A float against an int.  Python compares the two by value.  An int of
    magnitude at most 2^53 is itself a binary64 value, so there the
    comparison is the IEEE one; beyond, the exact values are compared. *)
Definition float_lt_int (x : float) (y : Z) : bool :=
  if (Z.abs y <=? 2 ^ 53)%Z then (x <? float_of_Z y)%float
  else xnum_ltb (xnum_of_float x) (XRat y 1).

Definition int_lt_float (x : Z) (y : float) : bool :=
  if (Z.abs x <=? 2 ^ 53)%Z then (float_of_Z x <? y)%float
  else xnum_ltb (XRat x 1) (xnum_of_float y).

(** [a < b]. *)
Definition py_lt (a b : pyval) : outcome bool :=
  match a, b with
  | PInt x, PInt y => Return (x <? y)%Z
  | PFloat x, PFloat y => Return (x <? y)%float
  | PFloat x, PInt y => Return (float_lt_int x y)
  | PInt x, PFloat y => Return (int_lt_float x y)
  | PStr x, PStr y => Return (String.ltb x y)
  | _, _ =>
      match num_view a, num_view b with
      | Some x, Some y => Return (xnum_ltb x y)
      | _, _ => Raise TypeError
      end
  end.

(** [a > b]. *)
Definition py_gt (a b : pyval) : outcome bool := py_lt b a.

(** [a == b]; numbers of different types are equal when their values are. *)
Definition py_eqb (a b : pyval) : bool :=
  match a, b with
  | PNone, PNone => true
  | PStr x, PStr y => String.eqb x y
  | PInt x, PInt y => (x =? y)%Z
  | PFloat x, PFloat y => (x =? y)%float
  | _, _ =>
      match num_view a, num_view b with
      | Some x, Some y => xnum_eqb x y
      | _, _ => false
      end
  end.

(** The builtins [max(a, b)] and [min(a, b)] on floats: the first argument
    is kept unless the second is strictly beyond it. *)
Definition py_max (a b : float) : float := if (a <? b)%float then b else a.
Definition py_min (a b : float) : float := if (b <? a)%float then b else a.

(** [d[k]] and [d.get(k, default)]. *)
Definition dict_getitem (d : gmap string pyval) (k : string) : outcome pyval :=
  match d !! k with
  | Some v => Return v
  | None => Raise KeyError
  end.

Definition dict_get (d : gmap string pyval) (k : string) (dflt : pyval) : pyval :=
  default dflt (d !! k).

End Py.
Export Py.

(** ** The records of [bids/models.py] that the predictor reads *)

Module Models.

(** A JSON document, as held by a [JSONField]. JSON booleans are the ints
    0 and 1, as Python's [bool] is. *)
Inductive json : Type :=
  | JScalar (v : pyval)
  | JArray (items : list json)
  | JObject (members : list (string * json)).

Definition json_truthy (j : json) : bool :=
  match j with
  | JScalar v => py_truthy v
  | JArray items => match items with [] => false | _ :: _ => true end
  | JObject members => match members with [] => false | _ :: _ => true end
  end.

(** [len(j)]. *)
Definition json_len (j : json) : outcome Z :=
  match j with
  | JScalar (PStr s) => Return (Z.of_nat (String.length s))
  | JScalar _ => Raise TypeError
  | JArray items => Return (Z.of_nat (length items))
  | JObject members => Return (Z.of_nat (length members))
  end.

Record Customer : Type := {
  customer_pk : string;
  customer_type : string;
  industry : string;
  annual_revenue : option decimal;
  relationship_score : Z;
}.

(** Dates are day numbers. *)
Record Bid : Type := {
  id : string;
  description : string;
  bid_due_date : option Z;
  priority : string;
  complexity : string;
  business_unit : string;
  bid_level : string;
  bid_value : option decimal;
  estimated_cost : option decimal;
  profit_margin : option decimal;
  customer : Customer;
  region : string;
  team_members : list string;
  status : string;
  complexity_score : option decimal;
  requirements : json;
  review_cycle : Z;
}.

(** The property [Bid.days_until_due]; [today] is [timezone.now().date()]. *)
Definition days_until_due (today : Z) (self : Bid) : option Z :=
  match bid_due_date self with
  | Some due => Some (due - today)%Z
  | None => None
  end.

End Models.
Export Models.

(** ** Risk labels and recommendations: the pure parts of [BidPredictor] *)

(** A row of a [DataFrame], and a features dict: column name to value. *)
Abbreviation row := (gmap string pyval).

(** The body of the loop of [_calculate_risk_scores], for one row. *)
Definition risk_of_row (r : row) : outcome float :=
  let risk := 0.0%float in
  v ← dict_getitem r "bid_value";
  c ← py_gt v (PInt 1000000);
  let risk := if c : bool then (risk + 0.3)%float else risk in
  v ← dict_getitem r "customer_relationship_score";
  c ← py_lt v (PInt 30);
  let risk := if c : bool then (risk + 0.2)%float else risk in
  v ← dict_getitem r "complexity_score";
  c ← py_gt v (PFloat 0.7);
  let risk := if c : bool then (risk + 0.2)%float else risk in
  v ← dict_getitem r "days_until_due";
  c ← py_lt v (PInt 7);
  let risk := if c : bool then (risk + 0.2)%float else risk in
  Return (py_min (py_max risk 0) 1).

Fixpoint _calculate_risk_scores (df : list row) : outcome (list float) :=
  match df with
  | [] => Return []
  | r :: df' =>
      risk ← risk_of_row r;
      risks ← _calculate_risk_scores df';
      Return (risk :: risks)
  end.

(** The risk-label rule in the words of the specification: start at 0, add
    the weight of each condition that holds, clamp to [0,1]. *)
Definition clamp01 (x : float) : float :=
  if (x <? 0)%float then 0%float
  else if (1 <? x)%float then 1%float
  else x.

Definition risk_label_spec (bid_value relationship_score complexity_score : float)
    (days_until_due : Z) : float :=
  clamp01 (0
           + (if (1000000 <? bid_value)%float then 0.3 else 0)
           + (if (relationship_score <? 30)%float then 0.2 else 0)
           + (if (0.7 <? complexity_score)%float then 0.2 else 0)
           + (if (days_until_due <? 7)%Z then 0.2 else 0))%float.

(** The four columns the rule reads, typed as [_extract_features] fills them. *)
Definition risk_row (bid_value relationship_score complexity_score : float)
    (days_until_due : Z) : row :=
  {[ "bid_value" := PFloat bid_value;
     "customer_relationship_score" := PFloat relationship_score;
     "complexity_score" := PFloat complexity_score;
     "days_until_due" := PInt days_until_due ]}.

(** The result dict of [predict_for_bid]; the default result has no
    ['timestamp'] key. *)
Record prediction : Type := {
  win_probability : float;
  risk_score : float;
  confidence : float;
  features : row;
  timestamp : option string;
}.

Definition _get_default_prediction : prediction :=
  {| win_probability := 0.5;
     risk_score := 0.5;
     confidence := 0.5;
     features := ∅;
     timestamp := None |}.

Definition low_win_block : list string :=
  ["Consider revising bid strategy";
   "Strengthen customer relationship";
   "Review pricing strategy";
   "Enhance technical proposal"].

Definition mid_win_block : list string :=
  ["Focus on key differentiators";
   "Clarify scope and deliverables";
   "Strengthen risk mitigation plan";
   "Review competitive positioning"].

Definition high_risk_block : list string :=
  ["Implement enhanced risk monitoring";
   "Develop contingency plans";
   "Increase management oversight"].

Definition engagement_rec : string := "Schedule customer engagement meetings".
Definition accelerate_rec : string := "Accelerate review and approval process".

(** [get_recommendations]; [list(set(...))] yields the distinct elements in
    the set's iteration order, which is [elements] here. *)
Definition get_recommendations (bid : Bid) (p : prediction) : outcome (list string) :=
  let recommendations := [] in
  let recommendations :=
    if (win_probability p <? 0.3)%float then recommendations ++ low_win_block
    else if (win_probability p <? 0.6)%float then recommendations ++ mid_win_block
    else recommendations in
  let recommendations :=
    if (0.7 <? risk_score p)%float then recommendations ++ high_risk_block
    else recommendations in
  let features := features p in
  c ← py_lt (dict_get features "customer_relationship_score" (PInt 0)) (PInt 40);
  let recommendations :=
    if c : bool then recommendations ++ [engagement_rec] else recommendations in
  c ← py_lt (dict_get features "days_until_due" (PInt 0)) (PInt 14);
  let recommendations :=
    if c : bool then recommendations ++ [accelerate_rec] else recommendations in
  Return (elements (list_to_set recommendations : gset string)).

(** ** [sklearn.preprocessing.LabelEncoder] *)

Module LabelEncoder.

(** A label is a string or a number; missing values ([None], NaN) are not
    labels: [_encode_features] fills them before fitting. *)
Definition is_str (v : pyval) : bool :=
  match v with PStr _ => true | _ => false end.

Definition is_num (v : pyval) : bool :=
  match v with
  | PInt _ | PDec _ => true
  | PFloat f => negb (is_nan f)
  | PNone | PStr _ => false
  end.

(** Labels must be uniformly strings or uniformly numbers; sorting a mix
    raises [TypeError]. *)
Definition uniform (values : list pyval) : bool :=
  forallb is_str values || forallb is_num values.

Definition label_ltb (a b : pyval) : bool :=
  match py_lt a b with
  | Return c => c
  | Raise _ => false
  end.

(** Insertion into the sorted list of distinct labels. *)
Fixpoint insert_label (x : pyval) (sorted : list pyval) : list pyval :=
  match sorted with
  | [] => [x]
  | c :: rest =>
      if py_eqb x c then sorted
      else if label_ltb x c then x :: sorted
      else c :: insert_label x rest
  end.

(** [sorted(set(values))]. *)
Definition unique (values : list pyval) : list pyval :=
  foldr insert_label [] values.

(** Position of a label in the classes. *)
Fixpoint index_of (x : pyval) (classes : list pyval) : option Z :=
  match classes with
  | [] => None
  | c :: rest =>
      if py_eqb x c then Some 0%Z
      else Z.succ <$> index_of x rest
  end.

(** An encoder object; [classes_] is absent until it is fitted. *)
Record t : Type := LabelEncoder { classes_ : option (list pyval) }.

Definition new : t := LabelEncoder None.

(** Codes of [values] against fitted [classes]; a label that is not among
    the classes is "previously unseen": [ValueError]. *)
Fixpoint encode (classes : list pyval) (values : list pyval) : outcome (list Z) :=
  match values with
  | [] => Return []
  | v :: values' =>
      match index_of v classes with
      | None => Raise ValueError
      | Some code =>
          codes ← encode classes values';
          Return (code :: codes)
      end
  end.

Definition fit_transform (values : list pyval) : outcome (t * list Z) :=
  if uniform values then
    let classes := unique values in
    codes ← encode classes values;
    Return (LabelEncoder (Some classes), codes)
  else Raise TypeError.

Definition transform (self : t) (values : list pyval) : outcome (list Z) :=
  match classes_ self with
  | None => Raise NotFittedError
  | Some classes => encode classes values
  end.

End LabelEncoder.

(** ** Data frames *)

(** A [DataFrame] built from a list of dicts: its rows.  The column order
    is the insertion order of the keys of the dicts. *)
Abbreviation frame := (list row).

Definition column (df : frame) (c : string) : list pyval :=
  (λ r : row, dict_get r c PNone) <$> df.

(** Whether pandas gives a column the dtype [object]: it holds a string or
    a Decimal, or nothing but [None]. Ints and floats (with [None] read as
    NaN) make a numeric column. *)
Definition object_dtype (values : list pyval) : bool :=
  existsb (λ v, match v with PStr _ | PDec _ => true | _ => false end) values
  || forallb (λ v, match v with PNone => true | _ => false end) values.

(** [Series.fillna('unknown')]. *)
Definition fillna_unknown (v : pyval) : pyval :=
  match v with
  | PNone => PStr "unknown"
  | PFloat f => if is_nan f then PStr "unknown" else v
  | _ => v
  end.

(** [df[c] = values], row by row. *)
Fixpoint set_column (df : frame) (c : string) (values : list pyval) : frame :=
  match df, values with
  | r :: df', v :: values' => <[c := v]> r :: set_column df' c values'
  | _, _ => df
  end.

(** [df.drop(cols, axis=1)]. *)
Definition drop_columns (df : frame) (cols : list string) : frame :=
  (λ r : row, foldr delete r cols) <$> df.

Abbreviation matrix := (list (list float)).

(** ** The libraries around the predictor

    scikit-learn's estimators, numpy's seeded shuffle, the database's AVG
    aggregate and the parser behind [float(str)] are not part of the
    repository; the predictor is defined over any implementation of them. *)
Class Libraries : Type := {
  (** a fitted [GradientBoostingRegressor] *)
  regressor : Type;
  (** the statistics of a fitted [StandardScaler] *)
  scaler_stats : Type;
  (** [GradientBoostingRegressor(n_estimators=100, learning_rate=0.1,
      max_depth=5, random_state=42).fit(X, y)] *)
  gbr_fit : matrix → list float → outcome regressor;
  gbr_predict : regressor → matrix → outcome (list float);
  gbr_feature_importances : regressor → outcome (list float);
  (** [StandardScaler.fit_transform] and [transform] *)
  scaler_fit_transform : matrix → outcome (scaler_stats * matrix);
  scaler_transform : scaler_stats → matrix → outcome matrix;
  (** the row indices [(train, test)] that
      [train_test_split(test_size=0.2, random_state=42)] draws for a
      number of samples; it raises when a side would be empty *)
  shuffle_split : nat → outcome (list nat * list nat);
  (** SQL [AVG] over the non-NULL values of a column; NULL when there are none *)
  sql_avg : list decimal → option decimal;
  (** [float(s)] for a string, when [s] spells a number *)
  float_of_string : string → option float;
}.

(** [ceil(0.2 * n)], the size of the test side. *)
Definition n_test_of (n_samples : nat) : nat := (n_samples + 4) `div` 5.
Arguments n_test_of : simpl never.

(** What the claims below rely on: [fit] checks that [X] and [y] have the
    same number of samples ([check_consistent_length] raises [ValueError]
    otherwise); the split shuffles the row indices and gives
    [ceil(0.2 * n)] of them to the test side, the others to the train
    side. *)
Class LibrariesLaws (L : Libraries) : Prop := {
  gbr_fit_inconsistent (X : matrix) (y : list float) :
    length X ≠ length y → gbr_fit X y = Raise ValueError;
  shuffle_split_spec (n : nat) (train test : list nat) :
    shuffle_split n = Return (train, test) →
    train ++ test ≡ₚ seq 0 n ∧ length test = n_test_of n;
}.

(** A small implementation of the libraries, to run the predictor on
    concrete inputs: the regressor is the mean of its targets, the scaler
    the identity, the shuffle the identity permutation. *)
Definition mean (ys : list float) : float :=
  (foldr PrimFloat.add 0 ys / float_of_Z (Z.of_nat (length ys)))%float.

Definition toy_libraries : Libraries := {|
  regressor := float;
  scaler_stats := unit;
  gbr_fit X y :=
    if bool_decide (length X = length y) then Return (mean y)
    else Raise ValueError;
  gbr_predict m X := Return ((λ _, m) <$> X);
  gbr_feature_importances m := Return [];
  scaler_fit_transform X := Return (tt, X);
  scaler_transform _ X := Return X;
  shuffle_split n :=
    if bool_decide (n_test_of n < n)
    then Return (seq (n_test_of n) (n - n_test_of n), seq 0 (n_test_of n))
    else Raise ValueError;
  sql_avg values := head values;
  float_of_string _ := None;
|}.

Section predictor.
Context {L : Libraries}.

(** Conversion of a cell to float64 when a frame is handed to numpy. *)
Definition cell_to_float (v : pyval) : outcome float :=
  match v with
  | PInt z => Return (float_of_Z z)
  | PFloat f => Return f
  | PNone => Return nan
  | PDec d => Return (float_of_decimal d)
  | PStr s =>
      match float_of_string s with
      | Some f => Return f
      | None => Raise ValueError
      end
  end.

Definition row_to_floats (columns : list string) (r : row) : outcome (list float) :=
  mapM (λ c, cell_to_float (dict_get r c PNone)) columns.

Definition frame_to_matrix (columns : list string) (df : frame) : outcome matrix :=
  mapM (row_to_floats columns) df.

(** *** Feature extraction *)

(** [float(d or c)] for a nullable [DecimalField] [d] and a literal [c]. *)
Definition float_of_decimal_or (d : option decimal) (c : float) : float :=
  match d with
  | Some d => if py_truthy (PDec d) then float_of_decimal d else c
  | None => c
  end.

Definition status_in (b : Bid) (statuses : list string) : bool :=
  bool_decide (status b ∈ statuses).

(** The keys of the features dict, in the order of the dict literal. *)
Definition feature_columns : list string :=
  ["bid_value"; "estimated_cost"; "profit_margin"; "days_until_due";
   "complexity_score"; "customer_relationship_score";
   "customer_annual_revenue"; "customer_type"; "customer_industry";
   "historical_win_rate"; "avg_bid_value"; "team_size";
   "review_cycle_count"; "description_length"; "requirements_count";
   "business_unit"; "bid_level"; "priority"; "complexity"; "region"].

(** [_extract_features]; [table] is the [Bid] table, [today] the current
    date. *)
Definition _extract_features (table : list Bid) (today : Z) (bid : Bid)
    : outcome row :=
  let customer := customer bid in
  let customer_bids :=
    filter (λ b, customer_pk (Models.customer b) = customer_pk customer) table in
  let total_bids := length customer_bids in
  let historical_win_rate :=
    if (0 <? Z.of_nat total_bids)%Z then
      let won_bids :=
        length (filter (λ b, status b ∈ ["won"; "approved"]) customer_bids) in
      float_of_ratio (Z.of_nat won_bids) (Pos.of_nat total_bids)
    else 0.5%float in
  let avg_bid_value :=
    py_or (from_option PDec PNone (sql_avg (omap bid_value customer_bids)))
          (PInt 0) in
  requirements_count ←
    (if json_truthy (requirements bid) then json_len (requirements bid)
     else Return 0%Z);
  Return (list_to_map
    [("bid_value", PFloat (float_of_decimal_or (bid_value bid) 0));
     ("estimated_cost", PFloat (float_of_decimal_or (estimated_cost bid) 0));
     ("profit_margin", PFloat (float_of_decimal_or (profit_margin bid) 0));
     ("days_until_due", PInt (default 0%Z (days_until_due today bid)));
     ("complexity_score",
        PFloat (float_of_decimal_or (complexity_score bid) 0.5));
     ("customer_relationship_score",
        PFloat (float_of_Z (relationship_score customer)));
     ("customer_annual_revenue",
        PFloat (float_of_decimal_or (annual_revenue customer) 0));
     ("customer_type", PStr (customer_type customer));
     ("customer_industry",
        py_or (PStr (industry customer)) (PStr "unknown"));
     ("historical_win_rate", PFloat historical_win_rate);
     ("avg_bid_value", avg_bid_value);
     ("team_size", PInt (Z.of_nat (length (team_members bid)) + 1));
     ("review_cycle_count", PInt (review_cycle bid));
     ("description_length", PInt (Z.of_nat (String.length (description bid))));
     ("requirements_count", PInt requirements_count);
     ("business_unit", PStr (business_unit bid));
     ("bid_level", PStr (bid_level bid));
     ("priority", PStr (priority bid));
     ("complexity", PStr (complexity bid));
     ("region", PStr (region bid))]).

(** The two keys [prepare_training_data] adds to the features of a bid. *)
Definition add_labels (bid : Bid) (features : row) : row :=
  let features :=
    <["target" := PInt (if status_in bid ["won"; "approved"] then 1 else 0)]>
      features in
  <["bid_id" := PStr (id bid)]> features.

(** The bids with a decision status, in query order. *)
Definition eligible (table : list Bid) : list Bid :=
  filter (λ b, status b ∈ ["won"; "lost"; "approved"; "rejected"]) table.

(** *** The predictor object and its surroundings *)

(** What an attribute of the predictor, or a pickle file, may hold. *)
Inductive pyobj : Type :=
  | ONone
  (** a [GradientBoostingRegressor]; [None] inside until it is fitted *)
  | ORegressor (m : option regressor)
  (** a [StandardScaler]; [None] inside until it is fitted *)
  | OScaler (s : option scaler_stats)
  (** a dict of [LabelEncoder]s by column *)
  | OEncoders (d : gmap string LabelEncoder.t).

(** A file of the model directory. *)
Inductive blob : Type :=
  | Pickle (o : pyobj)
  | Json (items : list (string * float))
  | Garbage.

Inductive level : Type := INFO | WARNING | ERROR.

(** The effects a method performs, in order. *)
Inductive event : Type :=
  | Extract (bid_id : string)
  | Load (file : string)
  | Dump (file : string)
  | EncoderFit (column : string)
  | ScalerFit (n_samples : nat)
  | Fit (n_samples_X n_samples_y : nat)
  | Predict (n_samples : nat)
  | Log (lvl : level) (msg : string).

Record world : Type := World {
  (** the attributes of [self] *)
  win_predictor : pyobj;
  risk_predictor : pyobj;
  scaler : pyobj;
  label_encoders : pyobj;
  (** the files under [model_path], and the names that cannot be written *)
  files : gmap string blob;
  unwritable : gset string;
  (** the [Bid] table, the current date and the current time in ISO format *)
  table : list Bid;
  today : Z;
  clock : string;
  trace : list event;
}.

Definition set_win_predictor (o : pyobj) (w : world) : world :=
  World o (risk_predictor w) (scaler w) (label_encoders w)
        (files w) (unwritable w) (table w) (today w) (clock w) (trace w).
Definition set_risk_predictor (o : pyobj) (w : world) : world :=
  World (win_predictor w) o (scaler w) (label_encoders w)
        (files w) (unwritable w) (table w) (today w) (clock w) (trace w).
Definition set_scaler (o : pyobj) (w : world) : world :=
  World (win_predictor w) (risk_predictor w) o (label_encoders w)
        (files w) (unwritable w) (table w) (today w) (clock w) (trace w).
Definition set_label_encoders (o : pyobj) (w : world) : world :=
  World (win_predictor w) (risk_predictor w) (scaler w) o
        (files w) (unwritable w) (table w) (today w) (clock w) (trace w).
Definition set_files (fs : gmap string blob) (w : world) : world :=
  World (win_predictor w) (risk_predictor w) (scaler w) (label_encoders w)
        fs (unwritable w) (table w) (today w) (clock w) (trace w).
Definition set_trace (t : list event) (w : world) : world :=
  World (win_predictor w) (risk_predictor w) (scaler w) (label_encoders w)
        (files w) (unwritable w) (table w) (today w) (clock w) t.

(** [BidPredictor.__init__]: nothing loaded, a fresh scaler, no encoders. *)
Definition init (w : world) : world :=
  set_win_predictor ONone
    (set_risk_predictor ONone
      (set_scaler (OScaler None)
        (set_label_encoders (OEncoders ∅) w))).

(** Computations that read and change the world and may raise; the changes
    made before an exception stay. *)
Definition M (A : Type) : Type := world → outcome A * world.

#[global] Instance M_ret : MRet M := λ A a w, (Return a, w).
#[global] Instance M_bind : MBind M := λ A B f m w,
  match m w with
  | (Return a, w') => f a w'
  | (Raise e, w') => (Raise e, w')
  end.

Definition lift {A} (o : outcome A) : M A := λ w, (o, w).
Definition raise {A} (e : exn) : M A := λ w, (Raise e, w).
Definition gets {A} (f : world → A) : M A := λ w, (Return (f w), w).
Definition modify (f : world → world) : M unit := λ w, (Return tt, f w).
Definition emit (e : event) : M unit :=
  modify (λ w, set_trace (trace w ++ [e]) w).
Definition log (lvl : level) (msg : string) : M unit := emit (Log lvl msg).

(** [try: body except Exception as e: handler e]. *)
Definition try_except {A} (body : M A) (handler : exn → M A) : M A := λ w,
  match body w with
  | (Return a, w') => (Return a, w')
  | (Raise e, w') => handler e w'
  end.

(** *** Persistence *)

Definition joblib_load (file : string) : M pyobj :=
  emit (Load file);;
  fs ← gets files;
  match fs !! file with
  | Some (Pickle o) => mret o
  | Some _ => raise UnpicklingError
  | None => raise FileNotFoundError
  end.

Definition write_file (file : string) (content : blob) : M unit :=
  emit (Dump file);;
  ro ← gets unwritable;
  if bool_decide (file ∈ ro) then raise OSError
  else modify (λ w, set_files (<[file := content]> (files w)) w).

Definition joblib_dump (o : pyobj) (file : string) : M unit :=
  write_file file (Pickle o).

Definition save_models : M unit :=
  try_except
    (o ← gets win_predictor; joblib_dump o "win_predictor.pkl";;
     o ← gets risk_predictor; joblib_dump o "risk_predictor.pkl";;
     o ← gets scaler; joblib_dump o "scaler.pkl";;
     o ← gets label_encoders; joblib_dump o "label_encoders.pkl";;
     log INFO "Models saved successfully")
    (λ e, log ERROR "Error saving models").

Definition load_models : M unit :=
  try_except
    (o ← joblib_load "win_predictor.pkl"; modify (set_win_predictor o);;
     o ← joblib_load "risk_predictor.pkl"; modify (set_risk_predictor o);;
     o ← joblib_load "scaler.pkl"; modify (set_scaler o);;
     o ← joblib_load "label_encoders.pkl"; modify (set_label_encoders o);;
     log INFO "Models loaded successfully")
    (λ e, log ERROR "Error loading models";; raise e).

Definition model_files : list string :=
  ["win_predictor.pkl"; "risk_predictor.pkl"; "scaler.pkl";
   "label_encoders.pkl"].

Definition _models_exist : M bool :=
  fs ← gets files;
  mret (forallb (λ f, bool_decide (is_Some (fs !! f))) model_files).

(** *** Encoding and scaling *)

(** [self.label_encoders] used as a dict. *)
Definition encoders_dict : M (gmap string LabelEncoder.t) :=
  o ← gets label_encoders;
  match o with
  | OEncoders d => mret d
  | _ => raise TypeError
  end.

(** [df.select_dtypes(include=['object']).columns]. *)
Definition object_columns (columns : list string) (df : frame) : list string :=
  List.filter (λ c, object_dtype (column df c)) columns.

(** The loop of [_encode_features] over the object columns. *)
Fixpoint encode_columns (cols : list string) (X_encoded : frame) : M frame :=
  match cols with
  | [] => mret X_encoded
  | c :: cols' =>
      encoders ← encoders_dict;
      let values := fillna_unknown <$> column X_encoded c in
      codes ←
        match encoders !! c with
        | None =>
            modify (set_label_encoders
                      (OEncoders (<[c := LabelEncoder.new]> encoders)));;
            emit (EncoderFit c);;
            fitted ← lift (LabelEncoder.fit_transform values);
            modify (set_label_encoders
                      (OEncoders (<[c := fitted.1]> encoders)));;
            mret fitted.2
        | Some encoder => lift (LabelEncoder.transform encoder values)
        end;
      encode_columns cols' (set_column X_encoded c (PInt <$> codes))
  end.

Definition _encode_features (columns : list string) (X : frame) : M frame :=
  encode_columns (object_columns columns X) X.

(** [self.scaler.fit_transform(X)] and [self.scaler.transform(X)]. *)
Definition self_scaler_fit_transform (columns : list string) (X : frame)
    : M matrix :=
  o ← gets scaler;
  match o with
  | OScaler _ =>
      m ← lift (frame_to_matrix columns X);
      emit (ScalerFit (length m));;
      fitted ← lift (scaler_fit_transform m);
      modify (set_scaler (OScaler (Some fitted.1)));;
      mret fitted.2
  | _ => raise AttributeError
  end.

Definition self_scaler_transform (columns : list string) (X : frame)
    : M matrix :=
  o ← gets scaler;
  match o with
  | OScaler (Some stats) =>
      m ← lift (frame_to_matrix columns X);
      lift (scaler_transform stats m)
  | OScaler None => raise NotFittedError
  | _ => raise AttributeError
  end.

(** *** [train_test_split(X, y, test_size=0.2, random_state=42)] *)

(** [X[indices]]. *)
Definition take_rows {A} (X : list A) (indices : list nat) : outcome (list A) :=
  mapM (λ i, from_option Return (Raise IndexError) (X !! i)) indices.

Definition train_test_split {A B} (X : list A) (y : list B)
    : outcome (list A * list A * list B * list B) :=
  let n_samples := length X in
  if bool_decide (length y ≠ n_samples) then Raise ValueError
  else
    indices ← shuffle_split n_samples;
    let '(ind_train, ind_test) := indices in
    X_train ← take_rows X ind_train;
    X_test ← take_rows X ind_test;
    y_train ← take_rows y ind_train;
    y_test ← take_rows y ind_test;
    Return (X_train, X_test, y_train, y_test).

(** *** Fitting and predicting with the regressors *)

(** [reg.fit(X, y)] on a freshly built regressor. *)
Definition regressor_fit (X : matrix) (y : list float) : M pyobj :=
  emit (Fit (length X) (length y));;
  m ← lift (gbr_fit X y);
  mret (ORegressor (Some m)).

(** [o.predict(X)]. *)
Definition obj_predict (o : pyobj) (X : matrix) : M (list float) :=
  match o with
  | ORegressor (Some m) => emit (Predict (length X));; lift (gbr_predict m X)
  | ORegressor None => raise NotFittedError
  | _ => raise AttributeError
  end.

(** [sorted(items, key=lambda x: x[1], reverse=True)]: descending and
    stable. *)
Fixpoint insert_desc (x : string * float) (sorted : list (string * float))
    : list (string * float) :=
  match sorted with
  | [] => [x]
  | h :: rest =>
      if (h.2 <? x.2)%float then x :: sorted else h :: insert_desc x rest
  end.

Definition sort_desc (items : list (string * float)) : list (string * float) :=
  foldl (λ acc x, insert_desc x acc) [] items.

Definition _save_feature_importance (feature_names : list string) : M unit :=
  o ← gets win_predictor;
  match o with
  | ONone => mret tt
  | _ =>
      try_except
        (importance ←
           match o with
           | ORegressor (Some m) => lift (gbr_feature_importances m)
           | ORegressor None => raise NotFittedError
           | _ => raise AttributeError
           end;
         let feature_importance := zip feature_names importance in
         let sorted_importance := sort_desc feature_importance in
         write_file "feature_importance.json" (Json sorted_importance))
        (λ e, log ERROR "Error saving feature importance")
  end.

(** *** Training *)

(** [self._extract_features(bid)] against the world's bid table. *)
Definition extract_features_now (bid : Bid) : M row :=
  emit (Extract (id bid));;
  w ← gets (λ w, w);
  lift (_extract_features (table w) (today w) bid).

(** The loop of [prepare_training_data]. *)
Fixpoint training_rows (bids : list Bid) : M frame :=
  match bids with
  | [] => mret []
  | bid :: bids' =>
      features ← extract_features_now bid;
      data ← training_rows bids';
      mret (add_labels bid features :: data)
  end.

Definition prepare_training_data : M frame :=
  bids ← gets (λ w, eligible (table w));
  training_rows bids.

(** The number of distinct values of a column: [len(y.unique())]. *)
Definition n_unique (y : list pyval) : nat :=
  length (LabelEncoder.unique y).

(** The part of [train_models] after the guard on the number of rows. *)
Definition fit_models (df : frame) : M unit :=
  let X := drop_columns df ["target"; "bid_id"] in
  let y := column df "target" in
  X_encoded ← _encode_features feature_columns X;
  X_scaled ← self_scaler_fit_transform feature_columns X_encoded;
  split ← lift (train_test_split X_scaled y);
  let '(X_train, X_test, y_train, y_test) := split in
  (* the win predictor *)
  modify (set_win_predictor (ORegressor None));;
  y_train_f ← lift (mapM cell_to_float y_train);
  reg ← regressor_fit X_train y_train_f;
  modify (set_win_predictor reg);;
  y_pred ← obj_predict reg X_test;
  (if bool_decide (1 < n_unique y_test) then log INFO "Model Performance"
   else log INFO "Only one class in test data");;
  (* the risk predictor *)
  risk_scores ← lift (_calculate_risk_scores df);
  modify (set_risk_predictor (ORegressor None));;
  reg ← regressor_fit X_train risk_scores;
  modify (set_risk_predictor reg);;
  save_models;;
  _save_feature_importance feature_columns.

Definition train_models (retrain : bool) : M unit :=
  short_circuit ← (if negb retrain then _models_exist else mret false);
  if short_circuit : bool then load_models
  else
    df ← prepare_training_data;
    if bool_decide (length df < 10) then
      log WARNING "Not enough training data available"
    else fit_models df.

(** *** Prediction *)

(** The encoding loop of [predict_for_bid] over the object columns of the
    one-row frame. *)
Fixpoint encode_known_columns (cols : list string) (features_df : frame)
    : M frame :=
  match cols with
  | [] => mret features_df
  | c :: cols' =>
      encoders ← encoders_dict;
      match encoders !! c with
      | Some encoder =>
          codes ← lift (LabelEncoder.transform encoder
                          (take 1 (column features_df c)));
          encode_known_columns cols'
            (set_column features_df c (PInt <$> codes))
      | None => encode_known_columns cols' features_df
      end
  end.

(** [float(o.predict(X)[0])]. *)
Definition predict_first (o : pyobj) (X : matrix) : M float :=
  ys ← obj_predict o X;
  match ys with
  | y :: _ => mret y
  | [] => raise IndexError
  end.

(** The body of the [try] block of [predict_for_bid]. *)
Definition predict_with_models (features : row) : M prediction :=
  let features_df := [features] in
  features_df ←
    encode_known_columns (object_columns feature_columns features_df)
                         features_df;
  features_scaled ← self_scaler_transform feature_columns features_df;
  wp ← gets win_predictor;
  win_probability ← predict_first wp features_scaled;
  rp ← gets risk_predictor;
  risk_score ← predict_first rp features_scaled;
  let confidence := 0.8%float in
  now ← gets clock;
  mret {| win_probability := win_probability;
          risk_score := risk_score;
          confidence := confidence;
          features := features;
          timestamp := Some now |}.

Definition predict_for_bid (bid : Bid) : M prediction :=
  o ← gets win_predictor;
  loaded ←
    match o with
    | ONone => try_except (load_models;; mret true) (λ e, mret false)
    | _ => mret true
    end;
  if loaded : bool then
    features ← extract_features_now bid;
    try_except
      (predict_with_models features)
      (λ e, log ERROR "Error predicting for bid";;
            mret _get_default_prediction)
  else mret _get_default_prediction.

(** *** Vocabulary for the properties *)

(** An event that neither writes a file nor logs. *)
Definition silent (ev : event) : Prop :=
  match ev with
  | Dump _ | Log _ _ => False
  | _ => True
  end.

(** An event that does not write a file. *)
Definition not_a_write (ev : event) : Prop :=
  match ev with
  | Dump _ => False
  | _ => True
  end.

(** [w'] is [w] after some events allowed by [P], none of which touched the
    files or the bid table. *)
Definition after (P : event → Prop) (w w' : world) : Prop :=
  files w' = files w
  ∧ unwritable w' = unwritable w
  ∧ table w' = table w
  ∧ today w' = today w
  ∧ clock w' = clock w
  ∧ ∃ evs, trace w' = trace w ++ evs ∧ Forall P evs.

(** A computation all of whose runs are of that kind. *)
Definition emits {A} (P : event → Prop) (m : M A) : Prop :=
  ∀ w r w', m w = (r, w') → after P w w'.

(** The attributes of [self] are the same in both worlds. *)
Definition same_models (w w' : world) : Prop :=
  win_predictor w' = win_predictor w
  ∧ risk_predictor w' = risk_predictor w
  ∧ scaler w' = scaler w
  ∧ label_encoders w' = label_encoders w.

(** A computation that leaves the attributes of [self] alone. *)
Definition keeps_models {A} (m : M A) : Prop :=
  ∀ w r w', m w = (r, w') → same_models w w'.

(** The events of a successful [load_models]. *)
Definition load_events : list event :=
  [Load "win_predictor.pkl"; Load "risk_predictor.pkl"; Load "scaler.pkl";
   Load "label_encoders.pkl"; Log INFO "Models loaded successfully"].

(** The model is in memory, or gets loaded: [w1] is the world in which
    [predict_for_bid] goes on to extract the features. *)
Definition models_ready (w w1 : world) : Prop :=
  (win_predictor w ≠ ONone ∧ w1 = w)
  ∨ (win_predictor w = ONone ∧ load_models w = (Return tt, w1)).

(** [train_models] does not take the short circuit: retraining is forced,
    or one of the four files is missing. *)
Definition training_path (retrain : bool) (w : world) : Prop :=
  retrain = true ∨ ∃ f, f ∈ model_files ∧ files w !! f = None.

(** The bids of the customer of [bid] in the table: the query
    [Bid.objects.filter(customer=customer)]. *)
Definition bids_of_customer (tbl : list Bid) (bid : Bid) : list Bid :=
  filter (λ b, customer_pk (customer b) = customer_pk (customer bid)) tbl.

Definition won_or_approved (bids : list Bid) : list Bid :=
  filter (λ b, status b ∈ ["won"; "approved"]) bids.

(** The prediction of the specification's example: win probability 0.2,
    risk score 0.8, and two features. *)
Definition example_prediction (conf : float) (ts : option string) : prediction :=
  {| win_probability := 0.2;
     risk_score := 0.8;
     confidence := conf;
     features := {[ "customer_relationship_score" := PInt 20;
                    "days_until_due" := PInt 5 ]};
     timestamp := ts |}.

(** All four model files exist and unpickle. *)
Definition artifacts_loadable (w : world) : Prop :=
  ∀ f, f ∈ model_files → ∃ o, files w !! f = Some (Pickle o).

(** The predictor the example runs start from: [BidPredictor()] in an
    empty model directory. *)
Definition fresh_world (bids : list Bid) : world :=
  {| win_predictor := ONone;
     risk_predictor := ONone;
     scaler := OScaler None;
     label_encoders := OEncoders ∅;
     files := ∅;
     unwritable := ∅;
     table := bids;
     today := 100;
     clock := "2024-01-01T00:00:00";
     trace := [] |}.

(** The model directory with the four artifact files, the first one given. *)
Definition stocked_files (win : blob) : gmap string blob :=
  {[ "win_predictor.pkl" := win;
     "risk_predictor.pkl" := Pickle (ORegressor None);
     "scaler.pkl" := Pickle (OScaler None);
     "label_encoders.pkl" := Pickle (OEncoders ∅) ]}.

(** The result of a training run on [n] rows that stops at the fit of the
    risk regressor, or before: an exception, no file touched, and either
    only silent events -- an earlier step raised -- or silent events, the
    log line of the evaluation, and the call of [fit] with the train side of
    the features and the risk labels of all [n] rows, which raises
    [ValueError]. *)
Definition stops_at_risk_fit (n : nat) (w : world)
    (res : outcome unit * world) : Prop :=
  ∃ e w' evs,
    res = (Raise e, w')
    ∧ files w' = files w
    ∧ table w' = table w
    ∧ trace w' = trace w ++ evs
    ∧ (Forall silent evs
       ∨ ∃ evs1 msg,
           evs = evs1 ++ [Log INFO msg; Fit (n - n_test_of n) n]
           ∧ Forall silent evs1
           ∧ e = ValueError).

(** The risk label of the training row of a bid: the rule applied to the
    four features as [_extract_features] computes them. *)
Definition risk_label_of_bid (today : Z) (bid : Bid) : float :=
  risk_label_spec (float_of_decimal_or (bid_value bid) 0)
                  (float_of_Z (relationship_score (customer bid)))
                  (float_of_decimal_or (complexity_score bid) 0.5)
                  (default 0%Z (days_until_due today bid)).

(** The prior bids of the customer of [bid]: the customer's bids in the
    table other than [bid] itself. *)
Definition prior_bids (tbl : list Bid) (bid : Bid) : list Bid :=
  filter (λ b, id b ≠ id bid) (bids_of_customer tbl bid).




(** *** The status of the model files *)

(** The result dict of [get_model_status]. *)
Record model_status : Type := {
  ms_name : string;
  ms_status : string;
  ms_accuracy : option float;
  ms_last_trained : option string;
  ms_version : option string;
}.

Definition error_status (model_name : string) : model_status :=
  {| ms_name := model_name;
     ms_status := "error";
     ms_accuracy := None;
     ms_last_trained := None;
     ms_version := None |}.

Section status.

(** What the status methods take from their surroundings: the truth value
    [bool(reg)] of a regressor object, which scikit-learn's ensembles
    define through [__len__] and which may raise; the time of the last
    modification of a file of the model directory as the local datetime
    [datetime.fromtimestamp(st_mtime)], counted in microseconds; and
    [datetime.isoformat]. *)
Context (regressor_bool : option regressor → outcome bool).
Context (mtime : string → Z) (isoformat : Z → string).

(** [bool(o)] for an attribute of the predictor: [None] and the empty dict
    are false, a scaler is true. *)
Definition obj_truthy (o : pyobj) : outcome bool :=
  match o with
  | ONone => Return false
  | ORegressor m => regressor_bool m
  | OScaler _ => Return true
  | OEncoders d => Return (negb (bool_decide (size d = 0)))
  end.

(** [name == literal and attribute], as the condition of an [if]. *)
Definition named_and_truthy (model_name literal : string) (o : pyobj)
    : M bool :=
  if String.eqb model_name literal then lift (obj_truthy o) else mret false.

(** The model whose status is asked for: the regressor in memory when the
    name is its name and it is true, else the object in the file. *)
Definition status_model (model_name model_file : string) : M pyobj :=
  wp ← gets win_predictor;
  use_win ← named_and_truthy model_name "win_predictor" wp;
  if use_win : bool then mret wp
  else
    rp ← gets risk_predictor;
    use_risk ← named_and_truthy model_name "risk_predictor" rp;
    if use_risk : bool then mret rp
    else joblib_load model_file.

Definition get_model_status (model_name : string) : M model_status :=
  try_except
    (let model_file := model_name +:+ ".pkl" in
     fs ← gets files;
     if negb (bool_decide (is_Some (fs !! model_file))) then
       mret (error_status model_name)
     else
       try_except
         (model ← status_model model_name model_file;
          let last_trained := isoformat (mtime model_file) in
          (* [getattr(model, 'score_', None)]: no object of [pyobj] has
             an attribute [score_] *)
          mret {| ms_name := model_name;
                  ms_status := "trained";
                  ms_accuracy := None;
                  ms_last_trained := Some last_trained;
                  ms_version := Some "1.0" |})
         (λ e, log ERROR "Error loading model";;
               mret (error_status model_name)))
    (λ e, log ERROR "Error getting model status";;
          mret (error_status model_name)).

(** The result of [get_model_status] for a model that counts as trained. *)
Definition trained_status (model_name : string) : model_status :=
  {| ms_name := model_name;
     ms_status := "trained";
     ms_accuracy := None;
     ms_last_trained := Some (isoformat (mtime (model_name +:+ ".pkl")));
     ms_version := Some "1.0" |}.

(** The loop of [get_last_training_time] over the two regressor files. *)
Definition later_of (fs : gmap string blob) (latest_time : option Z)
    (model_file : string) : option Z :=
  if bool_decide (is_Some (fs !! model_file)) then
    let file_time := mtime model_file in
    match latest_time with
    | None => Some file_time
    | Some latest => if (latest <? file_time)%Z then Some file_time
                     else latest_time
    end
  else latest_time.

Definition get_last_training_time : M (option string) :=
  try_except
    (fs ← gets files;
     let model_files := ["win_predictor.pkl"; "risk_predictor.pkl"] in
     let latest_time := foldl (later_of fs) None model_files in
     mret (isoformat <$> latest_time))
    (λ e, log ERROR "Error getting last training time";; mret None).

End status.

(** *** The callers of the predictor *)

(** An HTTP response: 200 with a body, or 500 with an error message. *)
Inductive response (A : Type) : Type :=
  | Response200 (body : A)
  | Response500 (error : string).
#[global] Arguments Response200 {A} body.
#[global] Arguments Response500 {A} error.

Record training_report : Type := {
  message : string;
  models : list string;
  report_timestamp : string;
}.

Record status_report : Type := {
  models_status : list model_status;
  last_training : option string;
}.

(** A line written to the console by the management command. *)
Inductive console_line : Type :=
  | Plain (text : string)
  | StyleSuccess (text : string)
  (** [self.style.ERROR(f'Error: {e}')] *)
  | StyleError (e : exn).

Section callers.

(** [timezone.now().isoformat()], besides the surroundings of the status
    methods. *)
Context (timezone_now : string).
Context (regressor_bool : option regressor → outcome bool).
Context (mtime : string → Z) (isoformat : Z → string).

(** [MLTrainingView.post] in [bids/views.py]; [BidPredictor()] is [init]. *)
Definition MLTrainingView_post : M (response training_report) :=
  try_except
    (modify init;;
     train_models true;;
     mret (Response200
             {| message := "ML models trained successfully";
                models := ["win_predictor"; "risk_predictor"];
                report_timestamp := timezone_now |}))
    (λ e, log ERROR "Error training ML models";;
          mret (Response500 "Failed to train models")).

(** [MLTrainingView.get]. *)
Definition MLTrainingView_get : M (response status_report) :=
  try_except
    (modify init;;
     win_model_status ←
       try_except
         (get_model_status regressor_bool mtime isoformat "win_predictor")
         (λ e, mret (error_status "win_predictor"));
     risk_model_status ←
       try_except
         (get_model_status regressor_bool mtime isoformat "risk_predictor")
         (λ e, mret (error_status "risk_predictor"));
     last ← get_last_training_time mtime isoformat;
     mret (Response200
             {| models_status := [win_model_status; risk_model_status];
                last_training := last |}))
    (λ e, log ERROR "Error getting ML model status";;
          mret (Response500 "Failed to get model status")).

(** The task [train_ml_models] in [bids/tasks.py]. *)
Definition train_ml_models : M string :=
  try_except
    (modify init;;
     train_models true;;
     log INFO "ML models trained successfully";;
     mret "Models trained successfully")
    (λ e, log ERROR "Error training ML models";; raise e).

(** [Command.handle] in [bids/management/commands/init_ml_models.py]:
    its result here is what it has written to the console. *)
Definition Command_handle (retrain : bool) : M (list console_line) :=
  let written := [Plain "Initializing ML models..."] in
  try_except
    (let written := written ++ [Plain "Training bid predictor..."] in
     modify init;;
     train_models retrain;;
     mret (written
           ++ [StyleSuccess "Successfully initialized ML models"]))
    (λ e, log ERROR "Error initializing ML models";;
          mret (written ++ [Plain "Training bid predictor..."; StyleError e])).

End callers.

(** The fields of a bid that [update_bid_predictions] assigns before it
    saves the bid. *)
Record bid_update : Type := {
  new_win_probability : float;
  new_risk_score : float;
  new_ai_recommendations : list string;
  new_ml_features : row;
}.

(** The bids [update_bid_predictions] goes through: the query
    [Bid.objects.exclude(status__in=['won', 'lost', 'cancelled'])]. *)
Definition active_bids (table : list Bid) : list Bid :=
  filter (λ b, status b ∉ ["won"; "lost"; "cancelled"]) table.

Section tasks.

(** [bid.save(update_fields=[...])]: whether the database takes the
    values.  The fields it writes are not among those the predictor
    reads. *)
Context (bid_save : Bid → bid_update → outcome unit).

(** The body of the [try] block in the loop of [update_bid_predictions]. *)
Definition update_bid (bid : Bid) : M unit :=
  prediction ← predict_for_bid bid;
  let win := (win_probability prediction * 100)%float in
  let risk := (risk_score prediction * 100)%float in
  recommendations ← lift (get_recommendations bid prediction);
  lift (bid_save bid {| new_win_probability := win;
                        new_risk_score := risk;
                        new_ai_recommendations := recommendations;
                        new_ml_features := features prediction |}).

(** The loop. *)
Fixpoint update_bids (bids : list Bid) (updated_count : nat) : M nat :=
  match bids with
  | [] => mret updated_count
  | bid :: bids' =>
      updated_count ←
        try_except
          (update_bid bid;; mret (S updated_count))
          (λ e, log ERROR "Error updating predictions for bid";;
                mret updated_count);
      update_bids bids' updated_count
  end.

(** The task [update_bid_predictions] in [bids/tasks.py].  The query set
    of the active bids is lazy: the query runs when the loop starts, after
    the models were loaded or trained. *)
Definition update_bid_predictions : M string :=
  try_except
    (modify init;;
     try_except load_models
       (λ e, log INFO "Models not found, training new models...";;
             train_models false);;
     bids ← gets (λ w, active_bids (table w));
     updated_count ← update_bids bids 0;
     log INFO "Updated predictions";;
     mret ("Updated " +:+ pretty updated_count +:+ " bids"))
    (λ e, log ERROR "Error in update_bid_predictions task";; raise e).

End tasks.

(** The recommendations for the default prediction, and the values a bid
    gets from it. *)
Definition default_recommendations : list string :=
  elements (list_to_set (mid_win_block ++ [engagement_rec; accelerate_rec])
              : gset string).

Definition default_update : bid_update :=
  {| new_win_probability := 50;
     new_risk_score := 50;
     new_ai_recommendations := default_recommendations;
     new_ml_features := ∅ |}.

(** *** More vocabulary *)

(** The attributes of [self] with the files they are saved to, in the
    order in which [save_models] writes and [load_models] reads them. *)
Definition model_attrs (w : world) : list (string * pyobj) :=
  [("win_predictor.pkl", win_predictor w);
   ("risk_predictor.pkl", risk_predictor w);
   ("scaler.pkl", scaler w);
   ("label_encoders.pkl", label_encoders w)].

(** The model directory after the first [n] of these were dumped. *)
Definition saved_files (w : world) (n : nat) : gmap string blob :=
  foldl (λ fs fo, <[fo.1 := Pickle fo.2]> fs) (files w)
    (take n (model_attrs w)).

(** The exception of a load that fails on [f]. *)
Definition load_failure (w : world) (f : string) (r : outcome unit) : Prop :=
  (files w !! f = None ∧ r = Raise FileNotFoundError)
  ∨ ((∃ b, files w !! f = Some b ∧ ∀ o, b ≠ Pickle o)
     ∧ r = Raise UnpicklingError).

(** A computation that leaves an attribute of the world alone. *)
Definition preserves {A B} (attr : world → B) (m : M A) : Prop :=
  ∀ w r w', m w = (r, w') → attr w' = attr w.

(** An event of a prediction from the models in memory: no file of the
    model directory is read or written and nothing is fitted. *)
Definition in_memory (ev : event) : Prop :=
  match ev with
  | Extract _ | Predict _ | Log _ _ => True
  | _ => False
  end.

(** An event that is not a fit: of an encoder, of the scaler or of a
    regressor. *)
Definition not_a_fit (ev : event) : Prop :=
  match ev with
  | EncoderFit _ | ScalerFit _ | Fit _ _ => False
  | _ => True
  end.

(** The risk predictor is [None] or an unfitted regressor. *)
Definition risk_unfitted (w : world) : Prop :=
  risk_predictor w = ONone ∨ risk_predictor w = ORegressor None.

(** A run that raises and leaves the risk predictor as it was, or
    unfitted. *)
Definition stops_unfitted (w : world) (res : outcome unit * world) : Prop :=
  ∃ e w', res = (Raise e, w')
          ∧ (risk_predictor w' = risk_predictor w
             ∨ risk_predictor w' = ORegressor None).

(** Every string [get_recommendations] can return. *)
Definition all_recommendations : list string :=
  low_win_block ++ mid_win_block ++ high_risk_block
    ++ [engagement_rec; accelerate_rec].

(** A list of pairs in descending order of the second component. *)
Definition descending (items : list (string * float)) : Prop :=
  ∀ i j a b, i < j → items !! i = Some a → items !! j = Some b →
             (b.2 <=? a.2)%float = true.

(** No element is before a larger one. *)
Fixpoint no_ascent (items : list (string * float)) : Prop :=
  match items with
  | [] => True
  | a :: rest => Forall (λ b, (a.2 <? b.2)%float = false) rest ∧ no_ascent rest
  end.

(** A [requirements] document on which [len] is undefined: a number or a
    boolean that is true. *)
Definition unsized_requirements (bid : Bid) : Prop :=
  ∃ v, requirements bid = JScalar v
       ∧ py_truthy v = true
       ∧ LabelEncoder.is_str v = false.

End predictor.

(** ** Concrete inputs

    The inputs of the example runs, over [toy_libraries]. *)

Definition acme : Customer := {|
  customer_pk := "c-1";
  customer_type := "corporate";
  industry := "";
  annual_revenue := None;
  relationship_score := 10;
|}.

(** A bid of 2,000,000.00 for [acme], due on day 103. *)
Definition bid_1 : Bid := {|
  id := "b-1";
  description := "Data centre refresh";
  bid_due_date := Some 103%Z;
  priority := "high";
  complexity := "complex";
  business_unit := "JIS";
  bid_level := "A";
  bid_value := Some (Decimal 200000000 (-2));
  estimated_cost := None;
  profit_margin := None;
  customer := acme;
  region := "EMEA";
  team_members := [];
  status := "won";
  complexity_score := Some (Decimal 90 (-2));
  requirements := JObject [];
  review_cycle := 1;
|}.

(** [bid_1] under another key, with another status and region. *)
Definition bid_like (key st reg : string) : Bid := {|
  id := key;
  description := description bid_1;
  bid_due_date := bid_due_date bid_1;
  priority := priority bid_1;
  complexity := complexity bid_1;
  business_unit := business_unit bid_1;
  bid_level := bid_level bid_1;
  bid_value := bid_value bid_1;
  estimated_cost := estimated_cost bid_1;
  profit_margin := profit_margin bid_1;
  customer := customer bid_1;
  region := reg;
  team_members := team_members bid_1;
  status := st;
  complexity_score := complexity_score bid_1;
  requirements := requirements bid_1;
  review_cycle := review_cycle bid_1;
|}.

(** Ten bids with a decision and one draft. *)
Definition ten_bids : list Bid :=
  [bid_like "b-0" "won" "EMEA"; bid_like "b-1" "lost" "APAC";
   bid_like "b-2" "approved" "EMEA"; bid_like "b-3" "rejected" "AMER";
   bid_like "b-4" "won" "APAC"; bid_like "b-5" "draft" "EMEA";
   bid_like "b-6" "lost" "EMEA"; bid_like "b-7" "won" "AMER";
   bid_like "b-8" "lost" "APAC"; bid_like "b-9" "won" "EMEA";
   bid_like "b-10" "approved" "AMER"].

(** A predictor with models in memory whose encoder of [region] was fitted
    on "APAC" only; [fitted] says whether the scaler is fitted. *)
Definition apac_world (fitted : bool) : world (L := toy_libraries) :=
  {| win_predictor := ORegressor (L := toy_libraries) (Some 0.7%float);
     risk_predictor := ORegressor (L := toy_libraries) (Some 0.2%float);
     scaler := OScaler (L := toy_libraries) (if fitted then Some tt else None);
     label_encoders :=
       OEncoders {[ "region" := LabelEncoder.LabelEncoder
                                  (Some [PStr "APAC"]) ]};
     files := ∅;
     unwritable := ∅;
     table := [bid_1];
     today := 100;
     clock := "2024-01-01T00:00:00";
     trace := [] |}.

(** A model directory with the four files, and one whose first file is
    not a pickle; no model in memory, no bid. *)
Definition stocked_world_with (win : blob) : world (L := toy_libraries) :=
  {| win_predictor := ONone;
     risk_predictor := ONone;
     scaler := OScaler None;
     label_encoders := OEncoders ∅;
     files := stocked_files win;
     unwritable := ∅;
     table := [];
     today := 100;
     clock := "2024-01-01T00:00:00";
     trace := [] |}.

Definition stocked_world : world (L := toy_libraries) :=
  stocked_world_with (Pickle (ORegressor (L := toy_libraries) (Some 0.7%float))).

Definition corrupt_world : world (L := toy_libraries) :=
  stocked_world_with Garbage.


(** The value of a computation that returned. *)
Definition returned {A} (dflt : A) (o : outcome A) : A :=
  match o with
  | Return a => a
  | Raise _ => dflt
  end.

Definition is_return {A} (o : outcome A) : bool :=
  match o with
  | Return _ => true
  | Raise _ => false
  end.

(** A bid whose [requirements] document is the number 5. *)
Definition bid_with_number : Bid := {|
  id := "b-n";
  description := description bid_1;
  bid_due_date := bid_due_date bid_1;
  priority := priority bid_1;
  complexity := complexity bid_1;
  business_unit := business_unit bid_1;
  bid_level := bid_level bid_1;
  bid_value := bid_value bid_1;
  estimated_cost := estimated_cost bid_1;
  profit_margin := profit_margin bid_1;
  customer := customer bid_1;
  region := region bid_1;
  team_members := team_members bid_1;
  status := "lost";
  complexity_score := complexity_score bid_1;
  requirements := JScalar (PInt 5);
  review_cycle := review_cycle bid_1;
|}.

(** [bid_1] without a due date. *)
Definition bid_without_due_date : Bid := {|
  id := "b-d";
  description := description bid_1;
  bid_due_date := None;
  priority := priority bid_1;
  complexity := complexity bid_1;
  business_unit := business_unit bid_1;
  bid_level := bid_level bid_1;
  bid_value := bid_value bid_1;
  estimated_cost := estimated_cost bid_1;
  profit_margin := profit_margin bid_1;
  customer := customer bid_1;
  region := region bid_1;
  team_members := team_members bid_1;
  status := "draft";
  complexity_score := complexity_score bid_1;
  requirements := requirements bid_1;
  review_cycle := review_cycle bid_1;
|}.

(** A predictor with fitted models in memory and an encoder for every
    string column, fitted on the values of [bid_1]. *)
Definition trained_world : world (L := toy_libraries) :=
  {| win_predictor := ORegressor (L := toy_libraries) (Some 0.7%float);
     risk_predictor := ORegressor (L := toy_libraries) (Some 0.2%float);
     scaler := OScaler (L := toy_libraries) (Some tt);
     label_encoders :=
       OEncoders (list_to_map
         [("customer_type",
             LabelEncoder.LabelEncoder (Some [PStr "corporate"]));
          ("customer_industry",
             LabelEncoder.LabelEncoder (Some [PStr "unknown"]));
          ("business_unit", LabelEncoder.LabelEncoder (Some [PStr "JIS"]));
          ("bid_level", LabelEncoder.LabelEncoder (Some [PStr "A"]));
          ("priority", LabelEncoder.LabelEncoder (Some [PStr "high"]));
          ("complexity", LabelEncoder.LabelEncoder (Some [PStr "complex"]));
          ("region",
             LabelEncoder.LabelEncoder (Some [PStr "APAC"; PStr "EMEA"]))]);
     files := ∅;
     unwritable := ∅;
     table := [bid_1];
     today := 100;
     clock := "2024-01-01T00:00:00";
     trace := [] |}.

(** A model directory in which the scaler file cannot be written. *)
Definition read_only_scaler_world : world (L := toy_libraries) :=
  {| win_predictor := ORegressor (L := toy_libraries) (Some 0.7%float);
     risk_predictor := ORegressor (L := toy_libraries) (Some 0.2%float);
     scaler := OScaler (L := toy_libraries) (Some tt);
     label_encoders := OEncoders ∅;
     files := ∅;
     unwritable := {[ "scaler.pkl" ]};
     table := [];
     today := 100;
     clock := "2024-01-01T00:00:00";
     trace := [] |}.

(** The surroundings of the status methods and of the task, for the
    example runs: a fitted regressor is true, an unfitted one raises; the
    modification time of a file is the length of its name; a save fails
    for the bid "b-5". *)
Definition toy_regressor_bool (m : option float) : outcome bool :=
  match m with
  | Some _ => Return true
  | None => Raise AttributeError
  end.

Definition toy_mtime (file : string) : Z := Z.of_nat (String.length file).

Definition toy_isoformat (t : Z) : string := pretty t.

Definition toy_bid_save (bid : Bid) (u : bid_update) : outcome unit :=
  if String.eqb (id bid) "b-5" then Raise ValueError else Return tt.

(* ===================================================================== *)
(** * Properties *)

Section properties.
Context {L : Libraries}.

(** ** Risk labels *)

Lemma risk_of_row_typed (r : row) (bv rs cs : float) (d : Z) :
  r !! "bid_value" = Some (PFloat bv) →
  r !! "customer_relationship_score" = Some (PFloat rs) →
  r !! "complexity_score" = Some (PFloat cs) →
  r !! "days_until_due" = Some (PInt d) →
  risk_of_row r = Return (risk_label_spec bv rs cs d).
Proof.
  intros Hbv Hrs Hcs Hd.
  unfold risk_of_row, dict_getitem.
  rewrite Hbv, Hrs, Hcs, Hd. cbn.
  change (int_lt_float 1000000 bv) with (1000000 <? bv)%float.
  change (float_lt_int rs 30) with (rs <? 30)%float.
  unfold risk_label_spec.
  destruct (1000000 <? bv)%float, (rs <? 30)%float, (0.7 <? cs)%float,
    (d <? 7)%Z; reflexivity.
Qed.

(** The features of a bid, where they matter to the risk rule. *)
Lemma extract_features_risk_columns (tbl : list Bid) (now : Z) (bid : Bid)
    (features : row) :
  _extract_features tbl now bid = Return features →
  features !! "bid_value"
    = Some (PFloat (float_of_decimal_or (bid_value bid) 0))
  ∧ features !! "customer_relationship_score"
    = Some (PFloat (float_of_Z (relationship_score (customer bid))))
  ∧ features !! "complexity_score"
    = Some (PFloat (float_of_decimal_or (complexity_score bid) 0.5))
  ∧ features !! "days_until_due"
    = Some (PInt (default 0%Z (days_until_due now bid))).
Proof.
  unfold _extract_features. intros H.
  destruct (if json_truthy (requirements bid) then _ else _) as [n|e];
    [|discriminate].
  cbn in H. injection H as <-.
  repeat split; reflexivity.
Qed.

(** The risk label of the training row of a bid. *)
Lemma training_row_risk_label (tbl : list Bid) (now : Z) (bid : Bid)
    (features : row) :
  _extract_features tbl now bid = Return features →
  risk_of_row (add_labels bid features)
  = Return (risk_label_spec
              (float_of_decimal_or (bid_value bid) 0)
              (float_of_Z (relationship_score (customer bid)))
              (float_of_decimal_or (complexity_score bid) 0.5)
              (default 0%Z (days_until_due now bid))).
Proof.
  intros H.
  destruct (extract_features_risk_columns _ _ _ _ H) as (Hbv & Hrs & Hcs & Hd).
  apply risk_of_row_typed; unfold add_labels;
    rewrite !lookup_insert_ne by done; assumption.
Qed.

(** C3 (as stated, refuted): the label of the row (2,000,000, 10, 0.9, 3)
    is not 1.0. *)
Lemma risk_label_all_conditions_not_one :
  risk_of_row (risk_row 2000000 10 0.9 3) ≠ Return 1%float.
Proof. vm_compute. intros [=]. Qed.

(** C3 (amended): with all four conditions met the label is the binary64
    sum 0.0 + 0.3 + 0.2 + 0.2 + 0.2 = 0.8999999999999999, below 1, which the
    clamp leaves as it is; the same holds when the score and the value are
    given as ints. *)
Theorem risk_label_all_conditions :
  risk_of_row (risk_row 2000000 10 0.9 3) = Return 0.8999999999999999%float
  ∧ risk_of_row {[ "bid_value" := PInt 2000000;
                   "customer_relationship_score" := PInt 10;
                   "complexity_score" := PFloat 0.9;
                   "days_until_due" := PInt 3 ]}
    = Return 0.8999999999999999%float
  ∧ (0.0 + 0.3 + 0.2 + 0.2 + 0.2 = 0.8999999999999999)%float
  ∧ clamp01 0.8999999999999999 = 0.8999999999999999%float.
Proof. repeat split; reflexivity. Qed.

(** ** Feature extraction *)

(** Extraction raises only on a [requirements] document that is a number,
    on which [len] is undefined. *)
Lemma extract_features_returns (tbl : list Bid) (now : Z) (bid : Bid) :
  (∀ v, requirements bid = JScalar v → py_truthy v = false ∨ ∃ s, v = PStr s) →
  returns (_extract_features tbl now bid).
Proof.
  intros Hreq. unfold _extract_features.
  destruct (requirements bid) as [v|items|members] eqn:E; cbn.
  - destruct (Hreq v eq_refl) as [->|[s ->]].
    + eexists; reflexivity.
    + destruct (py_truthy (PStr s)); eexists; reflexivity.
  - destruct items; eexists; reflexivity.
  - destruct members; eexists; reflexivity.
Qed.

(** A bid that is not in the table is none of the bids of its customer. *)
Lemma prior_bids_other (tbl : list Bid) (bid : Bid) :
  id bid ∉ id <$> tbl →
  prior_bids tbl bid = bids_of_customer tbl bid.
Proof.
  intros Hid. unfold prior_bids, bids_of_customer.
  induction tbl as [|a tbl IH]; [reflexivity|].
  apply not_elem_of_cons in Hid as [Ha Hid].
  rewrite filter_cons. destruct (decide _) as [Hq|Hq]; [|apply IH, Hid].
  rewrite filter_cons_True by (intros Heq; apply Ha; symmetry; exact Heq).
  f_equal. apply IH, Hid.
Qed.

(** A saved bid is one of the bids of its customer: the customer has one
    bid more than prior bids. *)
Lemma bids_of_customer_saved (tbl : list Bid) (bid : Bid) :
  bid ∈ tbl → NoDup (id <$> tbl) →
  length (bids_of_customer tbl bid) = S (length (prior_bids tbl bid)).
Proof.
  induction tbl as [|a tbl IH]; intros Hin Hnd; [inversion Hin|].
  cbn [fmap list_fmap] in Hnd. apply NoDup_cons in Hnd as [Ha Hnd].
  apply elem_of_cons in Hin as [<-|Hin].
  - unfold prior_bids, bids_of_customer.
    rewrite filter_cons_True by reflexivity.
    rewrite filter_cons_False by (intros Hne; apply Hne; reflexivity).
    cbn [length]. f_equal. symmetry.
    exact (f_equal length (prior_bids_other tbl bid Ha)).
  - assert (id a ≠ id bid) as Hne.
    { intros Heq. apply Ha. rewrite Heq.
      apply list_elem_of_fmap_2, Hin. }
    specialize (IH Hin Hnd). unfold prior_bids, bids_of_customer in *.
    rewrite filter_cons. destruct (decide _) as [Hq|Hq]; [|exact IH].
    rewrite filter_cons_True by exact Hne. cbn [length]. rewrite IH.
    reflexivity.
Qed.

(** C8 (amended): the query behind historical_win_rate counts every bid
    of the customer in the table, the bid itself included.  With no such
    bid the feature is exactly 0.5; with n > 0 of them it is the number of
    those with status won or approved divided by n (Python's true
    division: the correctly rounded quotient).  For a bid that is in the
    table (ids being unique), n is the number of prior bids plus one, so
    the feature is never the default; for a bid that is not, n is the
    number of prior bids. *)
Theorem historical_win_rate_feature (tbl : list Bid) (now : Z) (bid : Bid)
    (features : row) :
  _extract_features tbl now bid = Return features →
  let n := length (bids_of_customer tbl bid) in
  let won := length (won_or_approved (bids_of_customer tbl bid)) in
  (n = 0 → features !! "historical_win_rate" = Some (PFloat 0.5))
  ∧ (0 < n → features !! "historical_win_rate"
             = Some (PFloat (float_of_ratio (Z.of_nat won) (Pos.of_nat n))))
  ∧ (bid ∈ tbl → NoDup (id <$> tbl) →
     n = S (length (prior_bids tbl bid))
     ∧ features !! "historical_win_rate"
       = Some (PFloat (float_of_ratio
                         (Z.of_nat won)
                         (Pos.of_nat (S (length (prior_bids tbl bid)))))))
  ∧ (id bid ∉ id <$> tbl → n = length (prior_bids tbl bid)).
Proof.
  intros H. cbn zeta.
  assert ((length (bids_of_customer tbl bid) = 0 →
           features !! "historical_win_rate" = Some (PFloat 0.5))
          ∧ (0 < length (bids_of_customer tbl bid) →
             features !! "historical_win_rate"
             = Some (PFloat (float_of_ratio
                               (Z.of_nat (length (won_or_approved
                                                    (bids_of_customer tbl bid))))
                               (Pos.of_nat (length (bids_of_customer tbl bid)))))))
    as [Hzero Hpos].
  { revert H. unfold _extract_features. intros H.
    destruct (if json_truthy (requirements bid) then _ else _) as [k|e];
      [|discriminate].
    cbn in H. injection H as <-.
    fold (bids_of_customer tbl bid).
    fold (won_or_approved (bids_of_customer tbl bid)).
    split; intros Hn.
    - rewrite Hn. reflexivity.
    - destruct (Z.ltb_spec 0 (Z.of_nat (length (bids_of_customer tbl bid))));
        [reflexivity|lia]. }
  split; [exact Hzero|]. split; [exact Hpos|]. split.
  - intros Hin Hnd. pose proof (bids_of_customer_saved tbl bid Hin Hnd) as Hs.
    split; [exact Hs|]. rewrite <- Hs. apply Hpos. lia.
  - intros Hid. rewrite prior_bids_other by exact Hid. reflexivity.
Qed.

(** ** Label encoding *)









(** Codes are assigned label by label. *)
Lemma encode_lookup (classes values : list pyval) (codes : list Z) (i : nat)
    (v : pyval) :
  LabelEncoder.encode classes values = Return codes →
  values !! i = Some v →
  ∃ code, codes !! i = Some code
          ∧ LabelEncoder.encode classes [v] = Return [code].
Proof.
  revert codes i. induction values as [|x values IH]; intros codes i H Hi.
  - inversion Hi.
  - cbn in H. destruct (LabelEncoder.index_of x classes) as [code|] eqn:E;
      [|discriminate].
    destruct (LabelEncoder.encode classes values) as [codes'|] eqn:E';
      [|discriminate].
    cbn in H. injection H as <-. destruct i as [|i].
    + injection Hi as ->. exists code. split; [reflexivity|].
      cbn. rewrite E. reflexivity.
    + cbn in Hi. destruct (IH codes' i eq_refl Hi) as (c & Hc & Henc).
      exists c. split; done.
Qed.

Lemma encode_length (classes values : list pyval) (codes : list Z) :
  LabelEncoder.encode classes values = Return codes →
  length codes = length values.
Proof.
  revert codes. induction values as [|x values IH]; cbn; intros codes H.
  - injection H as <-. reflexivity.
  - destruct (LabelEncoder.index_of x classes); [|discriminate].
    destruct (LabelEncoder.encode classes values) as [codes'|]; [|discriminate].
    cbn in H. injection H as <-. cbn. f_equal. apply IH. reflexivity.
Qed.

(** The codes [fit_transform] returns are those [transform] gives. *)
Lemma fit_transform_transform (values : list pyval) (enc : LabelEncoder.t)
    (codes : list Z) :
  LabelEncoder.fit_transform values = Return (enc, codes) →
  LabelEncoder.transform enc values = Return codes.
Proof.
  unfold LabelEncoder.fit_transform, LabelEncoder.transform.
  destruct (LabelEncoder.uniform values); [|discriminate].
  destruct (LabelEncoder.encode _ values) as [codes'|] eqn:E; [|discriminate].
  cbn. intros [= <- <-]. cbn. exact E.
Qed.

Lemma transform_lookup (enc : LabelEncoder.t) (values : list pyval)
    (codes : list Z) (i : nat) (v : pyval) :
  LabelEncoder.transform enc values = Return codes →
  values !! i = Some v →
  ∃ code, codes !! i = Some code
          ∧ LabelEncoder.transform enc [v] = Return [code].
Proof.
  unfold LabelEncoder.transform. destruct (LabelEncoder.classes_ enc);
    [apply encode_lookup|discriminate].
Qed.

Lemma transform_length (enc : LabelEncoder.t) (values : list pyval)
    (codes : list Z) :
  LabelEncoder.transform enc values = Return codes →
  length codes = length values.
Proof.
  unfold LabelEncoder.transform. destruct (LabelEncoder.classes_ enc);
    [apply encode_length|discriminate].
Qed.

(** ** Frames *)

Lemma length_set_column (df : frame) (c : string) (values : list pyval) :
  length (set_column df c values) = length df.
Proof.
  revert values. induction df as [|r df IH]; intros [|v values]; cbn; auto.
Qed.

Lemma column_set_column (df : frame) (c : string) (values : list pyval) :
  length values = length df →
  column (set_column df c values) c = values.
Proof.
  revert values. induction df as [|r df IH]; intros [|v values]; cbn;
    try discriminate; [reflexivity|].
  intros [= H]. unfold column in IH. rewrite IH by done.
  unfold dict_get. rewrite lookup_insert_eq. reflexivity.
Qed.

Lemma column_set_column_ne (df : frame) (c c' : string) (values : list pyval) :
  c ≠ c' → column (set_column df c values) c' = column df c'.
Proof.
  intros Hne. revert values.
  induction df as [|r df IH]; intros [|v values]; cbn; try reflexivity.
  unfold column in IH. rewrite IH.
  unfold dict_get. rewrite lookup_insert_ne by done. reflexivity.
Qed.

Lemma length_column (df : frame) (c : string) : length (column df c) = length df.
Proof. apply length_fmap. Qed.

Lemma column_lookup (df : frame) (c : string) (i : nat) (r : row) :
  df !! i = Some r → column df c !! i = Some (dict_get r c PNone).
Proof. intros H. unfold column. rewrite list_lookup_fmap, H. reflexivity. Qed.

(** ** Running computations *)

Lemma bind_run {A B} (m : M A) (f : A → M B) (w : world) :
  (m ≫= f) w
  = match m w with
    | (Return a, w') => f a w'
    | (Raise e, w') => (Raise e, w')
    end.
Proof. reflexivity. Qed.

Lemma ret_run {A} (a : A) (w : world) : (mret a : M A) w = (Return a, w).
Proof. reflexivity. Qed.

Lemma gets_run {A} (f : world → A) (w : world) : gets f w = (Return (f w), w).
Proof. reflexivity. Qed.

Lemma modify_run (f : world → world) (w : world) : modify f w = (Return tt, f w).
Proof. reflexivity. Qed.

Lemma emit_run (ev : event) (w : world) :
  emit ev w = (Return tt, set_trace (trace w ++ [ev]) w).
Proof. reflexivity. Qed.

Lemma lift_run {A} (o : outcome A) (w : world) : lift o w = (o, w).
Proof. reflexivity. Qed.

Lemma raise_run {A} (e : exn) (w : world) : raise (A := A) e w = (Raise e, w).
Proof. reflexivity. Qed.

(** Projections of updated worlds. *)
Ltac wsimpl :=
  cbn [files unwritable table today clock trace win_predictor risk_predictor
       scaler label_encoders set_trace set_files set_win_predictor
       set_risk_predictor set_scaler set_label_encoders].

(** One step of a computation applied to a world. *)
Ltac mstep :=
  first [ rewrite bind_run | rewrite ret_run | rewrite gets_run
        | rewrite modify_run | rewrite emit_run | rewrite lift_run
        | rewrite raise_run ];
  cbv beta iota.

Ltac mrun := repeat mstep; wsimpl.

Lemma encoders_dict_run (w : world) (encs : gmap string LabelEncoder.t) :
  label_encoders w = OEncoders encs → encoders_dict w = (Return encs, w).
Proof. intros H. unfold encoders_dict. rewrite bind_run. cbn. rewrite H. done. Qed.

Section after.
Context (P : event → Prop).

Lemma after_refl (w : world) : after P w w.
Proof.
  repeat split. exists []. rewrite app_nil_r. split; [done|constructor].
Qed.

Lemma after_trans (w1 w2 w3 : world) :
  after P w1 w2 → after P w2 w3 → after P w1 w3.
Proof.
  intros (Hf & Hu & Ht & Hd & Hc & evs & He & HP)
         (Hf' & Hu' & Ht' & Hd' & Hc' & evs' & He' & HP').
  repeat split; try congruence.
  exists (evs ++ evs'). rewrite He', He, app_assoc. split; [done|].
  apply Forall_app; done.
Qed.

Lemma emits_ret {A} (a : A) : emits P (mret a).
Proof. intros w r w' [= <- <-]. apply after_refl. Qed.

Lemma emits_lift {A} (o : outcome A) : emits P (lift o).
Proof. intros w r w' [= <- <-]. apply after_refl. Qed.

Lemma emits_raise {A} (e : exn) : emits P (raise (A := A) e).
Proof. intros w r w' [= <- <-]. apply after_refl. Qed.

Lemma emits_gets {A} (f : world → A) : emits P (gets f).
Proof. intros w r w' [= <- <-]. apply after_refl. Qed.

Lemma emits_bind {A B} (m : M A) (f : A → M B) :
  emits P m → (∀ a, emits P (f a)) → emits P (m ≫= f).
Proof.
  intros Hm Hf w r w'. rewrite bind_run.
  destruct (m w) as [[a|e] w1] eqn:E; intros H.
  - eapply after_trans; [eapply Hm, E|eapply Hf, H].
  - injection H as <- <-. eapply Hm, E.
Qed.

Lemma emits_try_except {A} (body : M A) (handler : exn → M A) :
  emits P body → (∀ e, emits P (handler e)) → emits P (try_except body handler).
Proof.
  intros Hm Hf w r w'. unfold try_except.
  destruct (body w) as [[a|e] w1] eqn:E; intros H.
  - injection H as <- <-. eapply Hm, E.
  - eapply after_trans; [eapply Hm, E|eapply Hf, H].
Qed.

Lemma emits_emit (ev : event) : P ev → emits P (emit ev).
Proof.
  intros Hev w r w' [= <- <-]. repeat split.
  exists [ev]. split; [done|]. repeat constructor. done.
Qed.

Lemma after_setter (f : world → world) (w : world) :
  files (f w) = files w → unwritable (f w) = unwritable w →
  table (f w) = table w → today (f w) = today w → clock (f w) = clock w →
  trace (f w) = trace w →
  after P w (f w).
Proof.
  intros. repeat split; try done.
  exists []. rewrite app_nil_r. split; [done|constructor].
Qed.

Lemma emits_set_win_predictor (o : pyobj) : emits P (modify (set_win_predictor o)).
Proof. intros w r w' [= <- <-]. apply after_setter; reflexivity. Qed.

Lemma emits_set_risk_predictor (o : pyobj) :
  emits P (modify (set_risk_predictor o)).
Proof. intros w r w' [= <- <-]. apply after_setter; reflexivity. Qed.

Lemma emits_set_scaler (o : pyobj) : emits P (modify (set_scaler o)).
Proof. intros w r w' [= <- <-]. apply after_setter; reflexivity. Qed.

Lemma emits_set_label_encoders (o : pyobj) :
  emits P (modify (set_label_encoders o)).
Proof. intros w r w' [= <- <-]. apply after_setter; reflexivity. Qed.

End after.

Lemma after_weaken (P Q : event → Prop) (w w' : world) :
  (∀ ev, P ev → Q ev) → after P w w' → after Q w w'.
Proof.
  intros HPQ (Hf & Hu & Ht & Hd & Hc & evs & He & HP).
  repeat split; try done. exists evs. split; [done|].
  eapply Forall_impl; done.
Qed.

Lemma silent_not_a_write (ev : event) : silent ev → not_a_write ev.
Proof. destruct ev; cbn; done. Qed.

Create HintDb emits discriminated.
#[local] Hint Resolve emits_ret emits_lift emits_raise emits_gets emits_emit
  emits_set_win_predictor emits_set_risk_predictor emits_set_scaler
  emits_set_label_encoders : emits.
#[local] Hint Extern 1 (silent _) => exact I : emits.
#[local] Hint Extern 1 (not_a_write _) => exact I : emits.

(** Solves [emits P m] for a straight-line [m]. *)
Ltac emits_steps :=
  repeat first
    [ apply emits_bind; [|intros ?]
    | apply emits_try_except; [|intros ?]
    | progress auto with emits
    | match goal with
      | |- emits _ (match ?x with _ => _ end) => destruct x
      | |- emits _ (if ?x then _ else _) => destruct x
      | |- emits _ (let '(_, _) := ?x in _) => destruct x
      end ].

Lemma emits_joblib_load (file : string) : emits not_a_write (joblib_load file).
Proof. unfold joblib_load. emits_steps. Qed.

Lemma emits_load_models : emits not_a_write load_models.
Proof.
  unfold load_models, log. pose proof emits_joblib_load. emits_steps.
Qed.

Lemma emits_encoders_dict (P : event → Prop) : emits P encoders_dict.
Proof. unfold encoders_dict. emits_steps. Qed.

Lemma emits_encode_columns (cols : list string) (X : frame) :
  emits silent (encode_columns cols X).
Proof.
  revert X. induction cols as [|c cols IH]; intros X; cbn [encode_columns].
  - emits_steps.
  - pose proof (emits_encoders_dict silent). emits_steps.
Qed.

Lemma emits_encode_known_columns (cols : list string) (X : frame) :
  emits silent (encode_known_columns cols X).
Proof.
  revert X. induction cols as [|c cols IH]; intros X;
    cbn [encode_known_columns].
  - emits_steps.
  - pose proof (emits_encoders_dict silent). emits_steps.
Qed.

Lemma emits_self_scaler_fit_transform (cols : list string) (X : frame) :
  emits silent (self_scaler_fit_transform cols X).
Proof. unfold self_scaler_fit_transform. emits_steps. Qed.

Lemma emits_self_scaler_transform (cols : list string) (X : frame) :
  emits silent (self_scaler_transform cols X).
Proof. unfold self_scaler_transform. emits_steps. Qed.

Lemma emits_regressor_fit (X : matrix) (y : list float) :
  emits silent (regressor_fit X y).
Proof. unfold regressor_fit. emits_steps. Qed.

Lemma emits_obj_predict (o : pyobj) (X : matrix) : emits silent (obj_predict o X).
Proof. unfold obj_predict. emits_steps. Qed.

Lemma emits_extract_features_now (bid : Bid) :
  emits silent (extract_features_now bid).
Proof. unfold extract_features_now. emits_steps. Qed.

Lemma emits_training_rows (bids : list Bid) : emits silent (training_rows bids).
Proof.
  induction bids as [|bid bids IH]; cbn [training_rows].
  - emits_steps.
  - pose proof (emits_extract_features_now bid). emits_steps.
Qed.

Lemma emits_prepare_training_data : emits silent prepare_training_data.
Proof.
  unfold prepare_training_data. pose proof emits_training_rows. emits_steps.
Qed.

(** ** Encoding in training and at prediction time *)

Lemma encode_columns_spec (cols : list string) :
  ∀ (X : frame) (w : world) (X' : frame) (w' : world)
    (encs : gmap string LabelEncoder.t),
  NoDup cols →
  label_encoders w = OEncoders encs →
  encode_columns cols X w = (Return X', w') →
  ∃ encs', label_encoders w' = OEncoders encs'
    ∧ length X' = length X
    ∧ (∀ c, c ∉ cols → encs' !! c = encs !! c ∧ column X' c = column X c)
    ∧ (∀ c, c ∈ cols → ∃ enc codes,
          encs' !! c = Some enc
          ∧ LabelEncoder.transform enc (fillna_unknown <$> column X c)
            = Return codes
          ∧ column X' c = PInt <$> codes).
Proof.
  induction cols as [|c cols IH]; intros X w X' w' encs Hnd Hencs H.
  - cbn in H. injection H as <- <-. exists encs.
    repeat split; auto. intros c Hc. inversion Hc.
  - apply NoDup_cons in Hnd as [Hc Hnd].
    cbn [encode_columns] in H.
    rewrite bind_run, (encoders_dict_run _ _ Hencs), bind_run in H.
    set (values := fillna_unknown <$> column X c) in *.
    assert (∃ enc codes w2,
      label_encoders w2 = OEncoders (<[c := enc]> encs)
      ∧ LabelEncoder.transform enc values = Return codes
      ∧ encode_columns cols (set_column X c (PInt <$> codes)) w2
        = (Return X', w')) as (enc & codes & w2 & Hw2 & Htr & Hrest).
    { destruct (encs !! c) as [enc|] eqn:E.
      - unfold lift in H.
        destruct (LabelEncoder.transform enc values) as [codes|] eqn:Et;
          [|discriminate].
        exists enc, codes, w. rewrite insert_id by done. auto.
      - rewrite !bind_run in H. unfold modify, emit, modify, lift in H.
        rewrite !bind_run in H.
        destruct (LabelEncoder.fit_transform values) as [[enc codes]|] eqn:Ef;
          [|discriminate].
        cbn in H. eexists enc, codes, _. split; [|split; [|exact H]].
        + reflexivity.
        + apply fit_transform_transform, Ef. }
    destruct (IH _ _ _ _ _ Hnd Hw2 Hrest) as (encs' & He' & Hlen & Hout & Hin).
    assert (length (PInt <$> codes) = length X) as Hcl.
    { rewrite length_fmap, (transform_length _ _ _ Htr).
      unfold values. rewrite length_fmap. apply length_column. }
    exists encs'. split; [done|]. split.
    { rewrite Hlen. apply length_set_column. }
    split.
    + intros c' Hc'. apply not_elem_of_cons in Hc' as [Hne Hc'].
      destruct (Hout c' Hc') as [-> ->].
      rewrite lookup_insert_ne by done.
      rewrite column_set_column_ne by done. done.
    + intros c' Hc'. apply elem_of_cons in Hc' as [->|Hc'].
      * destruct (Hout c Hc) as [He Hcol]. exists enc, codes.
        rewrite He, lookup_insert_eq, Hcol, column_set_column by done. done.
      * destruct (Hin c' Hc') as (enc' & codes' & He & Ht & Hcol).
        exists enc', codes'. assert (c ≠ c') by (intros ->; done).
        rewrite column_set_column_ne in Ht by done. done.
Qed.


Lemma object_columns_NoDup (cols : list string) (X : frame) :
  NoDup cols → NoDup (object_columns cols X).
Proof.
  rewrite !NoDup_ListNoDup. apply List.NoDup_filter.
Qed.

(** The loop of [predict_for_bid] on one object column with a fitted
    encoder. *)
Lemma encode_known_column_run (c : string) (r0 : row) (w : world)
    (encs : gmap string LabelEncoder.t) (enc : LabelEncoder.t) (code : Z) :
  label_encoders w = OEncoders encs →
  encs !! c = Some enc →
  LabelEncoder.transform enc [dict_get r0 c PNone] = Return [code] →
  encode_known_columns [c] [r0] w = (Return [<[c := PInt code]> r0], w).
Proof.
  intros Hw He Ht. cbn [encode_known_columns].
  rewrite bind_run, (encoders_dict_run _ _ Hw), He, bind_run.
  unfold lift. cbn [column fmap list_fmap take]. rewrite Ht. reflexivity.
Qed.

(** C7: a value of a categorical column of the table given to
    [fit_transform] gets, from [transform] afterwards, the code that the
    fit assigned it.  First for a [LabelEncoder] by itself; then for the
    predictor: after [_encode_features] has encoded the training table,
    the encoder it left in [self.label_encoders] for an object column
    maps the value of any row -- through the loop of [predict_for_bid] --
    to the code stored for that row in the encoded table. *)
Theorem encoder_round_trip :
  (∀ (values : list pyval) (enc : LabelEncoder.t) (codes : list Z)
     (i : nat) (v : pyval),
      LabelEncoder.fit_transform values = Return (enc, codes) →
      values !! i = Some v →
      ∃ code, codes !! i = Some code
              ∧ LabelEncoder.transform enc [v] = Return [code])
  ∧ (∀ (cols : list string) (X X' : frame) (w w' : world)
       (encs : gmap string LabelEncoder.t) (c : string) (i : nat) (r : row),
      NoDup cols →
      label_encoders w = OEncoders encs →
      _encode_features cols X w = (Return X', w') →
      c ∈ object_columns cols X →
      X !! i = Some r →
      ∃ encs' enc code,
        label_encoders w' = OEncoders encs'
        ∧ encs' !! c = Some enc
        ∧ column X' c !! i = Some (PInt code)
        ∧ LabelEncoder.transform enc [fillna_unknown (dict_get r c PNone)]
          = Return [code]
        ∧ ∀ (w2 : world) (features : row),
            label_encoders w2 = OEncoders encs' →
            dict_get features c PNone = fillna_unknown (dict_get r c PNone) →
            encode_known_columns [c] [features] w2
            = (Return [<[c := PInt code]> features], w2)).
Proof.
  split.
  - intros values enc codes i v Hfit Hi.
    eapply transform_lookup; [|exact Hi].
    apply fit_transform_transform, Hfit.
  - intros cols X X' w w' encs c i r Hnd Hw Hrun Hc Hi.
    unfold _encode_features in Hrun.
    destruct (encode_columns_spec _ _ _ _ _ _
                (object_columns_NoDup _ X Hnd) Hw Hrun)
      as (encs' & Hw' & _ & _ & Hin).
    destruct (Hin c Hc) as (enc & codes & He & Ht & Hcol).
    destruct (transform_lookup enc _ codes i
                (fillna_unknown (dict_get r c PNone)) Ht)
      as (code & Hcode & Hone).
    { rewrite list_lookup_fmap, (column_lookup _ _ _ _ Hi). reflexivity. }
    exists encs', enc, code. split; [done|]. split; [done|]. split.
    { rewrite Hcol, list_lookup_fmap, Hcode. reflexivity. }
    split; [done|].
    intros w2 features Hw2 Hf. eapply encode_known_column_run; [done..|].
    rewrite Hf. exact Hone.
Qed.

(** ** Loading and the short circuit of [train_models] *)

Lemma joblib_load_run (file : string) (w : world) (o : pyobj) :
  files w !! file = Some (Pickle o) →
  joblib_load file w = (Return o, set_trace (trace w ++ [Load file]) w).
Proof. intros H. unfold joblib_load. mrun. rewrite H. mrun. reflexivity. Qed.

Lemma joblib_load_raises (file : string) (w : world) :
  (∀ o, files w !! file ≠ Some (Pickle o)) →
  ∃ e, joblib_load file w = (Raise e, set_trace (trace w ++ [Load file]) w).
Proof.
  intros H. unfold joblib_load. mrun.
  destruct (files w !! file) as [[o| |]|] eqn:E; mrun; eauto.
  destruct (H o). reflexivity.
Qed.

Lemma load_models_run (w : world) (wo ro so eo : pyobj) :
  files w !! "win_predictor.pkl" = Some (Pickle wo) →
  files w !! "risk_predictor.pkl" = Some (Pickle ro) →
  files w !! "scaler.pkl" = Some (Pickle so) →
  files w !! "label_encoders.pkl" = Some (Pickle eo) →
  ∃ w1, load_models w = (Return tt, w1)
        ∧ win_predictor w1 = wo ∧ risk_predictor w1 = ro
        ∧ scaler w1 = so ∧ label_encoders w1 = eo
        ∧ files w1 = files w ∧ unwritable w1 = unwritable w
        ∧ table w1 = table w ∧ today w1 = today w ∧ clock w1 = clock w
        ∧ trace w1 = trace w ++ load_events.
Proof.
  intros H1 H2 H3 H4. unfold load_models, try_except, log.
  cbv beta. rewrite bind_run.
  rewrite (joblib_load_run _ _ wo H1). mrun.
  rewrite (joblib_load_run _ _ ro); [|exact H2]. mrun.
  rewrite (joblib_load_run _ _ so); [|exact H3]. mrun.
  rewrite (joblib_load_run _ _ eo); [|exact H4]. mrun.
  eexists. split; [reflexivity|]. wsimpl.
  repeat split. rewrite <- !app_assoc. reflexivity.
Qed.

Lemma models_exist_run (w : world) :
  _models_exist w
  = (Return (forallb (λ f, bool_decide (is_Some (files w !! f))) model_files),
     w).
Proof. reflexivity. Qed.

Lemma artifacts_loadable_exist (w : world) :
  artifacts_loadable w →
  forallb (λ f, bool_decide (is_Some (files w !! f))) model_files = true.
Proof.
  intros H. apply forallb_forall. intros f Hf%list_elem_of_In.
  destruct (H f Hf) as [o Ho]. apply bool_decide_eq_true_2. eauto.
Qed.

(** C5: when the four artifact files exist and unpickle, [train_models]
    with [retrain=False] returns after loading them and doing nothing else:
    its events are the four loads and the log line -- no feature
    extraction, no fit, no write -- the files and the bid table are as
    before, and the attributes of [self] are the objects in the files.  A
    second call does the same and leaves the attributes as the first call
    set them. *)
Theorem train_models_short_circuit (w : world) :
  artifacts_loadable w →
  ∃ w1 w2,
    train_models false w = (Return tt, w1)
    ∧ files w !! "win_predictor.pkl" = Some (Pickle (win_predictor w1))
    ∧ files w !! "risk_predictor.pkl" = Some (Pickle (risk_predictor w1))
    ∧ files w !! "scaler.pkl" = Some (Pickle (scaler w1))
    ∧ files w !! "label_encoders.pkl" = Some (Pickle (label_encoders w1))
    ∧ files w1 = files w ∧ table w1 = table w
    ∧ trace w1 = trace w ++ load_events
    ∧ train_models false w1 = (Return tt, w2)
    ∧ same_models w1 w2
    ∧ files w2 = files w ∧ table w2 = table w
    ∧ trace w2 = trace w1 ++ load_events.
Proof.
  intros Hl.
  assert (∀ w0, files w0 = files w →
    ∃ w1, train_models false w0 = (Return tt, w1)
      ∧ files w !! "win_predictor.pkl" = Some (Pickle (win_predictor w1))
      ∧ files w !! "risk_predictor.pkl" = Some (Pickle (risk_predictor w1))
      ∧ files w !! "scaler.pkl" = Some (Pickle (scaler w1))
      ∧ files w !! "label_encoders.pkl" = Some (Pickle (label_encoders w1))
      ∧ files w1 = files w ∧ table w1 = table w0
      ∧ trace w1 = trace w0 ++ load_events) as Hcall.
  { intros w0 Hf.
    destruct (Hl "win_predictor.pkl") as [wo Hwo]; [set_solver|].
    destruct (Hl "risk_predictor.pkl") as [ro Hro]; [set_solver|].
    destruct (Hl "scaler.pkl") as [so Hso]; [set_solver|].
    destruct (Hl "label_encoders.pkl") as [eo Heo]; [set_solver|].
    destruct (load_models_run w0 wo ro so eo)
      as (w1 & Hrun & H1 & H2 & H3 & H4 & Hf1 & _ & Ht & _ & _ & Htr);
      try (rewrite Hf; assumption).
    exists w1. unfold train_models. rewrite bind_run.
    cbn [negb]. rewrite models_exist_run, artifacts_loadable_exist.
    - cbv beta iota. rewrite H1, H2, H3, H4.
      repeat split; try done. congruence.
    - intros f Hf'. rewrite Hf. auto. }
  destruct (Hcall w eq_refl)
    as (w1 & Hrun1 & Hw & Hr & Hs & He & Hf1 & Ht1 & Htr1).
  destruct (Hcall w1 Hf1)
    as (w2 & Hrun2 & Hw2 & Hr2 & Hs2 & He2 & Hf2 & Ht2 & Htr2).
  exists w1, w2. repeat split; try done; try congruence.
Qed.

(** ** Prediction falls back to the default result *)

Lemma load_models_raises (w : world) :
  (∃ f, f ∈ model_files ∧ ∀ o, files w !! f ≠ Some (Pickle o)) →
  ∃ e w1, load_models w = (Raise e, w1).
Proof.
  intros (f & Hf & Hbad). unfold load_models, try_except, log.
  cbv beta. rewrite bind_run.
  destruct (files w !! "win_predictor.pkl") as [[wo| |]|] eqn:E1;
    [|destruct (joblib_load_raises "win_predictor.pkl" w) as [e ->];
      [congruence|mrun; eauto]..].
  rewrite (joblib_load_run _ _ wo E1). mrun.
  destruct (files w !! "risk_predictor.pkl") as [[ro| |]|] eqn:E2;
    [|edestruct (joblib_load_raises "risk_predictor.pkl") as [e ->];
      [|mrun; eauto]; wsimpl; congruence..].
  rewrite (joblib_load_run _ _ ro); [|exact E2]. mrun.
  destruct (files w !! "scaler.pkl") as [[so| |]|] eqn:E3;
    [|edestruct (joblib_load_raises "scaler.pkl") as [e ->];
      [|mrun; eauto]; wsimpl; congruence..].
  rewrite (joblib_load_run _ _ so); [|exact E3]. mrun.
  destruct (files w !! "label_encoders.pkl") as [[eo| |]|] eqn:E4;
    [|edestruct (joblib_load_raises "label_encoders.pkl") as [e ->];
      [|mrun; eauto]; wsimpl; congruence..].
  exfalso. unfold model_files in Hf.
  repeat (apply elem_of_cons in Hf as [->|Hf]; [eapply Hbad; eassumption|]).
  inversion Hf.
Qed.

(** The encoding loop does not change the world. *)
Lemma encode_known_columns_world (cols : list string) :
  ∀ (X : frame) (w : world) r w',
  encode_known_columns cols X w = (r, w') → w' = w.
Proof.
  induction cols as [|c cols IH]; intros X w r w'; cbn [encode_known_columns].
  - intros [= _ <-]. reflexivity.
  - unfold encoders_dict. mrun.
    destruct (label_encoders w) as [| | |encs]; mrun;
      try (intros [= _ <-]; reflexivity).
    destruct (encs !! c) as [enc|]; [|apply IH]. mrun.
    destruct (LabelEncoder.transform enc _); [apply IH|].
    intros [= _ <-]. reflexivity.
Qed.


Lemma predict_for_bid_ready (bid : Bid) (w w1 : world) :
  models_ready w w1 →
  predict_for_bid bid w
  = (extract_features_now bid ≫= λ features,
       try_except (predict_with_models features)
         (λ e, log ERROR "Error predicting for bid";;
               mret _get_default_prediction)) w1.
Proof.
  intros [[Hw ->]|[Hw Hload]]; unfold predict_for_bid; rewrite bind_run, gets_run;
    cbv beta iota.
  - destruct (win_predictor w); [done|..]; rewrite bind_run, ret_run; reflexivity.
  - rewrite Hw, bind_run. unfold try_except at 1. rewrite bind_run, Hload.
    cbv beta iota. rewrite ret_run. reflexivity.
Qed.

Lemma predict_for_bid_body_raises (bid : Bid) (w w1 w2 w3 : world)
    (features : row) (e : exn) :
  models_ready w w1 →
  extract_features_now bid w1 = (Return features, w2) →
  predict_with_models features w2 = (Raise e, w3) →
  predict_for_bid bid w
  = (Return _get_default_prediction,
     set_trace (trace w3 ++ [Log ERROR "Error predicting for bid"]) w3).
Proof.
  intros Hready Hx Hbody. rewrite (predict_for_bid_ready _ _ _ Hready).
  rewrite bind_run, Hx. cbv beta iota. unfold try_except. rewrite Hbody.
  unfold log. mrun. reflexivity.
Qed.

(** Once the features are extracted, [predict_for_bid] returns: the default
    result, or a prediction of the models with confidence 0.8, the features
    and the time. *)
Lemma predict_for_bid_returns (bid : Bid) (w w1 w2 : world) (feats : row) :
  models_ready w w1 →
  extract_features_now bid w1 = (Return feats, w2) →
  ∃ p w3, predict_for_bid bid w = (Return p, w3)
          ∧ (p = _get_default_prediction
             ∨ (confidence p = 0.8%float
                ∧ features p = feats
                ∧ timestamp p = Some (clock w2))).
Proof.
  intros Hready Hx. rewrite (predict_for_bid_ready _ _ _ Hready).
  rewrite bind_run, Hx. cbv beta iota. unfold try_except.
  destruct (predict_with_models feats w2) as [[p|e] w3] eqn:E.
  - exists p, w3. split; [reflexivity|]. right.
    unfold predict_with_models in E. rewrite bind_run in E.
    destruct (encode_known_columns _ _ w2) as [[df|] wa] eqn:E1;
      [|discriminate].
    apply encode_known_columns_world in E1 as ->.
    rewrite bind_run in E.
    destruct (self_scaler_transform _ df w2) as [[X|] wb] eqn:E2;
      [|discriminate].
    pose proof (emits_self_scaler_transform _ _ _ _ _ E2)
      as (_ & _ & _ & _ & Hcb & _).
    rewrite bind_run, gets_run in E. cbv beta iota in E.
    rewrite bind_run in E.
    destruct (predict_first (win_predictor wb) X wb) as [[y1|] wc] eqn:E3;
      [|discriminate].
    assert (clock wc = clock wb) as Hcc.
    { unfold predict_first in E3. rewrite bind_run in E3.
      destruct (obj_predict _ X wb) as [[ys|] wx] eqn:E3'; [|discriminate].
      pose proof (emits_obj_predict _ _ _ _ _ E3') as (_ & _ & _ & _ & Hc & _).
      destruct ys; [discriminate|]. injection E3 as _ <-. exact Hc. }
    rewrite bind_run, gets_run in E. cbv beta iota in E.
    rewrite bind_run in E.
    destruct (predict_first (risk_predictor wc) X wc) as [[y2|] wd] eqn:E4;
      [|discriminate].
    assert (clock wd = clock wc) as Hcd.
    { unfold predict_first in E4. rewrite bind_run in E4.
      destruct (obj_predict _ X wc) as [[ys|] wx] eqn:E4'; [|discriminate].
      pose proof (emits_obj_predict _ _ _ _ _ E4') as (_ & _ & _ & _ & Hc & _).
      destruct ys; [discriminate|]. injection E4 as _ <-. exact Hc. }
    rewrite bind_run, gets_run in E. cbv beta iota in E.
    rewrite ret_run in E. injection E as <- <-. cbn.
    repeat split. congruence.
  - unfold log. mrun. eexists _, _. split; [reflexivity|]. left. reflexivity.
Qed.


(** ** Training data *)

Lemma same_models_refl (w : world) : same_models w w.
Proof. repeat split. Qed.

Lemma same_models_trans (w1 w2 w3 : world) :
  same_models w1 w2 → same_models w2 w3 → same_models w1 w3.
Proof.
  intros (? & ? & ? & ?) (? & ? & ? & ?). repeat split; congruence.
Qed.

(** The training row of a bid has a risk label. *)
Lemma training_row_risk (tbl : list Bid) (now : Z) (bid : Bid) (features : row) :
  _extract_features tbl now bid = Return features →
  returns (risk_of_row (add_labels bid features)).
Proof.
  intros H. eexists. apply (training_row_risk_label _ _ _ _ H).
Qed.

Lemma training_rows_spec (bids : list Bid) :
  ∀ (w w' : world) (df : frame),
  training_rows bids w = (Return df, w') →
  length df = length bids
  ∧ Forall (λ r, returns (risk_of_row r)) df
  ∧ same_models w w'
  ∧ trace w' = trace w ++ (Extract ∘ id <$> bids).
Proof.
  induction bids as [|bid bids IH]; intros w w' df; cbn [training_rows].
  - intros [= <- <-]. rewrite app_nil_r.
    repeat split. constructor.
  - unfold extract_features_now. mrun.
    destruct (_extract_features (table w) (today w) bid) as [features|]
      eqn:Ex; mrun; [|discriminate].
    destruct (training_rows bids _) as [[data|] w1] eqn:Et; [|discriminate].
    intros [= <- <-]. destruct (IH _ _ _ Et) as (Hlen & Hrisk & Hsame & Htr).
    cbn [length fmap list_fmap]. rewrite Hlen. split; [done|]. split.
    { constructor; [eapply training_row_risk, Ex|done]. }
    split; [exact Hsame|].
    rewrite Htr. wsimpl. rewrite <- app_assoc. reflexivity.
Qed.

Lemma prepare_training_data_spec (w w' : world) (df : frame) :
  prepare_training_data w = (Return df, w') →
  length df = length (eligible (table w))
  ∧ Forall (λ r, returns (risk_of_row r)) df
  ∧ same_models w w'
  ∧ trace w' = trace w ++ (Extract ∘ id <$> eligible (table w)).
Proof. unfold prepare_training_data. mrun. apply training_rows_spec. Qed.

(** When extraction succeeds on every bid, the loop returns. *)
Lemma training_rows_returns (tbl : list Bid) (now : Z) (bids : list Bid) :
  (∀ bid, bid ∈ bids → returns (_extract_features tbl now bid)) →
  ∀ w, table w = tbl → today w = now →
  ∃ df w', training_rows bids w = (Return df, w').
Proof.
  intros Hx. induction bids as [|bid bids IH]; intros w Ht Hn;
    cbn [training_rows].
  - eexists _, _. reflexivity.
  - unfold extract_features_now. mrun. rewrite Ht, Hn.
    destruct (Hx bid) as [features ->]; [left|]. mrun.
    edestruct IH as (data & w1 & ->); [intros; apply Hx; right; done|..].
    + wsimpl. exact Ht.
    + wsimpl. exact Hn.
    + mrun. eexists _, _. reflexivity.
Qed.

Lemma calculate_risk_scores_returns (df : frame) :
  Forall (λ r, returns (risk_of_row r)) df →
  ∃ risks, _calculate_risk_scores df = Return risks
           ∧ length risks = length df.
Proof.
  induction 1 as [|r df [risk Hr] _ (risks & IH & Hlen)]; cbn.
  - eexists. split; reflexivity.
  - rewrite Hr. cbn. rewrite IH. cbn. eexists. split; [reflexivity|].
    cbn. rewrite Hlen. reflexivity.
Qed.

(** The labels of a frame are those of its rows, in order. *)
Lemma calculate_risk_scores_rows (df : frame) (risks : list float) :
  _calculate_risk_scores df = Return risks →
  Forall2 (λ r x, risk_of_row r = Return x) df risks.
Proof.
  revert risks. induction df as [|r df IH]; intros risks; cbn.
  - intros [= <-]. constructor.
  - destruct (risk_of_row r) as [x|] eqn:Er; [|discriminate]. cbn.
    destruct (_calculate_risk_scores df) as [xs|]; [|discriminate]. cbn.
    intros [= <-]. constructor; [exact Er|]. apply IH. reflexivity.
Qed.

(** The labels of the training table. *)
Lemma training_rows_risk_scores (bids : list Bid) :
  ∀ (w w' : world) (df : frame),
  training_rows bids w = (Return df, w') →
  _calculate_risk_scores df = Return (risk_label_of_bid (today w) <$> bids).
Proof.
  induction bids as [|bid bids IH]; intros w w' df; cbn [training_rows].
  - intros [= <- <-]. reflexivity.
  - unfold extract_features_now. mrun.
    destruct (_extract_features (table w) (today w) bid) as [features|]
      eqn:Ex; mrun; [|discriminate].
    destruct (training_rows bids _) as [[data|] w1] eqn:Et; [|discriminate].
    intros [= <- <-]. cbn [_calculate_risk_scores fmap list_fmap].
    rewrite (training_row_risk_label _ _ _ _ Ex). cbn [mbind outcome_bind].
    rewrite (IH _ _ _ Et). reflexivity.
Qed.

(** C2: the synthetic risk labels are, row by row, the clamp to [0,1] of
    0, plus 0.3 if bid_value > 1,000,000, plus 0.2 if
    customer_relationship_score < 30, plus 0.2 if complexity_score > 0.7,
    plus 0.2 if days_until_due < 7.  Whenever [_calculate_risk_scores]
    returns, each row holding the four columns with the types
    [_extract_features] gives them has that label, at the position of the
    row; on the table that [prepare_training_data] returns, the result is
    the list of these labels of the bids with a decision, in order; and
    the label of (5000, 80, 0.1, 60) is exactly 0.0. *)
Theorem risk_label_rule :
  (∀ (df : frame) (risks : list float),
      _calculate_risk_scores df = Return risks →
      Forall2 (λ r x, ∀ (bv rs cs : float) (d : Z),
                 r !! "bid_value" = Some (PFloat bv) →
                 r !! "customer_relationship_score" = Some (PFloat rs) →
                 r !! "complexity_score" = Some (PFloat cs) →
                 r !! "days_until_due" = Some (PInt d) →
                 x = risk_label_spec bv rs cs d) df risks)
  ∧ (∀ (w w' : world) (df : frame),
      prepare_training_data w = (Return df, w') →
      _calculate_risk_scores df
      = Return (risk_label_of_bid (today w) <$> eligible (table w)))
  ∧ _calculate_risk_scores [risk_row 5000 80 0.1 60] = Return [0%float].
Proof.
  split; [|split].
  - intros df risks H. apply calculate_risk_scores_rows in H.
    eapply Forall2_impl; [exact H|]. intros r x Hr bv rs cs d Hbv Hrs Hcs Hd.
    cbv beta in Hr.
    rewrite (risk_of_row_typed r bv rs cs d Hbv Hrs Hcs Hd) in Hr.
    injection Hr as <-. reflexivity.
  - intros w w' df. unfold prepare_training_data. mrun.
    apply training_rows_risk_scores.
  - reflexivity.
Qed.

(** ** Too few rows *)

Lemma train_models_on_training_path (retrain : bool) (w : world) :
  training_path retrain w →
  train_models retrain w
  = (prepare_training_data ≫= λ df,
       if bool_decide (length df < 10)
       then log WARNING "Not enough training data available"
       else fit_models df) w.
Proof.
  intros Hpath. unfold train_models. rewrite bind_run.
  destruct retrain; cbn [negb].
  - rewrite ret_run. reflexivity.
  - destruct Hpath as [[=]|(f & Hf & Hnone)].
    rewrite models_exist_run.
    replace (forallb _ model_files) with false; [reflexivity|].
    symmetry. apply not_true_is_false. intros Hall.
    rewrite forallb_forall in Hall.
    specialize (Hall f (proj1 (list_elem_of_In _ _) Hf)).
    apply bool_decide_eq_true_1 in Hall as [o Ho]. congruence.
Qed.

(** C4 (amended): with fewer than 10 eligible rows, no file is created,
    modified or deleted, whatever else happens; and when the call does not
    take the short circuit (retraining is forced or a file is missing) and
    feature extraction succeeds on the eligible bids, [train_models]
    returns without raising, after the extractions and one warning, with
    the attributes of [self] and the files as they were. *)
Theorem train_models_insufficient_data (retrain : bool) (w : world) :
  length (eligible (table w)) < 10 →
  (∀ r w', train_models retrain w = (r, w') → after not_a_write w w')
  ∧ (training_path retrain w →
     (∀ bid, bid ∈ eligible (table w) →
             returns (_extract_features (table w) (today w) bid)) →
     ∃ w', train_models retrain w = (Return tt, w')
           ∧ same_models w w'
           ∧ files w' = files w
           ∧ trace w'
             = trace w ++ (Extract ∘ id <$> eligible (table w))
                 ++ [Log WARNING "Not enough training data available"]).
Proof.
  intros Hfew. split.
  - intros r w'. unfold train_models. rewrite bind_run.
    assert (∃ b, (if negb retrain then _models_exist else mret false) w
                 = (Return b, w)) as [b ->].
    { destruct retrain; cbn [negb]; eexists; reflexivity. }
    cbv beta iota. destruct b; [apply emits_load_models|].
    rewrite bind_run.
    destruct (prepare_training_data w) as [[df|e] w1] eqn:E.
    + pose proof (emits_prepare_training_data _ _ _ E) as Ha.
      destruct (prepare_training_data_spec _ _ _ E) as (Hlen & _).
      rewrite bool_decide_eq_true_2 by lia. intros H.
      eapply after_trans.
      * eapply after_weaken; [apply silent_not_a_write|exact Ha].
      * revert H. apply emits_emit. exact I.
    + intros [= <- <-].
      eapply after_weaken; [apply silent_not_a_write|].
      eapply emits_prepare_training_data, E.
  - intros Hpath Hx. rewrite (train_models_on_training_path _ _ Hpath).
    rewrite bind_run. unfold prepare_training_data at 1. mrun.
    destruct (training_rows_returns (table w) (today w) (eligible (table w))
                Hx w eq_refl eq_refl) as (df & w1 & E).
    rewrite E. cbv beta iota.
    destruct (training_rows_spec _ _ _ _ E) as (Hlen & _ & Hsame & Htr).
    pose proof (emits_training_rows _ _ _ _ E) as (Hf & _).
    rewrite bool_decide_eq_true_2 by lia. unfold log. rewrite emit_run.
    eexists. split; [reflexivity|]. wsimpl. split; [exact Hsame|].
    split; [exact Hf|]. rewrite Htr, <- app_assoc. reflexivity.
Qed.

(** ** The risk regressor is fitted on inconsistent samples *)

Lemma mapM_outcome_length {A B} (f : A → outcome B) (l : list A) (k : list B) :
  mapM f l = Return k → length k = length l.
Proof.
  revert k. induction l as [|x l IH]; intros k; cbn.
  - intros [= <-]. reflexivity.
  - destruct (f x) as [y|]; [|discriminate]. cbn.
    destruct (mapM f l) as [k'|]; [|discriminate]. cbn.
    intros [= <-]. cbn. f_equal. apply IH. reflexivity.
Qed.

Lemma n_test_of_pos (n : nat) : 0 < n → 0 < n_test_of n ≤ n.
Proof.
  intros Hn. unfold n_test_of. split.
  - apply Nat.div_str_pos. lia.
  - destruct (decide (n < 5)) as [Hlt|Hge].
    + assert ((n + 4) `div` 5 < 2)%nat
        by (apply Nat.Div0.div_lt_upper_bound; lia). lia.
    + transitivity ((n + 4) `div` 2)%nat.
      * apply Nat.div_le_compat_l. lia.
      * apply Nat.Div0.div_le_upper_bound. lia.
Qed.

Section laws.
Context `{!LibrariesLaws L}.

(** The sizes of the two sides of the split. *)
Lemma train_test_split_sizes {A B} (X : list A) (y : list B)
    (X_train X_test : list A) (y_train y_test : list B) :
  train_test_split X y = Return (X_train, X_test, y_train, y_test) →
  length y = length X
  ∧ length X_train = length X - n_test_of (length X)
  ∧ length X_test = n_test_of (length X)
  ∧ length y_train = length X_train.
Proof.
  unfold train_test_split. case_bool_decide as Hy; [discriminate|].
  destruct (shuffle_split (length X)) as [[train test]|] eqn:Es;
    [|discriminate].
  destruct (shuffle_split_spec _ _ _ Es) as [Hperm Htest].
  apply Permutation_length in Hperm.
  rewrite length_app, length_seq in Hperm. cbn.
  destruct (take_rows X train) as [Xtr|] eqn:E1; [|discriminate]. cbn.
  destruct (take_rows X test) as [Xte|] eqn:E2; [|discriminate]. cbn.
  destruct (take_rows y train) as [ytr|] eqn:E3; [|discriminate]. cbn.
  destruct (take_rows y test) as [yte|] eqn:E4; [|discriminate]. cbn.
  intros [= <- <- <- <-].
  apply mapM_outcome_length in E1, E2, E3, E4. lia.
Qed.

Lemma stops_early (n : nat) (w w1 : world) (e : exn) :
  after silent w w1 → stops_at_risk_fit n w (Raise e, w1).
Proof.
  intros (Hf & _ & Ht & _ & _ & evs & Htr & Hs).
  exists e, w1, evs. repeat split; auto.
Qed.

Lemma stops_at_risk_fit_after (n : nat) (w w1 : world) res :
  after silent w w1 → stops_at_risk_fit n w1 res → stops_at_risk_fit n w res.
Proof.
  intros (Hf & _ & Ht & _ & _ & evs & Htr & Hs)
         (e & w' & evs' & -> & Hf' & Ht' & Htr' & Hcase).
  exists e, w', (evs ++ evs'). split; [done|].
  split; [congruence|]. split; [congruence|]. split.
  { rewrite Htr', Htr, app_assoc. done. }
  destruct Hcase as [Hs'|(evs1 & msg & -> & Hs1 & ->)].
  - left. apply Forall_app; done.
  - right. exists (evs ++ evs1), msg. rewrite app_assoc.
    split; [done|]. split; [apply Forall_app; done|done].
Qed.

(** One step of [fit_models] that emits silent events only: either it
    raises, and the run stops early, or the run goes on from its result. *)
Lemma stops_bind {A} (n : nat) (m : M A) (f : A → M unit) (w : world) :
  emits silent m →
  (∀ a w1, m w = (Return a, w1) → stops_at_risk_fit n w1 (f a w1)) →
  stops_at_risk_fit n w ((m ≫= f) w).
Proof.
  intros Hm Hf. rewrite bind_run.
  destruct (m w) as [[a|e] w1] eqn:E.
  - eapply stops_at_risk_fit_after; [eapply Hm, E|]. apply Hf. reflexivity.
  - apply stops_early. eapply Hm, E.
Qed.

Lemma fit_models_stops (df : frame) (w : world) :
  0 < length df →
  Forall (λ r, returns (risk_of_row r)) df →
  stops_at_risk_fit (length df) w (fit_models df w).
Proof.
  intros Hn Hrisk. unfold fit_models.
  apply stops_bind; [apply emits_encode_columns|]. intros X_encoded w1 _.
  apply stops_bind; [apply emits_self_scaler_fit_transform|].
  intros X_scaled w2 _.
  apply stops_bind; [apply emits_lift|]. intros split w3 Hsplit.
  rewrite lift_run in Hsplit. injection Hsplit as Hsplit _.
  destruct split as [[[X_train X_test] y_train] y_test].
  destruct (train_test_split_sizes _ _ _ _ _ _ Hsplit)
    as (Hy & Htrain & _ & _).
  rewrite length_column in Hy. rewrite <- Hy in Htrain.
  apply stops_bind; [apply emits_set_win_predictor|]. intros _ w4 _.
  apply stops_bind; [apply emits_lift|]. intros y_train_f w5 _.
  apply stops_bind; [apply emits_regressor_fit|]. intros reg w6 _.
  apply stops_bind; [apply emits_set_win_predictor|]. intros _ w7 _.
  apply stops_bind; [apply emits_obj_predict|]. intros y_pred w8 _.
  destruct (calculate_risk_scores_returns df Hrisk) as (risks & Hr & Hlen).
  assert (∃ msg,
    (if bool_decide (1 < n_unique y_test)
     then log INFO "Model Performance"
     else log INFO "Only one class in test data") w8
    = (Return tt, set_trace (trace w8 ++ [Log INFO msg]) w8)) as [msg Hlog].
  { case_bool_decide; eexists; reflexivity. }
  rewrite bind_run, Hlog. cbv beta iota.
  rewrite bind_run, lift_run, Hr. cbv beta iota.
  rewrite bind_run, modify_run. cbv beta iota.
  rewrite bind_run. unfold regressor_fit at 1. mrun.
  rewrite gbr_fit_inconsistent.
  2:{ rewrite Htrain, Hlen. pose proof (n_test_of_pos (length df) Hn). lia. }
  mrun. rewrite Htrain, Hlen.
  eexists ValueError, _, [Log INFO msg; _]. split; [reflexivity|].
  wsimpl. repeat split. { rewrite <- app_assoc. reflexivity. }
  right. exists [], msg. repeat split. constructor.
Qed.

End laws.

(** ** Recommendations *)

Lemma get_recommendations_NoDup (bid : Bid) (p : prediction) (recs : list string) :
  get_recommendations bid p = Return recs → NoDup recs.
Proof.
  unfold get_recommendations. intros H.
  destruct (py_lt (dict_get _ "customer_relationship_score" _) _) as [c1|];
    [|discriminate].
  destruct (py_lt (dict_get _ "days_until_due" _) _) as [c2|]; [|discriminate].
  cbn in H. injection H as <-. apply NoDup_elements.
Qed.

(** Whatever the features hold that can be compared with a number, the call
    returns. *)
Lemma get_recommendations_returns (bid : Bid) (p : prediction) :
  returns (py_lt (dict_get (features p) "customer_relationship_score" (PInt 0))
                 (PInt 40)) →
  returns (py_lt (dict_get (features p) "days_until_due" (PInt 0)) (PInt 14)) →
  returns (get_recommendations bid p).
Proof.
  intros [c1 H1] [c2 H2]. unfold get_recommendations.
  rewrite H1, H2. eexists. reflexivity.
Qed.

(** C6: on win_probability 0.2, risk_score 0.8 and the features
    {customer_relationship_score: 20, days_until_due: 5},
    [get_recommendations] returns a list of exactly 9 distinct strings: the
    four strategy-revision strings, the three risk-mitigation strings, the
    customer-engagement string and the accelerate-review string; and for no
    input does the returned list contain a duplicate. *)
Theorem recommendations_example :
  (∀ bid conf ts, ∃ recs,
      get_recommendations bid (example_prediction conf ts) = Return recs
      ∧ length recs = 9
      ∧ NoDup recs
      ∧ (∀ s, s ∈ recs ↔
              s ∈ low_win_block ++ high_risk_block
                  ++ [engagement_rec; accelerate_rec]))
  ∧ (∀ bid p recs, get_recommendations bid p = Return recs → NoDup recs).
Proof.
  split; [|exact get_recommendations_NoDup].
  intros bid conf ts. eexists. split; [reflexivity|].
  split; [reflexivity|]. split; [apply NoDup_elements|].
  intros s. rewrite elem_of_elements, elem_of_list_to_set. reflexivity.
Qed.

(** C10: when the features mapping is empty -- as in the default
    prediction -- [get_recommendations] returns, and its result includes
    both the customer-engagement and the accelerate-review recommendation:
    the missing features are read as 0, below 40 and below 14. *)
Theorem recommendations_without_features (bid : Bid) (p : prediction) :
  features p = ∅ →
  dict_get (features p) "customer_relationship_score" (PInt 0) = PInt 0
  ∧ dict_get (features p) "days_until_due" (PInt 0) = PInt 0
  ∧ ∃ recs, get_recommendations bid p = Return recs
            ∧ "Schedule customer engagement meetings" ∈ recs
            ∧ "Accelerate review and approval process" ∈ recs.
Proof.
  intros Hf. unfold get_recommendations, dict_get. rewrite Hf, !lookup_empty.
  split; [reflexivity|]. split; [reflexivity|].
  cbn. eexists. split; [reflexivity|].
  rewrite !elem_of_elements, !elem_of_list_to_set, !elem_of_app.
  unfold engagement_rec, accelerate_rec.
  split; [left; right|right]; apply list_elem_of_singleton; reflexivity.
Qed.


(** ** Saving and loading *)

Lemma write_file_run (file : string) (content : blob) (w : world) :
  file ∉ unwritable w →
  ∃ w1, write_file file content w = (Return tt, w1)
        ∧ files w1 = <[file := content]> (files w)
        ∧ same_models w w1
        ∧ unwritable w1 = unwritable w
        ∧ table w1 = table w
        ∧ trace w1 = trace w ++ [Dump file].
Proof.
  intros H. unfold write_file. mrun.
  rewrite bool_decide_eq_false_2 by done. mrun.
  eexists. split; [reflexivity|]. repeat split.
Qed.

Lemma write_file_fails (file : string) (content : blob) (w : world) :
  file ∈ unwritable w →
  ∃ w1, write_file file content w = (Raise OSError, w1)
        ∧ files w1 = files w
        ∧ same_models w w1
        ∧ unwritable w1 = unwritable w
        ∧ table w1 = table w
        ∧ trace w1 = trace w ++ [Dump file].
Proof.
  intros H. unfold write_file. mrun.
  rewrite bool_decide_eq_true_2 by done. mrun.
  eexists. split; [reflexivity|]. repeat split.
Qed.

(** The handler of [save_models]. *)
Lemma save_models_handler (w w1 : world) (n : nat) (f : string) :
  same_models w w1 → table w1 = table w → files w1 = saved_files w n →
  unwritable w1 = unwritable w →
  (∀ f, f ∈ take n model_files → f ∉ unwritable w) →
  model_files !! n = Some f → f ∈ unwritable w →
  ∃ n w',
    log ERROR "Error saving models" w1 = (Return tt, w')
    ∧ same_models w w'
    ∧ table w' = table w
    ∧ files w' = saved_files w n
    ∧ (∀ f, f ∈ take n model_files → f ∉ unwritable w)
    ∧ (n = 4 ∧ last (trace w') = Some (Log INFO "Models saved successfully")
       ∨ (∃ f, model_files !! n = Some f ∧ f ∈ unwritable w)
         ∧ last (trace w') = Some (Log ERROR "Error saving models")).
Proof.
  intros Hm Ht Hf Hu Hpre Hn Hro. exists n. unfold log. rewrite emit_run.
  eexists. split; [reflexivity|]. wsimpl.
  repeat split; try apply Hm; try done.
  right. split; [eauto|]. apply last_snoc.
Qed.

(** X1: [save_models] never raises and leaves the attributes of [self] and
    the bid table alone.  It writes the four files in order and stops at
    the first name that cannot be written: the files before it are already
    overwritten, the others are as they were, and the failure is only
    logged. *)
Theorem save_models_never_raises (w : world) :
  ∃ n w',
    save_models w = (Return tt, w')
    ∧ same_models w w'
    ∧ table w' = table w
    ∧ files w' = saved_files w n
    ∧ (∀ f, f ∈ take n model_files → f ∉ unwritable w)
    ∧ (n = 4 ∧ last (trace w') = Some (Log INFO "Models saved successfully")
       ∨ (∃ f, model_files !! n = Some f ∧ f ∈ unwritable w)
         ∧ last (trace w') = Some (Log ERROR "Error saving models")).
Proof.
  unfold save_models, try_except, joblib_dump.
  rewrite bind_run, gets_run. cbv beta iota. rewrite bind_run.
  destruct (decide ("win_predictor.pkl" ∈ unwritable w)) as [H1|H1].
  { destruct (write_file_fails _ (Pickle (win_predictor w)) w H1)
      as (w1 & -> & Hf1 & Hm1 & Hu1 & Ht1 & _).
    apply (save_models_handler w w1 0 "win_predictor.pkl"); try done.
    intros f Hf. inversion Hf. }
  destruct (write_file_run _ (Pickle (win_predictor w)) w H1)
    as (w1 & -> & Hf1 & Hm1 & Hu1 & Ht1 & _).
  cbv beta iota. rewrite bind_run, gets_run. cbv beta iota. rewrite bind_run.
  assert (saved_files w 1 = files w1) as Hs1 by (rewrite Hf1; reflexivity).
  destruct Hm1 as (Hw1 & Hr1 & Hsc1 & He1).
  destruct (decide ("risk_predictor.pkl" ∈ unwritable w)) as [H2|H2].
  { destruct (write_file_fails "risk_predictor.pkl" (Pickle (risk_predictor w1)) w1)
      as (w2 & -> & Hf2 & Hm2 & Hu2 & Ht2 & _); [congruence|].
    apply (save_models_handler w w2 1 "risk_predictor.pkl"); try reflexivity; try congruence.
    - eapply same_models_trans; [|exact Hm2]. repeat split; done.
    - intros f Hf. apply list_elem_of_singleton in Hf as ->. done. }
  destruct (write_file_run "risk_predictor.pkl" (Pickle (risk_predictor w1)) w1)
    as (w2 & -> & Hf2 & Hm2 & Hu2 & Ht2 & _); [congruence|].
  cbv beta iota. rewrite bind_run, gets_run. cbv beta iota. rewrite bind_run.
  assert (saved_files w 2 = files w2) as Hs2.
  { rewrite Hf2, <- Hs1, Hr1. reflexivity. }
  destruct Hm2 as (Hw2 & Hr2 & Hsc2 & He2).
  destruct (decide ("scaler.pkl" ∈ unwritable w)) as [H3|H3].
  { destruct (write_file_fails "scaler.pkl" (Pickle (scaler w2)) w2)
      as (w3 & -> & Hf3 & Hm3 & Hu3 & Ht3 & _); [congruence|].
    apply (save_models_handler w w3 2 "scaler.pkl"); try reflexivity; try congruence.
    - destruct Hm3 as (? & ? & ? & ?). repeat split; congruence.
    - intros f Hf. cbn in Hf.
      repeat (apply elem_of_cons in Hf as [->|Hf]; [done|]). inversion Hf. }
  destruct (write_file_run "scaler.pkl" (Pickle (scaler w2)) w2)
    as (w3 & -> & Hf3 & Hm3 & Hu3 & Ht3 & _); [congruence|].
  cbv beta iota. rewrite bind_run, gets_run. cbv beta iota. rewrite bind_run.
  assert (saved_files w 3 = files w3) as Hs3.
  { rewrite Hf3, <- Hs2, Hsc2, Hsc1. reflexivity. }
  destruct Hm3 as (Hw3 & Hr3 & Hsc3 & He3).
  destruct (decide ("label_encoders.pkl" ∈ unwritable w)) as [H4|H4].
  { destruct (write_file_fails "label_encoders.pkl"
                (Pickle (label_encoders w3)) w3)
      as (w4 & -> & Hf4 & Hm4 & Hu4 & Ht4 & _); [congruence|].
    apply (save_models_handler w w4 3 "label_encoders.pkl"); try reflexivity; try congruence.
    - destruct Hm4 as (? & ? & ? & ?). repeat split; congruence.
    - intros f Hf. cbn in Hf.
      repeat (apply elem_of_cons in Hf as [->|Hf]; [done|]). inversion Hf. }
  destruct (write_file_run "label_encoders.pkl" (Pickle (label_encoders w3)) w3)
    as (w4 & -> & Hf4 & Hm4 & Hu4 & Ht4 & _); [congruence|].
  cbv beta iota. unfold log. rewrite emit_run.
  exists 4. eexists. split; [reflexivity|]. wsimpl.
  destruct Hm4 as (Hw4 & Hr4 & Hsc4 & He4).
  split; [unfold same_models; wsimpl; repeat split; congruence|].
  split; [congruence|]. split.
  { rewrite Hf4, <- Hs3, He3, He2, He1. reflexivity. }
  split.
  { intros f Hf. cbn in Hf.
    repeat (apply elem_of_cons in Hf as [->|Hf]; [done|]). inversion Hf. }
  left. split; [reflexivity|]. apply last_snoc.
Qed.

Ltac in_model_files :=
  unfold model_files;
  repeat first [apply list_elem_of_here | apply list_elem_of_further].

(** All four names can be written: the run of [save_models]. *)
Lemma save_models_all (w : world) :
  (∀ f, f ∈ model_files → f ∉ unwritable w) →
  ∃ w', save_models w = (Return tt, w')
        ∧ same_models w w'
        ∧ files w' = saved_files w 4
        ∧ unwritable w' = unwritable w
        ∧ table w' = table w
        ∧ trace w'
          = trace w ++ (Dump <$> model_files)
              ++ [Log INFO "Models saved successfully"].
Proof.
  intros Hrw. unfold save_models, try_except, joblib_dump.
  rewrite bind_run, gets_run. cbv beta iota. rewrite bind_run.
  assert ("win_predictor.pkl" ∉ unwritable w) as Hx1
    by (apply Hrw; in_model_files).
  destruct (write_file_run _ (Pickle (win_predictor w)) w Hx1)
    as (w1 & -> & Hf1 & (Hw1 & Hr1 & Hsc1 & He1) & Hu1 & Ht1 & Htr1).
  cbv beta iota. rewrite bind_run, gets_run. cbv beta iota. rewrite bind_run.
  assert ("risk_predictor.pkl" ∉ unwritable w1) as Hx2
    by (rewrite Hu1; apply Hrw; in_model_files).
  destruct (write_file_run _ (Pickle (risk_predictor w1)) w1 Hx2)
    as (w2 & -> & Hf2 & (Hw2 & Hr2 & Hsc2 & He2) & Hu2 & Ht2 & Htr2).
  cbv beta iota. rewrite bind_run, gets_run. cbv beta iota. rewrite bind_run.
  assert ("scaler.pkl" ∉ unwritable w2) as Hx3
    by (rewrite Hu2, Hu1; apply Hrw; in_model_files).
  destruct (write_file_run _ (Pickle (scaler w2)) w2 Hx3)
    as (w3 & -> & Hf3 & (Hw3 & Hr3 & Hsc3 & He3) & Hu3 & Ht3 & Htr3).
  cbv beta iota. rewrite bind_run, gets_run. cbv beta iota. rewrite bind_run.
  assert ("label_encoders.pkl" ∉ unwritable w3) as Hx4
    by (rewrite Hu3, Hu2, Hu1; apply Hrw; in_model_files).
  destruct (write_file_run _ (Pickle (label_encoders w3)) w3 Hx4)
    as (w4 & -> & Hf4 & (Hw4 & Hr4 & Hsc4 & He4) & Hu4 & Ht4 & Htr4).
  cbv beta iota. unfold log. rewrite emit_run.
  eexists. split; [reflexivity|]. unfold same_models. wsimpl.
  split; [repeat split; congruence|]. split.
  { rewrite Hf4, Hf3, Hf2, Hf1, He3, He2, He1, Hsc2, Hsc1, Hr1. reflexivity. }
  split; [congruence|]. split; [congruence|].
  rewrite Htr4, Htr3, Htr2, Htr1, <- !app_assoc. reflexivity.
Qed.

(** X2: what [save_models] wrote, [load_models] reads back.  When the four
    names can be written, the files exist after [save_models], and
    [load_models] -- called on this predictor or on any other one looking
    at the same directory -- returns and sets the four attributes to the
    objects that were saved. *)
Theorem save_then_load (w : world) :
  (∀ f, f ∈ model_files → f ∉ unwritable w) →
  ∃ w1,
    save_models w = (Return tt, w1)
    ∧ _models_exist w1 = (Return true, w1)
    ∧ ∀ w0, files w0 = files w1 →
        ∃ w2, load_models w0 = (Return tt, w2)
              ∧ win_predictor w2 = win_predictor w
              ∧ risk_predictor w2 = risk_predictor w
              ∧ scaler w2 = scaler w
              ∧ label_encoders w2 = label_encoders w
              ∧ files w2 = files w0.
Proof.
  intros Hrw.
  destruct (save_models_all w Hrw) as (w1 & Hrun & _ & Hf & _).
  exists w1. split; [exact Hrun|].
  assert (files w1 !! "win_predictor.pkl" = Some (Pickle (win_predictor w))
          ∧ files w1 !! "risk_predictor.pkl" = Some (Pickle (risk_predictor w))
          ∧ files w1 !! "scaler.pkl" = Some (Pickle (scaler w))
          ∧ files w1 !! "label_encoders.pkl"
            = Some (Pickle (label_encoders w))) as (H1 & H2 & H3 & H4).
  { rewrite Hf. unfold saved_files, model_attrs. cbn [take foldl fst snd].
    repeat split.
    - rewrite !lookup_insert_ne by done. apply lookup_insert_eq.
    - rewrite !lookup_insert_ne by done. apply lookup_insert_eq.
    - rewrite !lookup_insert_ne by done. apply lookup_insert_eq.
    - apply lookup_insert_eq. }
  split.
  - rewrite models_exist_run. cbn [model_files forallb].
    rewrite H1, H2, H3, H4.
    rewrite !bool_decide_eq_true_2 by eauto. reflexivity.
  - intros w0 Hw0.
    destruct (load_models_run w0 (win_predictor w) (risk_predictor w)
                (scaler w) (label_encoders w))
      as (w2 & Hload & ? & ? & ? & ? & ? & _); try (rewrite Hw0; assumption).
    exists w2. repeat split; assumption.
Qed.

Lemma joblib_load_fails (file : string) (w : world) :
  (∀ o, files w !! file ≠ Some (Pickle o)) →
  joblib_load file w
  = (Raise (match files w !! file with
            | Some _ => UnpicklingError
            | None => FileNotFoundError
            end),
     set_trace (trace w ++ [Load file]) w).
Proof.
  intros H. unfold joblib_load. mrun.
  destruct (files w !! file) as [[o| |]|] eqn:E; mrun; try reflexivity.
  destruct (H o). reflexivity.
Qed.

Lemma load_failure_intro (w : world) (f : string) :
  (∀ o, files w !! f ≠ Some (Pickle o)) →
  load_failure w f
    (Raise (match files w !! f with
            | Some _ => UnpicklingError
            | None => FileNotFoundError
            end)).
Proof.
  intros H. unfold load_failure. destruct (files w !! f) as [b|] eqn:E.
  - right. split; [|reflexivity]. exists b. split; [reflexivity|].
    intros o ->. destruct (H o). reflexivity.
  - left. done.
Qed.

(** The run of [load_models], file by file. *)
Lemma load_models_cases (w : world) :
  ∃ n r w',
    load_models w = (r, w')
    ∧ files w' = files w ∧ unwritable w' = unwritable w
    ∧ table w' = table w ∧ today w' = today w ∧ clock w' = clock w
    ∧ (∀ i f o, i < n → model_attrs w' !! i = Some (f, o) →
                files w !! f = Some (Pickle o))
    ∧ drop n (model_attrs w') = drop n (model_attrs w)
    ∧ (n = 4 ∧ r = Return tt ∧ trace w' = trace w ++ load_events
       ∨ ∃ f, model_files !! n = Some f
              ∧ load_failure w f r
              ∧ trace w'
                = trace w ++ (Load <$> take (S n) model_files)
                    ++ [Log ERROR "Error loading models"]).
Proof.
  unfold load_models, try_except, log. cbv beta. rewrite bind_run.
  destruct (files w !! "win_predictor.pkl") as [[wo| |]|] eqn:E1.
  2,3,4: rewrite joblib_load_fails by (rewrite E1; done); mrun;
    exists 0; eexists _, _; split; [reflexivity|]; wsimpl;
    repeat split; [intros; lia|];
    right; exists "win_predictor.pkl"; split; [reflexivity|];
    split; [apply load_failure_intro; rewrite E1; done|];
    rewrite <- app_assoc; reflexivity.
  rewrite (joblib_load_run _ _ wo E1). mrun.
  destruct (files w !! "risk_predictor.pkl") as [[ro| |]|] eqn:E2.
  2,3,4: rewrite joblib_load_fails by (wsimpl; rewrite E2; done); mrun;
    exists 1; eexists _, _; split; [reflexivity|]; wsimpl;
    repeat split;
    [intros [|i] f o Hi; [intros [= <- <-]; exact E1|lia]|];
    right; exists "risk_predictor.pkl"; split; [reflexivity|];
    split; [apply load_failure_intro; rewrite E2; done|];
    rewrite <- !app_assoc; reflexivity.
  rewrite (joblib_load_run _ _ ro); [|exact E2]. mrun.
  destruct (files w !! "scaler.pkl") as [[so| |]|] eqn:E3.
  2,3,4: rewrite joblib_load_fails by (wsimpl; rewrite E3; done); mrun;
    exists 2; eexists _, _; split; [reflexivity|]; wsimpl;
    repeat split;
    [intros [|[|i]] f o Hi;
     [intros [= <- <-]; exact E1|intros [= <- <-]; exact E2|lia]|];
    right; exists "scaler.pkl"; split; [reflexivity|];
    split; [apply load_failure_intro; rewrite E3; done|];
    rewrite <- !app_assoc; reflexivity.
  rewrite (joblib_load_run _ _ so); [|exact E3]. mrun.
  destruct (files w !! "label_encoders.pkl") as [[eo| |]|] eqn:E4.
  2,3,4: rewrite joblib_load_fails by (wsimpl; rewrite E4; done); mrun;
    exists 3; eexists _, _; split; [reflexivity|]; wsimpl;
    repeat split;
    [intros [|[|[|i]]] f o Hi;
     [intros [= <- <-]; exact E1|intros [= <- <-]; exact E2
     |intros [= <- <-]; exact E3|lia]|];
    right; exists "label_encoders.pkl"; split; [reflexivity|];
    split; [apply load_failure_intro; rewrite E4; done|];
    rewrite <- !app_assoc; reflexivity.
  rewrite (joblib_load_run _ _ eo); [|exact E4]. mrun.
  exists 4. eexists _, _. split; [reflexivity|]. wsimpl.
  repeat split.
  - intros [|[|[|[|i]]]] f o Hi; intros [= <- <-]; assumption.
  - left. repeat split. rewrite <- !app_assoc. reflexivity.
Qed.

(** [load_models] returns exactly when the four files unpickle. *)
Lemma load_models_cases_loadable (w : world) :
  ∃ n r w',
    load_models w = (r, w')
    ∧ files w' = files w ∧ unwritable w' = unwritable w
    ∧ table w' = table w ∧ today w' = today w ∧ clock w' = clock w
    ∧ (∀ i f o, i < n → model_attrs w' !! i = Some (f, o) →
                files w !! f = Some (Pickle o))
    ∧ drop n (model_attrs w') = drop n (model_attrs w)
    ∧ (n = 4 ∧ r = Return tt ∧ trace w' = trace w ++ load_events
       ∨ ∃ f, model_files !! n = Some f
              ∧ load_failure w f r
              ∧ trace w'
                = trace w ++ (Load <$> take (S n) model_files)
                    ++ [Log ERROR "Error loading models"])
    ∧ (r = Return tt ↔ artifacts_loadable w).
Proof.
  destruct (load_models_cases w)
    as (n & r & w' & Hrun & Hf & Hu & Ht & Hd & Hc & Hpre & Hsuf & Hcase).
  exists n, r, w'. repeat split; try done.
  - intros ->. destruct Hcase as [(-> & _)|(f & _ & Hfail & _)].
    + intros f Hf'. apply list_elem_of_lookup in Hf' as [i Hi].
      pose proof (lookup_lt_Some _ _ _ Hi) as Hlt. cbn in Hlt.
      destruct (lookup_lt_is_Some_2 (model_attrs w') i) as [[f' o] Ho];
        [cbn; lia|].
      exists o. assert (f' = f) as <-; [|eapply Hpre; done].
      unfold model_attrs, model_files in *.
      destruct i as [|[|[|[|i]]]]; cbn in Hi, Ho; [congruence..|lia].
    + destruct Hfail as [[_ [=]]|[_ [=]]].
  - intros Hl. destruct Hcase as [(_ & -> & _)|(f & Hn & Hfail & _)]; [done|].
    apply list_elem_of_lookup_2 in Hn. destruct (Hl f Hn) as [o Ho].
    destruct Hfail as [[Hnone _]|[(b & Hb & Hnp) _]]; [congruence|].
    rewrite Ho in Hb. injection Hb as <-. destruct (Hnp o). reflexivity.
Qed.

(** X3: [load_models] assigns the attributes in the order of the files and
    stops at the first file that is missing ([FileNotFoundError]) or does
    not unpickle ([UnpicklingError]), which it re-raises: the attributes
    before it hold the objects of their files, the others are as they
    were.  It returns exactly when all four files unpickle, and it never
    changes a file or the bid table. *)
Theorem load_models_partial (w : world) :
  ∃ n r w',
    load_models w = (r, w')
    ∧ files w' = files w
    ∧ table w' = table w
    ∧ (∀ i f o, i < n → model_attrs w' !! i = Some (f, o) →
                files w !! f = Some (Pickle o))
    ∧ drop n (model_attrs w') = drop n (model_attrs w)
    ∧ (n = 4 ∧ r = Return tt
       ∨ ∃ f, model_files !! n = Some f ∧ load_failure w f r)
    ∧ (r = Return tt ↔ artifacts_loadable w).
Proof.
  destruct (load_models_cases_loadable w)
    as (n & r & w' & Hrun & Hf & _ & Ht & _ & _ & Hpre & Hsuf & Hcase & Hiff).
  exists n, r, w'. repeat split; try done; try apply Hiff.
  destruct Hcase as [(-> & -> & _)|(f & Hn & Hfail & _)]; eauto.
Qed.

(** X4: for the short circuit of [train_models] a file that exists is good
    enough, whether it unpickles or not.  When the four files exist and
    one of them does not unpickle, [train_models(retrain=False)] raises
    [UnpicklingError] out of [load_models]: it reads the files up to the
    bad one, logs the error, and never looks at a bid, fits or writes
    anything. *)
Theorem train_models_corrupt_artifact (w : world) :
  (∀ f, f ∈ model_files → is_Some (files w !! f)) →
  (∃ f, f ∈ model_files ∧ ∀ o, files w !! f ≠ Some (Pickle o)) →
  ∃ n w',
    train_models false w = (Raise UnpicklingError, w')
    ∧ n < 4
    ∧ files w' = files w
    ∧ table w' = table w
    ∧ trace w'
      = trace w ++ (Load <$> take (S n) model_files)
          ++ [Log ERROR "Error loading models"].
Proof.
  intros Hall (f0 & Hf0 & Hbad).
  destruct (load_models_cases_loadable w)
    as (n & r & w' & Hrun & Hf & _ & Ht & _ & _ & _ & _ & Hcase & Hiff).
  exists n, w'. unfold train_models. rewrite bind_run. cbn [negb].
  rewrite models_exist_run.
  replace (forallb _ model_files) with true.
  2:{ symmetry. apply forallb_forall. intros f Hin%list_elem_of_In.
      apply bool_decide_eq_true_2, Hall, Hin. }
  cbv beta iota. rewrite Hrun.
  destruct Hcase as [(_ & -> & _)|(f & Hn & Hfail & Htr)].
  { destruct (proj1 Hiff eq_refl f0 Hf0) as [o Ho]. destruct (Hbad o Ho). }
  pose proof (lookup_lt_Some _ _ _ Hn) as Hlt. cbn in Hlt.
  destruct Hfail as [[Hnone _]|[_ ->]].
  { destruct (Hall f (list_elem_of_lookup_2 _ _ _ Hn)) as [b Hb]. congruence. }
  repeat split; done.
Qed.

(** ** Frames *)

Section preserves.
Context {B : Type} (attr : world → B).

Lemma preserves_ret {A} (a : A) : preserves attr (mret a).
Proof. intros w r w' [= <- <-]. reflexivity. Qed.

Lemma preserves_lift {A} (o : outcome A) : preserves attr (lift o).
Proof. intros w r w' [= <- <-]. reflexivity. Qed.

Lemma preserves_raise {A} (e : exn) : preserves attr (raise (A := A) e).
Proof. intros w r w' [= <- <-]. reflexivity. Qed.

Lemma preserves_gets {A} (f : world → A) : preserves attr (gets f).
Proof. intros w r w' [= <- <-]. reflexivity. Qed.

Lemma preserves_bind {A C} (m : M A) (f : A → M C) :
  preserves attr m → (∀ a, preserves attr (f a)) → preserves attr (m ≫= f).
Proof.
  intros Hm Hf w r w'. rewrite bind_run.
  destruct (m w) as [[a|e] w1] eqn:E; intros H.
  - rewrite (Hf _ _ _ _ H). eapply Hm, E.
  - injection H as <- <-. eapply Hm, E.
Qed.

Lemma preserves_try_except {A} (body : M A) (handler : exn → M A) :
  preserves attr body → (∀ e, preserves attr (handler e)) →
  preserves attr (try_except body handler).
Proof.
  intros Hm Hf w r w'. unfold try_except.
  destruct (body w) as [[a|e] w1] eqn:E; intros H.
  - injection H as <- <-. eapply Hm, E.
  - rewrite (Hf _ _ _ _ H). eapply Hm, E.
Qed.

(** A computation that never changes the world. *)
Lemma preserves_unchanged {A} (m : M A) :
  (∀ w r w', m w = (r, w') → w' = w) → preserves attr m.
Proof. intros H w r w' Hrun. rewrite (H _ _ _ Hrun). reflexivity. Qed.

End preserves.

Create HintDb preserves discriminated.
#[local] Hint Resolve preserves_ret preserves_lift preserves_raise
  preserves_gets : preserves.
#[local] Hint Extern 1 (preserves _ (modify _)) =>
  (intros ? ? ? [= <- <-]; reflexivity) : preserves.
#[local] Hint Extern 1 (preserves _ (emit _)) =>
  (intros ? ? ? [= <- <-]; reflexivity) : preserves.
#[local] Hint Extern 1 (preserves _ (log _ _)) =>
  (intros ? ? ? [= <- <-]; reflexivity) : preserves.
#[local] Hint Extern 1 (in_memory _) => exact I : emits.
#[local] Hint Extern 1 (not_a_fit _) => exact I : emits.

(** Solves [preserves attr m] for a straight-line [m]. *)
Ltac preserves_steps :=
  repeat first
    [ solve [auto with preserves]
    | apply preserves_bind; [|intros ?]
    | apply preserves_try_except; [|intros ?]
    | match goal with
      | |- preserves _ (match ?x with _ => _ end) => destruct x
      | |- preserves _ (if ?x then _ else _) => destruct x
      | |- preserves _ (let '(_, _) := ?x in _) => destruct x
      end ].

Lemma keeps_models_intro {A} (m : M A) :
  preserves win_predictor m → preserves risk_predictor m →
  preserves scaler m → preserves label_encoders m →
  keeps_models m.
Proof.
  intros H1 H2 H3 H4 w r w' Hrun. repeat split; eauto.
Qed.

Lemma emits_weaken {A} (P Q : event → Prop) (m : M A) :
  (∀ ev, P ev → Q ev) → emits P m → emits Q m.
Proof. intros HPQ Hm w r w' Hrun. eapply after_weaken; [exact HPQ|eauto]. Qed.

Lemma emits_unchanged {A} (P : event → Prop) (m : M A) :
  (∀ w r w', m w = (r, w') → w' = w) → emits P m.
Proof. intros H w r w' Hrun. rewrite (H _ _ _ Hrun). apply after_refl. Qed.

Section preserves_steps.
Context {B : Type} (attr : world → B).
Context (attr_trace : ∀ t w, attr (set_trace t w) = attr w).

Lemma preserves_emit_any (ev : event) : preserves attr (emit ev).
Proof. intros w r w' [= <- <-]. apply attr_trace. Qed.

Lemma preserves_joblib_load (file : string) : preserves attr (joblib_load file).
Proof.
  unfold joblib_load. pose proof preserves_emit_any. preserves_steps.
Qed.

Lemma preserves_self_scaler_transform (cols : list string) (X : frame) :
  preserves attr (self_scaler_transform cols X).
Proof. unfold self_scaler_transform. preserves_steps. Qed.

Lemma preserves_obj_predict (o : pyobj) (X : matrix) :
  preserves attr (obj_predict o X).
Proof. unfold obj_predict. pose proof preserves_emit_any. preserves_steps. Qed.

Lemma preserves_predict_first (o : pyobj) (X : matrix) :
  preserves attr (predict_first o X).
Proof.
  unfold predict_first. pose proof preserves_obj_predict. preserves_steps.
Qed.

Lemma preserves_regressor_fit (X : matrix) (y : list float) :
  preserves attr (regressor_fit X y).
Proof. unfold regressor_fit. pose proof preserves_emit_any. preserves_steps. Qed.

Lemma preserves_extract_features_now (bid : Bid) :
  preserves attr (extract_features_now bid).
Proof.
  unfold extract_features_now. pose proof preserves_emit_any. preserves_steps.
Qed.

Lemma preserves_training_rows (bids : list Bid) :
  preserves attr (training_rows bids).
Proof.
  induction bids as [|bid bids IH]; cbn [training_rows].
  - preserves_steps.
  - pose proof (preserves_extract_features_now bid). preserves_steps.
Qed.

Lemma preserves_prepare_training_data : preserves attr prepare_training_data.
Proof.
  unfold prepare_training_data. pose proof preserves_training_rows.
  preserves_steps.
Qed.

Lemma preserves_predict_with_models (features : row) :
  preserves attr (predict_with_models features).
Proof.
  unfold predict_with_models.
  pose proof preserves_self_scaler_transform.
  pose proof preserves_predict_first.
  assert (∀ cols X, preserves attr (encode_known_columns cols X))
    by (intros; apply preserves_unchanged, encode_known_columns_world).
  preserves_steps.
Qed.

End preserves_steps.

(** ** Prediction reads, and never writes *)

(** As [emits_steps], but a step that a hypothesis covers is not opened. *)
Ltac emits_known :=
  repeat first
    [ solve [auto with emits]
    | apply emits_bind; [|intros ?]
    | apply emits_try_except; [|intros ?]
    | match goal with
      | |- emits _ (match ?x with _ => _ end) => destruct x
      | |- emits _ (if ?x then _ else _) => destruct x
      | |- emits _ (let '(_, _) := ?x in _) => destruct x
      end ].

Lemma in_memory_not_a_write (ev : event) : in_memory ev → not_a_write ev.
Proof. destruct ev; cbn; done. Qed.

Lemma emits_predict_with_models (features : row) :
  emits in_memory (predict_with_models features).
Proof.
  unfold predict_with_models, self_scaler_transform, predict_first,
    obj_predict.
  assert (∀ cols X, emits in_memory (encode_known_columns cols X))
    by (intros; apply emits_unchanged, encode_known_columns_world).
  emits_steps.
Qed.

(** The part of [predict_for_bid] after the models are there. *)
Lemma emits_predict_body (bid : Bid) :
  emits in_memory
    (extract_features_now bid ≫= λ features,
       try_except (predict_with_models features)
         (λ e, log ERROR "Error predicting for bid";;
               mret _get_default_prediction)).
Proof.
  pose proof emits_predict_with_models.
  unfold extract_features_now, log. emits_known.
Qed.

Lemma keeps_predict_body (bid : Bid) :
  keeps_models
    (extract_features_now bid ≫= λ features,
       try_except (predict_with_models features)
         (λ e, log ERROR "Error predicting for bid";;
               mret _get_default_prediction)).
Proof.
  pose (keeps := λ (B : Type) (attr : world → B) H,
    conj (preserves_extract_features_now attr H)
         (preserves_predict_with_models attr H)).
  apply keeps_models_intro.
  - destruct (keeps _ win_predictor (λ _ _, eq_refl)). preserves_steps.
  - destruct (keeps _ risk_predictor (λ _ _, eq_refl)). preserves_steps.
  - destruct (keeps _ scaler (λ _ _, eq_refl)). preserves_steps.
  - destruct (keeps _ label_encoders (λ _ _, eq_refl)). preserves_steps.
Qed.

Lemma emits_predict_for_bid (bid : Bid) :
  emits not_a_write (predict_for_bid bid).
Proof.
  unfold predict_for_bid.
  apply emits_bind; [auto with emits|]. intros o.
  apply emits_bind.
  - pose proof emits_load_models. destruct o; emits_known.
  - intros [|]; [|auto with emits].
    eapply emits_weaken; [apply in_memory_not_a_write|].
    apply emits_predict_body.
Qed.

(** X5: [predict_for_bid] only reads.  Whatever it returns, the files of
    the model directory and the bid table are as before and no event of
    the call is a write.  With a model in memory it does not open a model
    file either, fits nothing, and leaves the four attributes of [self] as
    they were: its events are the feature extraction, the calls of
    [predict], and the error log line. *)
Theorem predict_for_bid_read_only (bid : Bid) (w : world) :
  ∃ r w',
    predict_for_bid bid w = (r, w')
    ∧ after not_a_write w w'
    ∧ (win_predictor w ≠ ONone → same_models w w' ∧ after in_memory w w').
Proof.
  destruct (predict_for_bid bid w) as [r w'] eqn:E. exists r, w'.
  split; [reflexivity|]. split; [eapply emits_predict_for_bid, E|].
  intros Hw.
  rewrite (predict_for_bid_ready bid w w) in E by (left; done).
  split; [eapply keeps_predict_body, E|eapply emits_predict_body, E].
Qed.

(** ** Training never gets to save *)

Lemma preserves_encode_columns_risk (cols : list string) (X : frame) :
  preserves risk_predictor (encode_columns cols X).
Proof.
  revert X. induction cols as [|c cols IH]; intros X; cbn [encode_columns];
    unfold encoders_dict; preserves_steps.
Qed.

Lemma preserves_self_scaler_fit_transform_risk (cols : list string) (X : frame) :
  preserves risk_predictor (self_scaler_fit_transform cols X).
Proof. unfold self_scaler_fit_transform. preserves_steps. Qed.

Lemma training_path_or_short_circuit (retrain : bool) (w : world) :
  training_path retrain w
  ∨ (retrain = false
     ∧ forallb (λ f, bool_decide (is_Some (files w !! f))) model_files = true).
Proof.
  destruct retrain; [left; left; reflexivity|].
  destruct (files w !! "win_predictor.pkl") eqn:E1;
    [|left; right; exists "win_predictor.pkl"; split; [in_model_files|done]].
  destruct (files w !! "risk_predictor.pkl") eqn:E2;
    [|left; right; exists "risk_predictor.pkl"; split; [in_model_files|done]].
  destruct (files w !! "scaler.pkl") eqn:E3;
    [|left; right; exists "scaler.pkl"; split; [in_model_files|done]].
  destruct (files w !! "label_encoders.pkl") eqn:E4;
    [|left; right; exists "label_encoders.pkl"; split; [in_model_files|done]].
  right. split; [done|]. cbn [model_files forallb].
  rewrite E1, E2, E3, E4, !bool_decide_eq_true_2 by eauto. reflexivity.
Qed.

Lemma Forall_not_a_write_loads (fs : list string) :
  Forall (λ ev, not_a_write ev ∧ not_a_fit ev) (Load <$> fs).
Proof. apply Forall_fmap, Forall_true. intros f. split; exact I. Qed.

(** The short circuit of [train_models]. *)
Lemma train_models_short_circuit_run (w : world) :
  forallb (λ f, bool_decide (is_Some (files w !! f))) model_files = true →
  ∃ r w' evs,
    train_models false w = (r, w')
    ∧ files w' = files w ∧ table w' = table w
    ∧ trace w' = trace w ++ evs
    ∧ Forall (λ ev, not_a_write ev ∧ not_a_fit ev) evs.
Proof.
  intros Hall. unfold train_models. rewrite bind_run. cbn [negb].
  rewrite models_exist_run, Hall. cbv beta iota.
  destruct (load_models_cases w)
    as (n & r & w' & Hrun & Hf & _ & Ht & _ & _ & _ & _ & Hcase).
  exists r, w'.
  destruct Hcase as [(_ & _ & Htr)|(f & _ & _ & Htr)]; eexists;
    (split; [exact Hrun|]); (split; [exact Hf|]); (split; [exact Ht|]);
    (split; [exact Htr|]).
  - repeat constructor.
  - apply Forall_app. split; [apply Forall_not_a_write_loads|].
    repeat constructor.
Qed.

Section more_laws.
Context `{!LibrariesLaws L}.

Lemma stops_unfitted_bind {A} (m : M A) (f : A → M unit) (w : world) :
  preserves risk_predictor m →
  (∀ a w1, m w = (Return a, w1) → stops_unfitted w1 (f a w1)) →
  stops_unfitted w ((m ≫= f) w).
Proof.
  intros Hm Hf. rewrite bind_run.
  destruct (m w) as [[a|e] w1] eqn:E.
  - destruct (Hf a w1 eq_refl) as (e & w' & -> & Hcase).
    exists e, w'. split; [done|]. rewrite <- (Hm _ _ _ E). exact Hcase.
  - exists e, w1. split; [done|]. left. eapply Hm, E.
Qed.

(** The fit of the risk regressor fails and leaves an unfitted regressor
    in [self.risk_predictor]; a step that raises before leaves the
    attribute as it was. *)
Lemma fit_models_unfitted (df : frame) (w : world) :
  0 < length df →
  Forall (λ r, returns (risk_of_row r)) df →
  stops_unfitted w (fit_models df w).
Proof.
  intros Hn Hrisk. unfold fit_models.
  apply stops_unfitted_bind; [apply preserves_encode_columns_risk|].
  intros X_encoded w1 _.
  apply stops_unfitted_bind; [apply preserves_self_scaler_fit_transform_risk|].
  intros X_scaled w2 _.
  apply stops_unfitted_bind; [auto with preserves|]. intros split w3 Hsplit.
  rewrite lift_run in Hsplit. injection Hsplit as Hsplit _.
  destruct split as [[[X_train X_test] y_train] y_test].
  destruct (train_test_split_sizes _ _ _ _ _ _ Hsplit)
    as (Hy & Htrain & _ & _).
  rewrite length_column in Hy. rewrite <- Hy in Htrain.
  apply stops_unfitted_bind; [auto with preserves|]. intros _ w4 _.
  apply stops_unfitted_bind; [auto with preserves|]. intros y_train_f w5 _.
  apply stops_unfitted_bind; [apply preserves_regressor_fit; reflexivity|].
  intros reg w6 _.
  apply stops_unfitted_bind; [auto with preserves|]. intros _ w7 _.
  apply stops_unfitted_bind; [apply preserves_obj_predict; reflexivity|].
  intros y_pred w8 _.
  apply stops_unfitted_bind; [case_bool_decide; auto with preserves|].
  intros _ w9 _.
  destruct (calculate_risk_scores_returns df Hrisk) as (risks & Hr & Hlen).
  rewrite bind_run, lift_run, Hr. cbv beta iota.
  rewrite bind_run, modify_run. cbv beta iota.
  rewrite bind_run. unfold regressor_fit at 1. mrun.
  rewrite gbr_fit_inconsistent.
  2:{ rewrite Htrain, Hlen. pose proof (n_test_of_pos (length df) Hn). lia. }
  mrun. eexists _, _. split; [reflexivity|]. right. reflexivity.
Qed.

(** A run of [train_models] that does not take the short circuit. *)
Lemma train_models_training_run (retrain : bool) (w : world) :
  training_path retrain w →
  ∃ r w' evs,
    train_models retrain w = (r, w')
    ∧ files w' = files w ∧ table w' = table w
    ∧ trace w' = trace w ++ evs
    ∧ Forall not_a_write evs
    ∧ (risk_predictor w' = risk_predictor w
       ∨ risk_predictor w' = ORegressor None)
    ∧ (r = Return tt →
       length (eligible (table w)) < 10 ∧ same_models w w'
       ∧ Forall not_a_fit evs)
    ∧ (10 ≤ length (eligible (table w)) → ∃ e, r = Raise e).
Proof.
  intros Hpath. rewrite (train_models_on_training_path _ _ Hpath).
  rewrite bind_run.
  destruct (prepare_training_data w) as [[df|e] w0] eqn:E.
  - destruct (prepare_training_data_spec _ _ _ E)
      as (Hlen & Hrisk & Hsame & Htr).
    pose proof (emits_prepare_training_data _ _ _ E) as (Hf & _ & Ht & _).
    case_bool_decide as Hfew.
    + unfold log. rewrite emit_run. eexists _, _, _.
      split; [reflexivity|]. wsimpl.
      split; [exact Hf|]. split; [exact Ht|].
      split; [rewrite Htr, <- app_assoc; reflexivity|].
      assert (Forall (λ ev, not_a_write ev ∧ not_a_fit ev)
                ((Extract ∘ id <$> eligible (table w))
                 ++ [Log WARNING "Not enough training data available"]))
        as Hevs.
      { apply Forall_app. split; [|repeat constructor].
        apply Forall_fmap, Forall_true. intros b. split; exact I. }
      split; [eapply Forall_impl; [exact Hevs|]; intros ? []; done|].
      split; [left; apply Hsame|]. split.
      * intros _. split; [lia|]. split; [exact Hsame|].
        eapply Forall_impl; [exact Hevs|]. intros ? []; done.
      * intros Hge. lia.
    + assert (0 < length df) as Hpos by lia.
      destruct (fit_models_stops df w0 Hpos Hrisk)
        as (e & w' & evs & Hrun & Hf' & Ht' & Htr' & Hcase).
      destruct (fit_models_unfitted df w0 Hpos Hrisk)
        as (e2 & w2 & Hrun2 & Hunf).
      rewrite Hrun in Hrun2. injection Hrun2 as <- <-.
      rewrite Hrun. exists (Raise e), w', ((Extract ∘ id <$> eligible (table w)) ++ evs).
      split; [reflexivity|]. split; [congruence|]. split; [congruence|].
      split; [rewrite Htr', Htr, app_assoc; reflexivity|].
      split.
      { apply Forall_app. split.
        - apply Forall_fmap, Forall_true. intros b. exact I.
        - destruct Hcase as [Hs|(evs1 & msg & -> & Hs & _)].
          + eapply Forall_impl; [exact Hs|apply silent_not_a_write].
          + apply Forall_app. split; [|repeat constructor].
            eapply Forall_impl; [exact Hs|apply silent_not_a_write]. }
      split.
      { destruct Hsame as (_ & Hr0 & _). rewrite <- Hr0. exact Hunf. }
      split; [discriminate|eauto].
  - pose proof (emits_prepare_training_data _ _ _ E)
      as (Hf & _ & Ht & _ & _ & evs & Htr & Hs).
    exists (Raise e), w0, evs. split; [reflexivity|].
    split; [exact Hf|]. split; [exact Ht|]. split; [exact Htr|].
    split; [eapply Forall_impl; [exact Hs|apply silent_not_a_write]|].
    split; [left; apply (preserves_prepare_training_data risk_predictor
                           (λ _ _, eq_refl) _ _ _ E)|].
    split; [discriminate|eauto].
Qed.

(** X6: [train_models] never writes a file.  For either value of
    [retrain] and from any state, the call leaves the model directory and
    the bid table as they were and none of its events is a write: it
    loads the files, or finds fewer than ten rows, or raises before
    [save_models] is reached.  A call that returns has fitted nothing. *)
Theorem train_models_never_writes (retrain : bool) (w : world) :
  ∃ r w' evs,
    train_models retrain w = (r, w')
    ∧ files w' = files w
    ∧ table w' = table w
    ∧ trace w' = trace w ++ evs
    ∧ Forall not_a_write evs
    ∧ (r = Return tt → Forall not_a_fit evs).
Proof.
  destruct (training_path_or_short_circuit retrain w) as [Hpath|[-> Hall]].
  - destruct (train_models_training_run retrain w Hpath)
      as (r & w' & evs & Hrun & Hf & Ht & Htr & Hw & _ & Hret & _).
    exists r, w', evs. repeat split; try done. intros Hr. apply Hret, Hr.
  - destruct (train_models_short_circuit_run w Hall)
      as (r & w' & evs & Hrun & Hf & Ht & Htr & Hevs).
    exists r, w', evs. repeat split; try done.
    + eapply Forall_impl; [exact Hevs|]. intros ? []; done.
    + intros _. eapply Forall_impl; [exact Hevs|]. intros ? []; done.
Qed.

(** Whether extraction raises depends on the bid alone. *)
Lemma extract_features_returns_any (tbl tbl' : list Bid) (now now' : Z)
    (bid : Bid) :
  returns (_extract_features tbl now bid) →
  returns (_extract_features tbl' now' bid).
Proof.
  unfold _extract_features. intros [features H].
  destruct (if json_truthy (requirements bid) then _ else _) as [n|e];
    [|discriminate].
  eexists. reflexivity.
Qed.

Lemma predict_for_bid_load_raises (bid : Bid) (w w1 : world) (e : exn) :
  win_predictor w = ONone →
  load_models w = (Raise e, w1) →
  predict_for_bid bid w = (Return _get_default_prediction, w1).
Proof.
  intros Hw Hl. unfold predict_for_bid. rewrite bind_run, gets_run.
  cbv beta iota. rewrite Hw, bind_run. unfold try_except at 1.
  rewrite bind_run, Hl. cbv beta iota. rewrite ret_run. reflexivity.
Qed.

(** Without a fitted risk predictor the [try] block of [predict_for_bid]
    raises. *)
Lemma predict_with_models_unfitted (features : row) (w : world) :
  risk_unfitted w →
  ∃ e w', predict_with_models features w = (Raise e, w').
Proof.
  intros Hunf. unfold predict_with_models. rewrite bind_run.
  destruct (encode_known_columns _ _ w) as [[df|e] wa] eqn:E1; [|eauto].
  apply encode_known_columns_world in E1 as ->. rewrite bind_run.
  destruct (self_scaler_transform _ df w) as [[X|e] wb] eqn:E2; [|eauto].
  pose proof (preserves_self_scaler_transform risk_predictor _ _ _ _ _ E2)
    as Hb.
  rewrite bind_run, gets_run. cbv beta iota. rewrite bind_run.
  destruct (predict_first (win_predictor wb) X wb) as [[y1|e] wc] eqn:E3;
    [|eauto].
  pose proof (preserves_predict_first risk_predictor (λ _ _, eq_refl)
                _ _ _ _ _ E3) as Hc.
  rewrite bind_run, gets_run. cbv beta iota. rewrite bind_run.
  unfold predict_first at 1. rewrite bind_run. rewrite Hc, Hb.
  destruct Hunf as [->| ->]; cbn [obj_predict]; rewrite raise_run; eauto.
Qed.

Lemma predict_for_bid_unfitted (bid : Bid) (w : world) :
  risk_unfitted w →
  (∃ f, f ∈ model_files ∧ ∀ o, files w !! f ≠ Some (Pickle o)) →
  returns (_extract_features (table w) (today w) bid) →
  ∃ w', predict_for_bid bid w = (Return _get_default_prediction, w').
Proof.
  intros Hunf Hbad [features Hx].
  assert (win_predictor w = ONone ∨ win_predictor w ≠ ONone) as [Hw|Hw]
    by (destruct (win_predictor w); auto; right; discriminate).
  - destruct (load_models_raises w Hbad) as (e & w1 & Hl).
    exists w1. eapply predict_for_bid_load_raises; done.
  - assert (extract_features_now bid w
            = (Return features, set_trace (trace w ++ [Extract (id bid)]) w))
      as Hnow.
    { unfold extract_features_now. mrun. rewrite Hx. reflexivity. }
    destruct (predict_with_models_unfitted features
                (set_trace (trace w ++ [Extract (id bid)]) w) Hunf)
      as (e & w3 & Hbody).
    eexists. eapply predict_for_bid_body_raises; [left; done|done..].
Qed.

(** X7: the predictor cannot bootstrap itself.  Take a new predictor in a
    model directory that lacks one of the four files.  Whatever
    [train_models] does -- for either value of [retrain], on any bid
    table -- a [predict_for_bid] on the same predictor afterwards returns
    the default result for every bid whose features can be extracted, and
    the model directory is still as it was. *)
Theorem train_then_predict_default (retrain : bool) (w : world) (bid : Bid) :
  (∃ f, f ∈ model_files ∧ files w !! f = None) →
  returns (_extract_features (table w) (today w) bid) →
  ∃ r w1 w2,
    train_models retrain (init w) = (r, w1)
    ∧ predict_for_bid bid w1 = (Return _get_default_prediction, w2)
    ∧ files w2 = files w.
Proof.
  intros (f & Hf & Hnone) Hx.
  destruct (train_models_training_run retrain (init w))
    as (r & w1 & evs & Hrun & Hf1 & Ht1 & _ & _ & Hunf & _).
  { right. exists f. split; [exact Hf|exact Hnone]. }
  change (files (init w)) with (files w) in Hf1.
  destruct (predict_for_bid_unfitted bid w1) as [w2 Hpred].
  - destruct Hunf as [H|H]; [left|right]; exact H.
  - exists f. split; [exact Hf|]. rewrite Hf1, Hnone. discriminate.
  - eapply extract_features_returns_any, Hx.
  - exists r, w1, w2. split; [exact Hrun|]. split; [exact Hpred|].
    pose proof (emits_predict_for_bid _ _ _ _ Hpred) as (Hf2 & _).
    congruence.
Qed.

End more_laws.

(** ** Risk labels stay below 0.9 *)

Lemma risk_of_row_range (r : row) (x : float) :
  risk_of_row r = Return x →
  (0 <=? x)%float = true ∧ (x <? 0.9)%float = true.
Proof.
  unfold risk_of_row. intros H.
  destruct (dict_getitem r "bid_value") as [v1|]; [|discriminate].
  cbn [mbind outcome_bind] in H.
  destruct (py_gt v1 _) as [c1|]; [|discriminate].
  cbn [mbind outcome_bind] in H.
  destruct (dict_getitem r "customer_relationship_score") as [v2|];
    [|discriminate].
  cbn [mbind outcome_bind] in H.
  destruct (py_lt v2 _) as [c2|]; [|discriminate].
  cbn [mbind outcome_bind] in H.
  destruct (dict_getitem r "complexity_score") as [v3|]; [|discriminate].
  cbn [mbind outcome_bind] in H.
  destruct (py_gt v3 _) as [c3|]; [|discriminate].
  cbn [mbind outcome_bind] in H.
  destruct (dict_getitem r "days_until_due") as [v4|]; [|discriminate].
  cbn [mbind outcome_bind] in H.
  destruct (py_lt v4 _) as [c4|]; [|discriminate].
  cbn [mbind outcome_bind] in H.
  injection H as <-.
  destruct c1, c2, c3, c4; split; vm_compute; reflexivity.
Qed.

(** X8: [_calculate_risk_scores] gives one label per row, and every label
    lies in the interval from 0 to 0.9, 0.9 excluded: the largest sum
    of weights the loop can reach is 0.3 + 0.2 + 0.2 + 0.2, so the final
    clamp to [0, 1] never changes a value and no label is 1. *)
Theorem risk_scores_range (df : frame) (risks : list float) :
  _calculate_risk_scores df = Return risks →
  length risks = length df
  ∧ Forall (λ x, (0 <=? x)%float = true ∧ (x <? 0.9)%float = true) risks.
Proof.
  revert risks. induction df as [|r df IH]; intros risks; cbn.
  - intros [= <-]. split; [reflexivity|constructor].
  - destruct (risk_of_row r) as [x|] eqn:Ex; [|discriminate].
    cbn [mbind outcome_bind].
    destruct (_calculate_risk_scores df) as [xs|]; [|discriminate].
    cbn [mbind outcome_bind]. intros [= <-].
    destruct (IH xs eq_refl) as [Hlen Hall]. split; [cbn; congruence|].
    constructor; [exact (risk_of_row_range r x Ex)|exact Hall].
Qed.

(** ** Recommendations *)

Lemma blocks_disjoint :
  Forall (λ s, s ∉ mid_win_block) low_win_block
  ∧ Forall (λ s, s ∉ low_win_block ++ mid_win_block)
      (high_risk_block ++ [engagement_rec; accelerate_rec]).
Proof. split; apply (bool_decide_unpack _); vm_compute; exact I. Qed.

(** X9: for every input on which [get_recommendations] returns, the result
    has at most 9 entries, each one of the 13 fixed strings, and never
    strings of both win-probability blocks: with a win probability below
    0.3 none of the "focus" block, otherwise none of the "revise" block. *)
Theorem get_recommendations_bounded (bid : Bid) (p : prediction)
    (recs : list string) :
  get_recommendations bid p = Return recs →
  length recs ≤ 9
  ∧ (∀ s, s ∈ recs → s ∈ all_recommendations)
  ∧ (∀ s, s ∈ recs → s ∈ mid_win_block →
          (win_probability p <? 0.3)%float = false
          ∧ (win_probability p <? 0.6)%float = true)
  ∧ (∀ s, s ∈ recs → s ∈ low_win_block →
          (win_probability p <? 0.3)%float = true).
Proof.
  unfold get_recommendations. intros H.
  destruct (py_lt (dict_get _ "customer_relationship_score" _) _) as [c1|];
    [|discriminate].
  destruct (py_lt (dict_get _ "days_until_due" _) _) as [c2|]; [|discriminate].
  cbn [mbind outcome_bind] in H. injection H as <-.
  destruct blocks_disjoint as [Hlm Hrest].
  rewrite Forall_forall in Hlm. rewrite Forall_forall in Hrest.
  split; [|split; [|split]].
  - destruct (win_probability p <? 0.3)%float,
      (win_probability p <? 0.6)%float, (0.7 <? risk_score p)%float, c1, c2;
      vm_compute; lia.
  - intros s Hs%elem_of_elements%elem_of_list_to_set.
    unfold all_recommendations.
    destruct (win_probability p <? 0.3)%float,
      (win_probability p <? 0.6)%float, (0.7 <? risk_score p)%float, c1, c2;
      rewrite ?elem_of_app, ?elem_of_cons in *; tauto.
  - intros s Hs%elem_of_elements%elem_of_list_to_set Hmid.
    destruct (win_probability p <? 0.3)%float,
      (win_probability p <? 0.6)%float; try done; exfalso;
      destruct (0.7 <? risk_score p)%float, c1, c2;
      rewrite ?elem_of_app, ?elem_of_cons, ?elem_of_nil in Hs;
      specialize (Hlm s); specialize (Hrest s);
      rewrite ?elem_of_app, ?elem_of_cons, ?elem_of_nil in Hrest; tauto.
  - intros s Hs%elem_of_elements%elem_of_list_to_set Hlow.
    destruct (win_probability p <? 0.3)%float; [done|exfalso].
    destruct (win_probability p <? 0.6)%float,
      (0.7 <? risk_score p)%float, c1, c2;
      rewrite ?elem_of_app, ?elem_of_cons, ?elem_of_nil in Hs;
      specialize (Hlm s); specialize (Hrest s);
      rewrite ?elem_of_app, ?elem_of_cons, ?elem_of_nil in Hrest; tauto.
Qed.

Lemma extract_features_now_run (bid : Bid) (w : world) :
  extract_features_now bid w
  = (_extract_features (table w) (today w) bid,
     set_trace (trace w ++ [Extract (id bid)]) w).
Proof. unfold extract_features_now. mrun. reflexivity. Qed.

(** The features of a result of [predict_for_bid]: none, or those
    extracted from the bid. *)
Lemma predict_for_bid_features (bid : Bid) (w w' : world) (p : prediction) :
  predict_for_bid bid w = (Return p, w') →
  p = _get_default_prediction
  ∨ _extract_features (table w) (today w) bid = Return (features p).
Proof.
  intros H.
  assert (∀ w1, models_ready w w1 → table w1 = table w → today w1 = today w →
    p = _get_default_prediction
    ∨ _extract_features (table w) (today w) bid = Return (features p))
    as Hgo.
  { intros w1 Hready Ht Hd.
    destruct (extract_features_now bid w1) as [[feats|e] w2] eqn:Ex.
    - destruct (predict_for_bid_returns bid w w1 w2 feats Hready Ex)
        as (p' & w3 & Hp & Hcase).
      rewrite Hp in H. injection H as <- <-.
      destruct Hcase as [->|(_ & Hfeat & _)]; [left; reflexivity|right].
      rewrite extract_features_now_run in Ex. injection Ex as Ex _.
      rewrite Hfeat. congruence.
    - rewrite (predict_for_bid_ready _ _ _ Hready), bind_run, Ex in H.
      discriminate. }
  assert (win_predictor w = ONone ∨ win_predictor w ≠ ONone) as [Hw|Hw]
    by (destruct (win_predictor w); auto; right; discriminate).
  - destruct (load_models w) as [[[]|e] w1] eqn:El.
    + pose proof (emits_load_models _ _ _ El) as (_ & _ & Ht & Hd & _).
      apply (Hgo w1); [right; done|done..].
    + rewrite (predict_for_bid_load_raises bid w w1 e Hw El) in H.
      injection H as <- _. left. reflexivity.
  - apply (Hgo w); [left; done|done..].
Qed.

(** X10: the two calls the callers chain.  On every result that
    [predict_for_bid] returns, [get_recommendations] returns as well: the
    features of the result are either missing, and read as 0, or those
    that [_extract_features] made, whose relationship score and days are
    numbers.  On the default result the recommendations are the four of
    the "focus" block, the customer-engagement one and the
    accelerate-review one. *)
Theorem recommendations_after_prediction (bid : Bid) (w w' : world)
    (p : prediction) :
  predict_for_bid bid w = (Return p, w') →
  ∃ recs,
    get_recommendations bid p = Return recs
    ∧ (p = _get_default_prediction →
       recs ≡ₚ mid_win_block ++ [engagement_rec; accelerate_rec]).
Proof.
  intros H. destruct (predict_for_bid_features _ _ _ _ H) as [->|Hx].
  - eexists. split; [reflexivity|]. intros _.
    apply NoDup_Permutation.
    + apply NoDup_elements.
    + apply (bool_decide_unpack _). vm_compute. exact I.
    + intros s. rewrite elem_of_elements, elem_of_list_to_set. reflexivity.
  - destruct (extract_features_risk_columns _ _ _ _ Hx)
      as (_ & Hrs & _ & Hd).
    destruct (get_recommendations_returns bid p) as [recs Hrecs].
    + unfold dict_get. rewrite Hrs. eexists. reflexivity.
    + unfold dict_get. rewrite Hd. eexists. reflexivity.
    + exists recs. split; [exact Hrecs|].
      assert (is_Some (features p !! "customer_relationship_score")) as Hs
        by (rewrite Hrs; eauto).
      clear Hrs Hd Hx. intros ->. cbn [features _get_default_prediction] in Hs.
      rewrite lookup_empty in Hs. destruct Hs as [? [=]].
Qed.

(** ** The features of a bid *)

Lemma Return_inj {A} (a b : A) : Return a = Return b → a = b.
Proof. intros [= ->]. reflexivity. Qed.

(** X11: the schema of the features.  Whenever [_extract_features] returns,
    the dict has exactly the 20 keys of the dict literal -- whatever the
    bid --; seven of them hold floats, five hold ints, seven hold strings
    and [avg_bid_value] holds the database's Decimal average or, when that
    is NULL or zero, the int 0.  No feature is [None], and
    [fillna('unknown')] leaves each of them as it is. *)
Theorem extract_features_schema (tbl : list Bid) (now : Z) (bid : Bid)
    (features : row) :
  _extract_features tbl now bid = Return features →
  dom features = list_to_set feature_columns
  ∧ (∀ c, c ∈ ["bid_value"; "estimated_cost"; "profit_margin";
               "complexity_score"; "customer_relationship_score";
               "customer_annual_revenue"; "historical_win_rate"] →
          ∃ x, features !! c = Some (PFloat x))
  ∧ (∀ c, c ∈ ["days_until_due"; "team_size"; "review_cycle_count";
               "description_length"; "requirements_count"] →
          ∃ n, features !! c = Some (PInt n))
  ∧ (∀ c, c ∈ ["customer_type"; "customer_industry"; "business_unit";
               "bid_level"; "priority"; "complexity"; "region"] →
          ∃ s, features !! c = Some (PStr s))
  ∧ (features !! "avg_bid_value" = Some (PInt 0)
     ∨ ∃ d, features !! "avg_bid_value" = Some (PDec d) ∧ dec_coeff d ≠ 0%Z)
  ∧ (∀ c v, features !! c = Some v →
            v ≠ PNone
            ∧ (object_dtype [v] = true → fillna_unknown v = v)).
Proof.
  unfold _extract_features. intros H.
  destruct (if json_truthy (requirements bid) then _ else _) as [n|e];
    [|discriminate].
  cbn [mbind outcome_bind] in H. apply Return_inj in H. subst features.
  set (avg := py_or _ (PInt 0)).
  assert (avg = PInt 0 ∨ ∃ d, avg = PDec d ∧ dec_coeff d ≠ 0%Z) as Havg.
  { unfold avg, py_or.
    destruct (sql_avg _) as [d|]; cbn; [|left; reflexivity].
    destruct (Z.eqb_spec (dec_coeff d) 0); cbn; [left; reflexivity|].
    right. exists d. done. }
  assert (py_or (PStr (industry (customer bid))) (PStr "unknown")
          = PStr (if String.eqb (industry (customer bid)) ""
                  then "unknown" else industry (customer bid))) as Hind.
  { unfold py_or. cbn. destruct (String.eqb _ ""); reflexivity. }
  rewrite Hind. clearbody avg.
  split; [|split; [|split; [|split; [|split]]]].
  - rewrite dom_list_to_map_L. reflexivity.
  - intros c Hc.
    repeat (apply elem_of_cons in Hc as [->|Hc]; [eexists; reflexivity|]).
    inversion Hc.
  - intros c Hc.
    repeat (apply elem_of_cons in Hc as [->|Hc]; [eexists; reflexivity|]).
    inversion Hc.
  - intros c Hc.
    repeat (apply elem_of_cons in Hc as [->|Hc]; [eexists; reflexivity|]).
    inversion Hc.
  - destruct Havg as [->|(d & -> & Hd)]; [left; reflexivity|right].
    exists d. split; [reflexivity|exact Hd].
  - intros c v Hv. apply elem_of_list_to_map_2 in Hv.
    destruct Havg as [->|(d & -> & Hd)];
      repeat (apply elem_of_cons in Hv as [[= -> ->]|Hv];
              [first [ split; [discriminate|intros _; reflexivity]
                     | split; [discriminate|cbn; discriminate] ]|]);
      inversion Hv.
Qed.

(** X12: a bid without a due date is treated as due today.  Its
    [days_until_due] feature is 0, so its training row gets the weight of
    an urgent bid -- the risk label is at least 0.2 -- and
    [get_recommendations], on any prediction that carries its features,
    includes the accelerate-review recommendation. *)
Theorem no_due_date_is_urgent (tbl : list Bid) (now : Z) (bid : Bid)
    (feats : row) :
  _extract_features tbl now bid = Return feats →
  bid_due_date bid = None →
  feats !! "days_until_due" = Some (PInt 0)
  ∧ (∃ x, risk_of_row (add_labels bid feats) = Return x
          ∧ (0.2 <=? x)%float = true)
  ∧ (∀ p, features p = feats →
          ∃ recs, get_recommendations bid p = Return recs
                  ∧ accelerate_rec ∈ recs).
Proof.
  intros Hx Hdue.
  destruct (extract_features_risk_columns _ _ _ _ Hx) as (_ & Hrs & _ & Hd).
  assert (default 0%Z (days_until_due now bid) = 0%Z) as Hzero
    by (unfold days_until_due; rewrite Hdue; reflexivity).
  rewrite Hzero in Hd. split; [exact Hd|]. split.
  - eexists. split; [apply (training_row_risk_label _ _ _ _ Hx)|].
    rewrite Hzero. unfold risk_label_spec.
    destruct (1000000 <? _)%float, (_ <? 30)%float, (0.7 <? _)%float;
      vm_compute; reflexivity.
  - intros p Hp.
    assert (∃ c, py_lt (dict_get (features p) "customer_relationship_score"
                          (PInt 0)) (PInt 40) = Return c) as [c Hc]
      by (unfold dict_get; rewrite Hp, Hrs; eexists; reflexivity).
    assert (py_lt (dict_get (features p) "days_until_due" (PInt 0)) (PInt 14)
            = Return true) as Hacc
      by (unfold dict_get; rewrite Hp, Hd; reflexivity).
    unfold get_recommendations. rewrite Hc, Hacc.
    cbn [mbind outcome_bind]. eexists. split; [reflexivity|].
    rewrite elem_of_elements, elem_of_list_to_set, elem_of_app.
    right. apply list_elem_of_singleton. reflexivity.
Qed.

(** ** The training table *)

Lemma training_rows_rows (bids : list Bid) :
  ∀ (w w' : world) (df : frame),
  training_rows bids w = (Return df, w') →
  Forall2 (λ bid r, ∃ feats,
             _extract_features (table w) (today w) bid = Return feats
             ∧ r = add_labels bid feats) bids df.
Proof.
  induction bids as [|bid bids IH]; intros w w' df; cbn [training_rows].
  - intros [= <- <-]. constructor.
  - rewrite bind_run, extract_features_now_run.
    destruct (_extract_features (table w) (today w) bid) as [feats|] eqn:Ex;
      [|discriminate].
    cbv beta iota. rewrite bind_run.
    destruct (training_rows bids _) as [[data|] w1] eqn:Et; [|discriminate].
    intros [= <- <-]. constructor; [eauto|]. exact (IH _ _ _ Et).
Qed.

Lemma training_rows_raises (bids : list Bid) :
  ∀ (w w' : world) (e : exn),
  training_rows bids w = (Raise e, w') →
  ∃ bid, bid ∈ bids ∧ _extract_features (table w) (today w) bid = Raise e.
Proof.
  induction bids as [|bid bids IH]; intros w w' e; cbn [training_rows].
  - intros [=].
  - rewrite bind_run, extract_features_now_run.
    destruct (_extract_features (table w) (today w) bid) as [feats|e0] eqn:Ex.
    + cbv beta iota. rewrite bind_run.
      destruct (training_rows bids _) as [[data|e1] w1] eqn:Et; [discriminate|].
      intros [= <- <-]. destruct (IH _ _ _ Et) as (b & Hb & Hraise).
      exists b. split; [right; exact Hb|exact Hraise].
    + intros [= <- <-]. exists bid. split; [left|exact Ex].
Qed.

(** X13: the training table has one row per bid with a decision status
    (won, lost, approved, rejected), in query order: the features of the
    bid, its id under [bid_id], and the target 1 for won and approved, 0
    for lost and rejected.  Nothing is skipped: if the extraction raises
    on one such bid, [prepare_training_data] raises that exception.  The
    attributes of [self], the files and the bid table are left alone. *)
Theorem prepare_training_data_rows (w : world) :
  ∃ r w',
    prepare_training_data w = (r, w')
    ∧ same_models w w'
    ∧ files w' = files w
    ∧ table w' = table w
    ∧ (∀ df, r = Return df →
         Forall2 (λ bid r,
                    status bid ∈ ["won"; "lost"; "approved"; "rejected"]
                    ∧ (∃ feats,
                         _extract_features (table w) (today w) bid
                           = Return feats
                         ∧ ∀ c, c ∈ feature_columns → r !! c = feats !! c)
                    ∧ r !! "bid_id" = Some (PStr (id bid))
                    ∧ r !! "target"
                      = Some (PInt (if bool_decide
                                         (status bid ∈ ["won"; "approved"])
                                    then 1 else 0)))
                 (eligible (table w)) df)
    ∧ (∀ e, r = Raise e →
         ∃ bid, bid ∈ eligible (table w)
                ∧ _extract_features (table w) (today w) bid = Raise e).
Proof.
  destruct (prepare_training_data w) as [r w'] eqn:E. exists r, w'.
  split; [reflexivity|].
  assert (keeps_models prepare_training_data) as Hkeeps.
  { apply keeps_models_intro; apply preserves_prepare_training_data;
      reflexivity. }
  split; [exact (Hkeeps _ _ _ E)|].
  pose proof (emits_prepare_training_data _ _ _ E) as (Hf & _ & Ht & _).
  split; [exact Hf|]. split; [exact Ht|].
  unfold prepare_training_data in E. rewrite bind_run, gets_run in E.
  cbv beta iota in E. split.
  - intros df ->. apply training_rows_rows in E.
    assert (Forall (λ bid, status bid
                           ∈ ["won"; "lost"; "approved"; "rejected"])
              (eligible (table w))) as Hst.
    { apply Forall_forall. intros b Hb. unfold eligible in Hb.
      apply list_elem_of_filter in Hb as [Hb _]. exact Hb. }
    revert Hst. induction E as [|bid r bids df (feats & Hx & ->) _ IH];
      intros Hst; [constructor|].
    apply Forall_cons in Hst as [Hb Hst]. constructor; [|exact (IH Hst)].
    split; [exact Hb|]. split; [|split].
    + exists feats. split; [exact Hx|]. intros c Hc. unfold add_labels.
      assert (c ≠ "bid_id" ∧ c ≠ "target") as [H1 H2].
      { revert Hc. unfold feature_columns. rewrite !elem_of_cons, elem_of_nil.
        intros Hc. split; intros ->; repeat destruct Hc as [[=]|Hc]; done. }
      rewrite !lookup_insert_ne by done. reflexivity.
    + unfold add_labels. apply lookup_insert_eq.
    + unfold add_labels. rewrite lookup_insert_ne by done.
      rewrite lookup_insert_eq. reflexivity.
  - intros e ->. eapply training_rows_raises, E.
Qed.

(** ** Encoded columns *)

Lemma index_of_spec (v : pyval) (classes : list pyval) (k : Z) :
  LabelEncoder.index_of v classes = Some k →
  (0 ≤ k < Z.of_nat (length classes))%Z
  ∧ ∃ c, classes !! Z.to_nat k = Some c ∧ py_eqb v c = true.
Proof.
  revert k. induction classes as [|c classes IH]; intros k; cbn.
  - intros [=].
  - destruct (py_eqb v c) eqn:E.
    + intros [= <-]. split; [lia|]. exists c. done.
    + intros (k' & Hk' & ->)%fmap_Some.
      destruct (IH k' Hk') as (Hb & c' & Hc' & Heq). split; [lia|].
      exists c'. rewrite Z2Nat.inj_succ by lia. done.
Qed.

Lemma py_eqb_str (s : string) (c : pyval) :
  py_eqb (PStr s) c = true → c = PStr s.
Proof.
  destruct c as [|z|f|s'|d]; cbn; try discriminate.
  intros ->%String.eqb_eq. reflexivity.
Qed.

(** Two strings with the same code are the same string. *)
Lemma index_of_str_inj (s1 s2 : string) (classes : list pyval) (k : Z) :
  LabelEncoder.index_of (PStr s1) classes = Some k →
  LabelEncoder.index_of (PStr s2) classes = Some k →
  s1 = s2.
Proof.
  intros (_ & c1 & Hc1 & H1%py_eqb_str)%index_of_spec
         (_ & c2 & Hc2 & H2%py_eqb_str)%index_of_spec.
  congruence.
Qed.

Lemma encode_one (classes : list pyval) (v : pyval) (code : Z) :
  LabelEncoder.encode classes [v] = Return [code] →
  LabelEncoder.index_of v classes = Some code.
Proof.
  cbn. destruct (LabelEncoder.index_of v classes); [|discriminate].
  cbn. intros [= ->]. reflexivity.
Qed.

(** The loop of [_encode_features] never replaces an encoder that is
    there. *)
Lemma encode_columns_keeps (cols : list string) :
  ∀ (X : frame) (w : world) r (w' : world)
    (encs : gmap string LabelEncoder.t),
  label_encoders w = OEncoders encs →
  encode_columns cols X w = (r, w') →
  ∃ encs', label_encoders w' = OEncoders encs'
           ∧ ∀ c enc, encs !! c = Some enc → encs' !! c = Some enc.
Proof.
  induction cols as [|c cols IH]; intros X w r w' encs Hencs H.
  - cbn in H. injection H as <- <-. exists encs. done.
  - cbn [encode_columns] in H.
    rewrite bind_run, (encoders_dict_run _ _ Hencs), bind_run in H.
    destruct (encs !! c) as [enc|] eqn:E.
    + rewrite lift_run in H.
      destruct (LabelEncoder.transform enc _) as [codes|e].
      * exact (IH _ _ _ _ _ Hencs H).
      * injection H as <- <-. exists encs. done.
    + rewrite !bind_run, modify_run in H. cbv beta iota in H.
      rewrite bind_run, emit_run in H. cbv beta iota in H.
      rewrite bind_run, lift_run in H.
      destruct (LabelEncoder.fit_transform _) as [[enc codes]|e].
      * cbv beta iota in H. rewrite bind_run, modify_run in H.
        cbv beta iota in H. rewrite ret_run in H.
        apply (IH _ _ _ _ (<[c := enc]> encs)) in H
          as (encs' & Hw' & Hkeep); [|reflexivity].
        exists encs'. split; [exact Hw'|]. intros c' enc' Hc'.
        apply Hkeep. rewrite lookup_insert_ne by congruence. exact Hc'.
      * injection H as <- <-. eexists. split; [reflexivity|].
        intros c' enc' Hc'. rewrite lookup_insert_ne by congruence. exact Hc'.
Qed.

Lemma transform_codes (enc : LabelEncoder.t) (values : list pyval)
    (codes : list Z) :
  LabelEncoder.transform enc values = Return codes →
  ∃ classes,
    LabelEncoder.classes_ enc = Some classes
    ∧ ∀ i v, values !! i = Some v →
        ∃ k, codes !! i = Some k
             ∧ LabelEncoder.index_of v classes = Some k.
Proof.
  unfold LabelEncoder.transform.
  destruct (LabelEncoder.classes_ enc) as [classes|]; [|discriminate].
  intros H. exists classes. split; [reflexivity|]. intros i v Hv.
  destruct (encode_lookup _ _ _ _ _ H Hv) as (k & Hk & Hone).
  exists k. split; [exact Hk|]. apply encode_one, Hone.
Qed.

(** X14: what [_encode_features] returns.  The frame has the rows it had
    and its other columns are untouched.  Each object column holds int
    codes: the positions of its values in the classes of the encoder now
    stored for the column, so each code is at least 0 and below the
    number of classes, and two rows whose values are different strings
    never get the same code.  The encoders of other columns are as
    before. *)
Theorem encode_features_codes (cols : list string) (X X' : frame)
    (w w' : world) (encs : gmap string LabelEncoder.t) :
  NoDup cols →
  label_encoders w = OEncoders encs →
  _encode_features cols X w = (Return X', w') →
  length X' = length X
  ∧ ∃ encs',
      label_encoders w' = OEncoders encs'
      ∧ (∀ c, c ∉ object_columns cols X →
              column X' c = column X c ∧ encs' !! c = encs !! c)
      ∧ ∀ c, c ∈ object_columns cols X →
          ∃ enc classes,
            encs' !! c = Some enc
            ∧ LabelEncoder.classes_ enc = Some classes
            ∧ (∀ i r, X !! i = Some r →
                 ∃ k, column X' c !! i = Some (PInt k)
                      ∧ (0 ≤ k < Z.of_nat (length classes))%Z)
            ∧ (∀ i j r1 r2 s1 s2 k,
                 X !! i = Some r1 → X !! j = Some r2 →
                 r1 !! c = Some (PStr s1) → r2 !! c = Some (PStr s2) →
                 column X' c !! i = Some (PInt k) →
                 column X' c !! j = Some (PInt k) →
                 s1 = s2).
Proof.
  intros Hnd Hw Hrun. unfold _encode_features in Hrun.
  destruct (encode_columns_spec _ _ _ _ _ _
              (object_columns_NoDup _ X Hnd) Hw Hrun)
    as (encs' & Hw' & Hlen & Hout & Hin).
  split; [exact Hlen|]. exists encs'. split; [exact Hw'|]. split.
  { intros c Hc. destruct (Hout c Hc). done. }
  intros c Hc. destruct (Hin c Hc) as (enc & codes & He & Ht & Hcol).
  destruct (transform_codes _ _ _ Ht) as (classes & Hcl & Hcodes).
  exists enc, classes. split; [exact He|]. split; [exact Hcl|].
  assert (∀ i r, X !! i = Some r →
    ∃ k, column X' c !! i = Some (PInt k)
         ∧ LabelEncoder.index_of (fillna_unknown (dict_get r c PNone)) classes
           = Some k) as Hrow.
  { intros i r Hi. destruct (Hcodes i (fillna_unknown (dict_get r c PNone)))
      as (k & Hk & Hidx).
    - rewrite list_lookup_fmap, (column_lookup _ _ _ _ Hi). reflexivity.
    - exists k. rewrite Hcol, list_lookup_fmap, Hk. done. }
  split.
  - intros i r Hi. destruct (Hrow i r Hi) as (k & Hk & Hidx).
    exists k. split; [exact Hk|]. apply (index_of_spec _ _ _ Hidx).
  - intros i j r1 r2 s1 s2 k Hi Hj H1 H2 Hki Hkj.
    destruct (Hrow i r1 Hi) as (k1 & Hk1 & Hidx1).
    destruct (Hrow j r2 Hj) as (k2 & Hk2 & Hidx2).
    unfold dict_get in Hidx1, Hidx2. rewrite H1 in Hidx1. rewrite H2 in Hidx2.
    cbn in Hidx1, Hidx2.
    assert (k1 = k) as -> by congruence. assert (k2 = k) as -> by congruence.
    eapply index_of_str_inj; eassumption.
Qed.

(** X15: [_encode_features] fits an encoder only for a column that has
    none.  An encoder already stored for a column is the one stored
    afterwards, whether the call returns or raises, and a value of that
    column which is not among its classes is not learned: the call
    raises.  No file and no bid is touched. *)
Theorem encode_features_reuses_encoders (cols : list string) (X : frame)
    (w : world) (encs : gmap string LabelEncoder.t) :
  NoDup cols →
  label_encoders w = OEncoders encs →
  ∃ r w' encs',
    _encode_features cols X w = (r, w')
    ∧ label_encoders w' = OEncoders encs'
    ∧ (∀ c enc, encs !! c = Some enc → encs' !! c = Some enc)
    ∧ files w' = files w
    ∧ table w' = table w
    ∧ (∀ c enc classes i r0,
         c ∈ object_columns cols X →
         encs !! c = Some enc →
         LabelEncoder.classes_ enc = Some classes →
         X !! i = Some r0 →
         LabelEncoder.index_of (fillna_unknown (dict_get r0 c PNone)) classes
           = None →
         ∃ e, r = Raise e).
Proof.
  intros Hnd Hw. unfold _encode_features.
  destruct (encode_columns (object_columns cols X) X w) as [r w'] eqn:E.
  destruct (encode_columns_keeps _ _ _ _ _ _ Hw E) as (encs' & Hw' & Hkeep).
  pose proof (emits_encode_columns _ _ _ _ _ E) as (Hf & _ & Ht & _).
  exists r, w', encs'. repeat split; try done.
  intros c enc classes i r0 Hc He Hcl Hi Hidx.
  destruct r as [X'|e]; [exfalso|eauto].
  destruct (encode_columns_spec _ _ _ _ _ _
              (object_columns_NoDup _ X Hnd) Hw E)
    as (encs2 & Hw2 & _ & _ & Hin).
  assert (encs2 = encs') as -> by congruence.
  destruct (Hin c Hc) as (enc' & codes & He' & Htr & _).
  rewrite (Hkeep _ _ He) in He'. injection He' as <-.
  destruct (transform_codes _ _ _ Htr) as (classes' & Hcl' & Hcodes).
  assert (classes' = classes) as -> by congruence.
  destruct (Hcodes i (fillna_unknown (dict_get r0 c PNone)))
    as (k & _ & Hk); [|congruence].
  rewrite list_lookup_fmap, (column_lookup _ _ _ _ Hi). reflexivity.
Qed.

(** ** The status of the models *)

Section status_properties.
Context (regressor_bool : option regressor → outcome bool).
Context (mtime : string → Z) (isoformat : Z → string).

Lemma emits_status_model (model_name model_file : string) :
  emits not_a_write (status_model regressor_bool model_name model_file).
Proof.
  unfold status_model, named_and_truthy. pose proof emits_joblib_load.
  emits_known.
Qed.

Lemma keeps_status_model (model_name model_file : string) :
  keeps_models (status_model regressor_bool model_name model_file).
Proof.
  unfold status_model, named_and_truthy.
  apply keeps_models_intro.
  - pose proof (preserves_joblib_load win_predictor (λ _ _, eq_refl)).
    preserves_steps.
  - pose proof (preserves_joblib_load risk_predictor (λ _ _, eq_refl)).
    preserves_steps.
  - pose proof (preserves_joblib_load scaler (λ _ _, eq_refl)).
    preserves_steps.
  - pose proof (preserves_joblib_load label_encoders (λ _ _, eq_refl)).
    preserves_steps.
Qed.

(** With no regressor in memory the model is the object in the file. *)
Lemma status_model_from_file (model_name model_file : string) (w : world) :
  win_predictor w = ONone → risk_predictor w = ONone →
  status_model regressor_bool model_name model_file w
  = joblib_load model_file w.
Proof.
  intros Hw Hr. unfold status_model, named_and_truthy.
  rewrite bind_run, gets_run. cbv beta iota. rewrite Hw, bind_run.
  assert (∀ lit, (if String.eqb model_name lit
                  then lift (obj_truthy regressor_bool ONone)
                  else mret false) w = (Return false, w)) as Hfalse
    by (intros lit; destruct (String.eqb model_name lit); reflexivity).
  rewrite Hfalse. cbv beta iota.
  rewrite bind_run, gets_run. cbv beta iota. rewrite Hr, bind_run, Hfalse.
  reflexivity.
Qed.

Lemma get_model_status_cases (model_name : string) (w : world) :
  ∃ st w',
    get_model_status regressor_bool mtime isoformat model_name w
    = (Return st, w')
    ∧ same_models w w'
    ∧ after not_a_write w w'
    ∧ ((st = error_status model_name
        ∧ (files w !! (model_name +:+ ".pkl") = None
           ∨ ∃ e w1, status_model regressor_bool model_name
                       (model_name +:+ ".pkl") w = (Raise e, w1)))
       ∨ (st = trained_status mtime isoformat model_name
          ∧ is_Some (files w !! (model_name +:+ ".pkl"))
          ∧ ∃ o, status_model regressor_bool model_name
                   (model_name +:+ ".pkl") w = (Return o, w'))).
Proof.
  unfold get_model_status, try_except.
  rewrite bind_run, gets_run. cbv beta iota.
  destruct (files w !! (model_name +:+ ".pkl")) as [b|] eqn:Ef.
  - rewrite bool_decide_eq_true_2 by eauto. cbn [negb]. rewrite bind_run.
    destruct (status_model _ _ _ w) as [[o|e] w1] eqn:Es.
    + rewrite ret_run. eexists _, w1. split; [reflexivity|].
      split; [eapply keeps_status_model, Es|].
      split; [eapply emits_status_model, Es|].
      right. split; [reflexivity|]. split; [eauto|eauto].
    + unfold log. rewrite bind_run, emit_run. cbv beta iota. rewrite ret_run.
      eexists _, _. split; [reflexivity|].
      pose proof (keeps_status_model _ _ _ _ _ Es) as Hk.
      pose proof (emits_status_model _ _ _ _ _ Es) as Ha.
      split; [exact Hk|]. split.
      * eapply after_trans; [exact Ha|].
        eapply (emits_emit not_a_write (Log ERROR "Error loading model") I).
        reflexivity.
      * left. split; [reflexivity|]. right. eauto.
  - rewrite bool_decide_eq_false_2 by (intros [? [=]]). cbn [negb].
    rewrite ret_run. eexists _, w. split; [reflexivity|].
    split; [apply same_models_refl|]. split; [apply after_refl|].
    left. split; [reflexivity|]. left. reflexivity.
Qed.

(** The status of a model for a predictor with no regressor in memory. *)
Lemma get_model_status_fresh (model_name : string) (w : world) :
  win_predictor w = ONone → risk_predictor w = ONone →
  ∃ st w',
    get_model_status regressor_bool mtime isoformat model_name w
    = (Return st, w')
    ∧ same_models w w'
    ∧ after not_a_write w w'
    ∧ ms_name st = model_name
    ∧ (ms_status st = "trained"
       ↔ ∃ o, files w !! (model_name +:+ ".pkl") = Some (Pickle o)).
Proof.
  intros Hw Hr.
  destruct (get_model_status_cases model_name w)
    as (st & w' & Hrun & Hk & Ha & Hcase).
  exists st, w'. split; [exact Hrun|]. split; [exact Hk|].
  split; [exact Ha|].
  rewrite (status_model_from_file _ _ _ Hw Hr) in Hcase.
  destruct Hcase as [[-> Hwhy]|(-> & _ & o & Ho)].
  - split; [reflexivity|]. split; [discriminate|]. intros [o Ho]. exfalso.
    destruct Hwhy as [Hnone|(e & w1 & He)]; [congruence|].
    rewrite (joblib_load_run _ _ _ Ho) in He. discriminate.
  - split; [reflexivity|]. split; [|reflexivity]. intros _.
    destruct (files w !! (model_name +:+ ".pkl")) as [[o'| |]|] eqn:Ef;
      [eauto|exfalso..];
      rewrite joblib_load_fails in Ho by (rewrite Ef; done);
      discriminate.
Qed.

(** X16: [get_model_status] never raises and changes neither the attributes
    of [self] -- a model it loads is not kept -- nor a file.  Its answer
    is the error record or the trained record with the modification time
    of the file; it is the error record whenever the file
    [<name>.pkl] is missing, whatever is in memory; and for a predictor
    with no regressor in memory the status is trained exactly when the
    file unpickles, to whatever object. *)
Theorem get_model_status_answers (model_name : string) (w : world) :
  ∃ st w',
    get_model_status regressor_bool mtime isoformat model_name w
    = (Return st, w')
    ∧ same_models w w'
    ∧ after not_a_write w w'
    ∧ (st = error_status model_name
       ∨ st = trained_status mtime isoformat model_name)
    ∧ (files w !! (model_name +:+ ".pkl") = None →
       st = error_status model_name)
    ∧ (win_predictor w = ONone → risk_predictor w = ONone →
       (ms_status st = "trained"
        ↔ ∃ o, files w !! (model_name +:+ ".pkl") = Some (Pickle o))).
Proof.
  destruct (get_model_status_cases model_name w)
    as (st & w' & Hrun & Hk & Ha & Hcase).
  exists st, w'. split; [exact Hrun|]. split; [exact Hk|].
  split; [exact Ha|]. split; [|split].
  - destruct Hcase as [[-> _]|[-> _]]; auto.
  - intros Hnone. destruct Hcase as [[-> _]|(_ & [b Hb] & _)]; [done|].
    congruence.
  - intros Hw Hr.
    destruct (get_model_status_fresh model_name w Hw Hr)
      as (st2 & w2 & Hrun2 & _ & _ & _ & Hiff).
    rewrite Hrun in Hrun2. injection Hrun2 as <- <-. exact Hiff.
Qed.

Lemma get_last_training_time_run (w : world) :
  ∃ last,
    get_last_training_time mtime isoformat w = (Return last, w)
    ∧ (last = None ↔ files w !! "win_predictor.pkl" = None
                     ∧ files w !! "risk_predictor.pkl" = None).
Proof.
  unfold get_last_training_time, try_except.
  rewrite bind_run, gets_run. cbv beta iota. rewrite ret_run.
  eexists. split; [reflexivity|]. cbn [foldl]. unfold later_of.
  destruct (files w !! "win_predictor.pkl") as [b1|] eqn:E1;
    destruct (files w !! "risk_predictor.pkl") as [b2|] eqn:E2;
    rewrite ?bool_decide_eq_true_2 by eauto;
    rewrite ?bool_decide_eq_false_2 by (intros [? [=]]).
  - split; [|intros [[=] _]].
    destruct (mtime "win_predictor.pkl" <? mtime "risk_predictor.pkl")%Z;
      discriminate.
  - split; [discriminate|intros [[=] _]].
  - split; [discriminate|intros [_ [=]]].
  - done.
Qed.

(** X17: [get_last_training_time] never raises and changes nothing.  Its
    answer is the latest modification time among those of the two
    regressor files that exist, and [None] exactly when neither exists;
    the scaler and encoder files do not count. *)
Theorem get_last_training_time_latest (w : world) :
  ∃ t,
    get_last_training_time mtime isoformat w = (Return (isoformat <$> t), w)
    ∧ (t = None ↔ files w !! "win_predictor.pkl" = None
                  ∧ files w !! "risk_predictor.pkl" = None)
    ∧ (∀ f, f ∈ ["win_predictor.pkl"; "risk_predictor.pkl"] →
            is_Some (files w !! f) →
            ∃ z, t = Some z ∧ (mtime f ≤ z)%Z)
    ∧ (∀ z, t = Some z →
            ∃ f, f ∈ ["win_predictor.pkl"; "risk_predictor.pkl"]
                 ∧ is_Some (files w !! f) ∧ z = mtime f).
Proof.
  unfold get_last_training_time, try_except.
  rewrite bind_run, gets_run. cbv beta iota. rewrite ret_run.
  eexists. split; [reflexivity|]. cbn [foldl]. unfold later_of.
  destruct (files w !! "win_predictor.pkl") as [b1|] eqn:E1;
    destruct (files w !! "risk_predictor.pkl") as [b2|] eqn:E2;
    rewrite ?bool_decide_eq_true_2 by eauto;
    rewrite ?bool_decide_eq_false_2 by (intros [? [=]]).
  - assert (∃ z, (if (mtime "win_predictor.pkl"
                      <? mtime "risk_predictor.pkl")%Z
                  then Some (mtime "risk_predictor.pkl")
                  else Some (mtime "win_predictor.pkl")) = Some z
                 ∧ (mtime "win_predictor.pkl" ≤ z)%Z
                 ∧ (mtime "risk_predictor.pkl" ≤ z)%Z
                 ∧ (z = mtime "win_predictor.pkl"
                    ∨ z = mtime "risk_predictor.pkl"))
      as (z & -> & Hz1 & Hz2 & Hz).
    { destruct (Z.ltb_spec (mtime "win_predictor.pkl")
                  (mtime "risk_predictor.pkl"));
        eexists; (split; [reflexivity|]); lia. }
    split; [split; [discriminate|intros [[=] _]]|]. split.
    + intros f Hf _. exists z. split; [reflexivity|].
      apply elem_of_cons in Hf as [->|Hf]; [exact Hz1|].
      apply list_elem_of_singleton in Hf as ->. exact Hz2.
    + intros z' [= <-]. destruct Hz as [->| ->].
      * exists "win_predictor.pkl". rewrite E1. split; [left|eauto].
      * exists "risk_predictor.pkl". rewrite E2. split; [right; left|eauto].
  - split; [split; [discriminate|intros [[=] _]]|]. split.
    + intros f Hf Hs. apply elem_of_cons in Hf as [->|Hf].
      * eexists. split; [reflexivity|lia].
      * apply list_elem_of_singleton in Hf as ->. rewrite E2 in Hs.
        destruct Hs as [? [=]].
    + intros z [= <-]. exists "win_predictor.pkl". rewrite E1.
      split; [left|eauto].
  - split; [split; [discriminate|intros [_ [=]]]|]. split.
    + intros f Hf Hs. apply elem_of_cons in Hf as [->|Hf].
      * rewrite E1 in Hs. destruct Hs as [? [=]].
      * apply list_elem_of_singleton in Hf as ->.
        eexists. split; [reflexivity|lia].
    + intros z [= <-]. exists "risk_predictor.pkl". rewrite E2.
      split; [right; left|eauto].
  - split; [done|]. split.
    + intros f Hf Hs. exfalso. apply elem_of_cons in Hf as [->|Hf].
      * rewrite E1 in Hs. destruct Hs as [? [=]].
      * apply list_elem_of_singleton in Hf as ->. rewrite E2 in Hs.
        destruct Hs as [? [=]].
    + intros z [=].
Qed.

End status_properties.

(** ** The callers *)

Section callers.
Context (timezone_now : string).
Context (regressor_bool : option regressor → outcome bool).
Context (mtime : string → Z) (isoformat : Z → string).

(** X18: the status endpoint, [MLTrainingView.get], always answers 200 with
    the status of the win predictor, that of the risk predictor and the
    last training time, and changes no file.  It asks a new predictor, so
    nothing in memory counts: a model is reported as trained exactly when
    its file unpickles -- to whatever object, a fitted model or not --
    and the last training time is missing exactly when both regressor
    files are. *)
Theorem MLTrainingView_get_answers (w : world) :
  ∃ win risk last w',
    MLTrainingView_get regressor_bool mtime isoformat w
    = (Return (Response200 {| models_status := [win; risk];
                              last_training := last |}), w')
    ∧ files w' = files w
    ∧ table w' = table w
    ∧ ms_name win = "win_predictor"
    ∧ ms_name risk = "risk_predictor"
    ∧ (ms_status win = "trained"
       ↔ ∃ o, files w !! "win_predictor.pkl" = Some (Pickle o))
    ∧ (ms_status risk = "trained"
       ↔ ∃ o, files w !! "risk_predictor.pkl" = Some (Pickle o))
    ∧ (last = None ↔ files w !! "win_predictor.pkl" = None
                     ∧ files w !! "risk_predictor.pkl" = None).
Proof.
  unfold MLTrainingView_get. unfold try_except at 1.
  rewrite bind_run, modify_run. cbv beta iota. rewrite bind_run.
  unfold try_except at 1.
  destruct (get_model_status_fresh regressor_bool mtime isoformat
              "win_predictor" (init w) eq_refl eq_refl)
    as (win & w1 & -> & (Hw1 & Hr1 & _) & (Hf1 & _ & Ht1 & _) & Hn1 & Hiff1).
  cbv beta iota. rewrite bind_run. unfold try_except at 1.
  destruct (get_model_status_fresh regressor_bool mtime isoformat
              "risk_predictor" w1)
    as (risk & w2 & -> & _ & (Hf2 & _ & Ht2 & _) & Hn2 & Hiff2);
    [rewrite Hw1; reflexivity|rewrite Hr1; reflexivity|].
  cbv beta iota. rewrite bind_run.
  destruct (get_last_training_time_run mtime isoformat w2)
    as (last & -> & Hlast).
  cbv beta iota. rewrite ret_run.
  exists win, risk, last, w2. split; [reflexivity|].
  change (files (init w)) with (files w) in *.
  change (table (init w)) with (table w) in *.
  rewrite Hf1 in Hf2. rewrite Hf2 in Hlast. rewrite Hf1 in Hiff2.
  repeat split; try tauto; congruence.
Qed.

Context `{!LibrariesLaws L}.

(** [train_models(retrain=True)] on a new predictor. *)
Lemma train_fresh_run (w : world) :
  ∃ r w1 evs,
    train_models true (init w) = (r, w1)
    ∧ files w1 = files w
    ∧ table w1 = table w
    ∧ trace w1 = trace w ++ evs
    ∧ Forall not_a_write evs
    ∧ (r = Return tt →
       length (eligible (table w)) < 10
       ∧ win_predictor w1 = ONone ∧ risk_predictor w1 = ONone
       ∧ Forall not_a_fit evs)
    ∧ (10 ≤ length (eligible (table w)) → ∃ e, r = Raise e).
Proof.
  destruct (train_models_training_run true (init w) (or_introl eq_refl))
    as (r & w1 & evs & Hrun & Hf & Ht & Htr & Hevs & _ & Hret & Hraise).
  exists r, w1, evs. split; [exact Hrun|]. split; [exact Hf|].
  split; [exact Ht|]. split; [exact Htr|]. split; [exact Hevs|].
  split; [|exact Hraise].
  intros Hr. destruct (Hret Hr) as (Hn & (Hw & Hrp & _) & Hfit).
  split; [exact Hn|]. split; [exact Hw|]. split; [exact Hrp|exact Hfit].
Qed.

(** X19: the training endpoint, [MLTrainingView.post], always answers and
    never changes a file.  With ten or more bids with a decision it
    answers 500, "Failed to train models".  When it answers 200, "ML
    models trained successfully", there were fewer than ten such bids and
    nothing was trained: the predictor it built holds no model. *)
Theorem MLTrainingView_post_answers (w : world) :
  ∃ resp w',
    MLTrainingView_post timezone_now w = (Return resp, w')
    ∧ files w' = files w
    ∧ table w' = table w
    ∧ (10 ≤ length (eligible (table w)) →
       resp = Response500 "Failed to train models")
    ∧ (∀ body, resp = Response200 body →
         length (eligible (table w)) < 10
         ∧ message body = "ML models trained successfully"
         ∧ win_predictor w' = ONone
         ∧ risk_predictor w' = ONone).
Proof.
  unfold MLTrainingView_post, try_except.
  rewrite bind_run, modify_run. cbv beta iota. rewrite bind_run.
  destruct (train_fresh_run w)
    as (r & w1 & evs & -> & Hf & Ht & _ & _ & Hret & Hraise).
  destruct r as [[]|e].
  - cbv beta iota. rewrite ret_run. eexists _, w1. split; [reflexivity|].
    destruct (Hret eq_refl) as (Hn & Hw & Hr & _).
    split; [exact Hf|]. split; [exact Ht|]. split; [intros Hge; lia|].
    intros body [= <-]. repeat split; assumption.
  - unfold log. rewrite bind_run, emit_run. cbv beta iota. rewrite ret_run.
    eexists _, _. split; [reflexivity|]. wsimpl.
    split; [exact Hf|]. split; [exact Ht|]. split; [reflexivity|].
    intros body [=].
Qed.

(** X20: the scheduled task [train_ml_models] never changes a file.  With
    ten or more bids with a decision it raises.  When it returns --
    "Models trained successfully" -- there were fewer than ten such bids
    and nothing was trained: the predictor it built holds no model. *)
Theorem train_ml_models_result (w : world) :
  ∃ r w',
    train_ml_models w = (r, w')
    ∧ files w' = files w
    ∧ table w' = table w
    ∧ (10 ≤ length (eligible (table w)) → ∃ e, r = Raise e)
    ∧ (∀ s, r = Return s →
         s = "Models trained successfully"
         ∧ length (eligible (table w)) < 10
         ∧ win_predictor w' = ONone
         ∧ risk_predictor w' = ONone).
Proof.
  unfold train_ml_models, try_except.
  rewrite bind_run, modify_run. cbv beta iota. rewrite bind_run.
  destruct (train_fresh_run w)
    as (r & w1 & evs & -> & Hf & Ht & _ & _ & Hret & Hraise).
  destruct r as [[]|e].
  - cbv beta iota. unfold log. rewrite bind_run, emit_run. cbv beta iota.
    rewrite ret_run. eexists _, _. split; [reflexivity|]. wsimpl.
    destruct (Hret eq_refl) as (Hn & Hw & Hr & _).
    split; [exact Hf|]. split; [exact Ht|]. split; [intros Hge; lia|].
    intros s [= <-]. repeat split; assumption.
  - unfold log. rewrite bind_run, emit_run. cbv beta iota. rewrite raise_run.
    eexists _, _. split; [reflexivity|]. wsimpl.
    split; [exact Hf|]. split; [exact Ht|]. split; [eauto|].
    intros s [=].
Qed.

(** X21: the management command [init_ml_models] never raises and never
    changes a file; it writes its two progress lines and then either the
    success line or an error line.  With [--retrain], or with a model
    file missing, ten or more bids with a decision give the error line,
    and the success line means that there were fewer than ten and that
    nothing was trained.  Without [--retrain] and with the four files in
    place and loadable, it writes the success line after loading them. *)
Theorem Command_handle_output (retrain : bool) (w : world) :
  ∃ last w',
    Command_handle retrain w
    = (Return [Plain "Initializing ML models...";
               Plain "Training bid predictor..."; last], w')
    ∧ files w' = files w
    ∧ table w' = table w
    ∧ (last = StyleSuccess "Successfully initialized ML models"
       ∨ ∃ e, last = StyleError e)
    ∧ (training_path retrain w →
       (10 ≤ length (eligible (table w)) → ∃ e, last = StyleError e)
       ∧ (last = StyleSuccess "Successfully initialized ML models" →
          length (eligible (table w)) < 10
          ∧ win_predictor w' = ONone ∧ risk_predictor w' = ONone))
    ∧ (retrain = false → artifacts_loadable w →
       last = StyleSuccess "Successfully initialized ML models"
       ∧ files w !! "win_predictor.pkl" = Some (Pickle (win_predictor w'))
       ∧ files w !! "risk_predictor.pkl"
         = Some (Pickle (risk_predictor w'))).
Proof.
  unfold Command_handle, try_except.
  rewrite bind_run, modify_run. cbv beta iota. rewrite bind_run.
  assert (∃ r w1,
    train_models retrain (init w) = (r, w1)
    ∧ files w1 = files w ∧ table w1 = table w
    ∧ (training_path retrain w →
       (r = Return tt →
        length (eligible (table w)) < 10
        ∧ win_predictor w1 = ONone ∧ risk_predictor w1 = ONone)
       ∧ (10 ≤ length (eligible (table w)) → ∃ e, r = Raise e))
    ∧ (retrain = false → artifacts_loadable w →
       r = Return tt
       ∧ files w !! "win_predictor.pkl" = Some (Pickle (win_predictor w1))
       ∧ files w !! "risk_predictor.pkl"
         = Some (Pickle (risk_predictor w1))))
    as (r & w1 & -> & Hf & Ht & Hpath & Hload).
  { destruct (training_path_or_short_circuit retrain (init w))
      as [Hp|[-> Hall]].
    - destruct (train_models_training_run retrain (init w) Hp)
        as (r & w1 & evs & Hrun & Hf & Ht & _ & _ & _ & Hret & Hraise).
      exists r, w1. split; [exact Hrun|]. split; [exact Hf|].
      split; [exact Ht|]. split.
      + intros _. split; [|exact Hraise]. intros Hr.
        destruct (Hret Hr) as (Hn & (Hw & Hrp & _) & _).
        repeat split; assumption.
      + intros -> Hl. exfalso. destruct Hp as [[=]|(f & Hf' & Hnone)].
        destruct (Hl f Hf') as [o Ho].
        change (files (init w)) with (files w) in Hnone. congruence.
    - destruct (train_models_short_circuit_run (init w) Hall)
        as (r & w1 & evs & Hrun & Hf & Ht & _).
      exists r, w1. split; [exact Hrun|]. split; [exact Hf|].
      split; [exact Ht|]. split.
      + intros [[=]|(f & Hf' & Hnone)]. exfalso.
        rewrite forallb_forall in Hall.
        specialize (Hall f (proj1 (list_elem_of_In _ _) Hf')).
        apply bool_decide_eq_true_1 in Hall as [o Ho].
        change (files (init w)) with (files w) in Ho. congruence.
      + intros _ Hl.
        destruct (Hl "win_predictor.pkl") as [wo Hwo]; [in_model_files|].
        destruct (Hl "risk_predictor.pkl") as [ro Hro]; [in_model_files|].
        destruct (Hl "scaler.pkl") as [so Hso]; [in_model_files|].
        destruct (Hl "label_encoders.pkl") as [eo Heo]; [in_model_files|].
        destruct (load_models_run (init w) wo ro so eo Hwo Hro Hso Heo)
          as (w2 & Hrun2 & Hw2 & Hr2 & _).
        unfold train_models in Hrun. rewrite bind_run in Hrun.
        cbn [negb] in Hrun. rewrite models_exist_run, Hall in Hrun.
        cbv beta iota in Hrun. rewrite Hrun2 in Hrun.
        injection Hrun as <- <-. rewrite Hw2, Hr2. done. }
  destruct r as [[]|e].
  - cbv beta iota. rewrite ret_run. eexists _, w1. split; [reflexivity|].
    split; [exact Hf|]. split; [exact Ht|]. split; [left; reflexivity|].
    split.
    + intros Hp. destruct (Hpath Hp) as [Hret Hraise]. split.
      * intros Hge. destruct (Hraise Hge) as [e [=]].
      * intros _. apply Hret. reflexivity.
    + intros Hr Hl. destruct (Hload Hr Hl) as (_ & H1 & H2). done.
  - unfold log. rewrite bind_run, emit_run. cbv beta iota. rewrite ret_run.
    eexists _, _. split; [reflexivity|]. wsimpl.
    split; [exact Hf|]. split; [exact Ht|]. split; [right; eauto|].
    split.
    + intros Hp. split; [eauto|discriminate].
    + intros Hr Hl. destruct (Hload Hr Hl) as ([=] & _).
Qed.

End callers.

(** ** The order of binary64 values *)

Lemma Zcompare_cases (x y : Z) :
  ((x ?= y)%Z = Lt ∧ (x < y)%Z) ∨ ((x ?= y)%Z = Eq ∧ x = y)
  ∨ ((x ?= y)%Z = Gt ∧ (y < x)%Z).
Proof. destruct (Z.compare_spec x y); auto. Qed.

Lemma Poscompare_cases (x y : positive) :
  (Pos.compare_cont Eq x y = Lt ∧ (x < y)%positive)
  ∨ (Pos.compare_cont Eq x y = Eq ∧ x = y)
  ∨ (Pos.compare_cont Eq x y = Gt ∧ (y < x)%positive).
Proof.
  change (Pos.compare_cont Eq x y) with (Pos.compare x y).
  destruct (Pos.compare_spec x y); auto.
Qed.

Ltac compare_cases :=
  repeat match goal with
  | H : context [(?x ?= ?y)%Z] |- _ =>
      let E := fresh in
      destruct (Zcompare_cases x y) as [[E ?]|[[E ?]|[E ?]]];
      rewrite E in *; clear E
  | |- context [(?x ?= ?y)%Z] =>
      let E := fresh in
      destruct (Zcompare_cases x y) as [[E ?]|[[E ?]|[E ?]]];
      rewrite E in *; clear E
  | H : context [Pos.compare_cont Eq ?x ?y] |- _ =>
      let E := fresh in
      destruct (Poscompare_cases x y) as [[E ?]|[[E ?]|[E ?]]];
      rewrite E in *; clear E
  | |- context [Pos.compare_cont Eq ?x ?y] =>
      let E := fresh in
      destruct (Poscompare_cases x y) as [[E ?]|[[E ?]|[E ?]]];
      rewrite E in *; clear E
  end;
  cbn in *; try discriminate; try reflexivity; try lia.

Lemma SFltb_asym (a b : spec_float) : SFltb a b = true → SFltb b a = false.
Proof.
  unfold SFltb.
  destruct a as [[]|[]| |[] m1 e1], b as [[]|[]| |[] m2 e2]; cbn;
    try discriminate; try reflexivity; intros H; compare_cases.
Qed.

Lemma SFltb_trans (a b c : spec_float) :
  SFltb a b = true → SFltb b c = true → SFltb a c = true.
Proof.
  unfold SFltb.
  destruct a as [[]|[]| |[] m1 e1], b as [[]|[]| |[] m2 e2],
    c as [[]|[]| |[] m3 e3]; cbn;
    try discriminate; try reflexivity; intros H1 H2; compare_cases.
Qed.

Lemma SFleb_total (a b : spec_float) :
  SFltb a b = false → SFeqb a a = true → SFeqb b b = true →
  SFleb b a = true.
Proof.
  unfold SFltb, SFleb, SFeqb.
  destruct a as [[]|[]| |[] m1 e1], b as [[]|[]| |[] m2 e2]; cbn;
    try discriminate; try reflexivity; intros H1 H2 H3; compare_cases.
Qed.

Lemma float_ltb_asym (x y : float) : (x <? y)%float = true → (y <? x)%float = false.
Proof. rewrite !ltb_spec. apply SFltb_asym. Qed.

Lemma float_ltb_trans (x y z : float) :
  (x <? y)%float = true → (y <? z)%float = true → (x <? z)%float = true.
Proof. rewrite !ltb_spec. apply SFltb_trans. Qed.

Lemma float_leb_total (x y : float) :
  is_nan x = false → is_nan y = false →
  (x <? y)%float = false → (y <=? x)%float = true.
Proof.
  unfold is_nan. intros Hx%negb_false_iff Hy%negb_false_iff.
  rewrite FloatAxioms.eqb_spec in Hx, Hy. rewrite ltb_spec, leb_spec.
  intros Hlt. apply SFleb_total; assumption.
Qed.

(** ** The feature-importance file *)

Lemma insert_desc_perm (x : string * float) (items : list (string * float)) :
  insert_desc x items ≡ₚ x :: items.
Proof.
  induction items as [|h items IH]; cbn; [reflexivity|].
  destruct (h.2 <? x.2)%float; [reflexivity|].
  rewrite IH. apply Permutation_swap.
Qed.

Lemma insert_desc_no_ascent (x : string * float)
    (items : list (string * float)) :
  no_ascent items → no_ascent (insert_desc x items).
Proof.
  induction items as [|h items IH]; cbn [insert_desc no_ascent].
  - intros _. split; [constructor|exact I].
  - intros [Hh Hitems]. destruct (h.2 <? x.2)%float eqn:E.
    + cbn [no_ascent]. split; [|split; assumption].
      constructor; [apply float_ltb_asym, E|].
      eapply Forall_impl; [exact Hh|]. intros b Hb. cbv beta in *.
      destruct (x.2 <? b.2)%float eqn:Exb; [|reflexivity].
      rewrite (float_ltb_trans _ _ _ E Exb) in Hb. discriminate.
    + cbn [no_ascent]. split; [|exact (IH Hitems)].
      rewrite insert_desc_perm. constructor; assumption.
Qed.

Lemma sort_desc_spec (items : list (string * float)) :
  sort_desc items ≡ₚ items ∧ no_ascent (sort_desc items).
Proof.
  unfold sort_desc.
  assert (∀ acc, no_ascent acc →
    foldl (λ acc x, insert_desc x acc) acc items ≡ₚ acc ++ items
    ∧ no_ascent (foldl (λ acc x, insert_desc x acc) acc items)) as H.
  { induction items as [|x items IH]; intros acc Hacc; cbn [foldl].
    - rewrite app_nil_r. done.
    - destruct (IH (insert_desc x acc) (insert_desc_no_ascent x acc Hacc))
        as [Hp Hs].
      split; [|exact Hs]. rewrite Hp, insert_desc_perm.
      apply Permutation_middle. }
  apply (H [] I).
Qed.

Lemma no_ascent_descending (items : list (string * float)) :
  no_ascent items → Forall (λ a, is_nan a.2 = false) items →
  descending items.
Proof.
  induction items as [|h items IH]; intros Hs Hn i j a b Hij Hi Hj.
  - inversion Hi.
  - destruct Hs as [Hh Hs]. apply Forall_cons in Hn as [Hnh Hn].
    destruct j as [|j]; [lia|]. cbn in Hj. destruct i as [|i].
    + injection Hi as <-. apply list_elem_of_lookup_2 in Hj.
      rewrite Forall_forall in Hh. rewrite Forall_forall in Hn.
      apply float_leb_total; auto.
    + cbn in Hi. apply (IH Hs Hn i j); [lia|done..].
Qed.

(** X22: [_save_feature_importance], as [train_models] calls it, never
    raises and touches nothing but the file [feature_importance.json]:
    the attributes of [self], the bid table and the other files are as
    before, and with no win predictor it does nothing at all.  When it
    writes the file, the win predictor is a fitted regressor and the file
    holds its importances paired with the feature names -- as many pairs
    as the shorter of the two -- ordered by descending importance. *)
Theorem save_feature_importance_sorted (w : world) :
  ∃ w',
    _save_feature_importance feature_columns w = (Return tt, w')
    ∧ same_models w w'
    ∧ table w' = table w
    ∧ (∀ f, f ≠ "feature_importance.json" → files w' !! f = files w !! f)
    ∧ (win_predictor w = ONone → w' = w)
    ∧ (files w' !! "feature_importance.json"
       = files w !! "feature_importance.json"
       ∨ ∃ m importance items,
           win_predictor w = ORegressor (Some m)
           ∧ gbr_feature_importances m = Return importance
           ∧ files w' !! "feature_importance.json" = Some (Json items)
           ∧ items ≡ₚ zip feature_columns importance
           ∧ (Forall (λ x, is_nan x = false) importance →
              descending items)).
Proof.
  unfold _save_feature_importance. rewrite bind_run, gets_run.
  cbv beta iota.
  assert (∀ w1, same_models w w1 → table w1 = table w →
    files w1 = files w → win_predictor w ≠ ONone →
    ∃ w',
      log ERROR "Error saving feature importance" w1 = (Return tt, w')
      ∧ same_models w w'
      ∧ table w' = table w
      ∧ (∀ f, f ≠ "feature_importance.json" →
              files w' !! f = files w !! f)
      ∧ (win_predictor w = ONone → w' = w)
      ∧ (files w' !! "feature_importance.json"
         = files w !! "feature_importance.json"
         ∨ ∃ m importance items,
             win_predictor w = ORegressor (Some m)
             ∧ gbr_feature_importances m = Return importance
             ∧ files w' !! "feature_importance.json" = Some (Json items)
             ∧ items ≡ₚ zip feature_columns importance
             ∧ (Forall (λ x, is_nan x = false) importance →
                descending items))) as Hlog.
  { intros w1 Hm Ht Hf Hw. unfold log. rewrite emit_run.
    eexists. split; [reflexivity|]. wsimpl.
    split; [exact Hm|]. split; [exact Ht|].
    split; [intros f _; rewrite Hf; reflexivity|].
    split; [done|]. left. rewrite Hf. reflexivity. }
  destruct (win_predictor w) as [|[m|]|s|d] eqn:Hw.
  - rewrite ret_run. exists w. split; [reflexivity|].
    split; [apply same_models_refl|]. repeat split; auto.
  - unfold try_except. rewrite bind_run, lift_run.
    destruct (gbr_feature_importances m) as [importance|e] eqn:Ei.
    2:{ apply Hlog; [apply same_models_refl|done..]. }
    cbv beta iota.
    destruct (decide ("feature_importance.json" ∈ unwritable w)) as [Hro|Hrw].
    + destruct (write_file_fails "feature_importance.json"
                  (Json (sort_desc (zip feature_columns importance))) w Hro)
        as (w1 & -> & Hf1 & Hm1 & _ & Ht1 & _).
      apply Hlog; done.
    + destruct (write_file_run "feature_importance.json"
                  (Json (sort_desc (zip feature_columns importance))) w Hrw)
        as (w1 & -> & Hf1 & Hm1 & _ & Ht1 & _).
      exists w1. split; [reflexivity|]. split; [exact Hm1|].
      split; [exact Ht1|]. split.
      { intros f Hne. rewrite Hf1, lookup_insert_ne by done. reflexivity. }
      split; [discriminate|]. right.
      exists m, importance, (sort_desc (zip feature_columns importance)).
      destruct (sort_desc_spec (zip feature_columns importance)) as [Hp Hs].
      split; [reflexivity|]. split; [exact Ei|].
      split; [rewrite Hf1; apply lookup_insert_eq|].
      split; [exact Hp|]. intros Hnan.
      apply no_ascent_descending; [exact Hs|].
      rewrite Hp. apply Forall_forall. intros [c x] Hin. cbn.
      apply elem_of_zip_r in Hin. rewrite Forall_forall in Hnan. auto.
  - unfold try_except. rewrite bind_run, raise_run.
    apply Hlog; [apply same_models_refl|done..].
  - unfold try_except. rewrite bind_run, raise_run.
    apply Hlog; [apply same_models_refl|done..].
  - unfold try_except. rewrite bind_run, raise_run.
    apply Hlog; [apply same_models_refl|done..].
Qed.

(** ** Where a prediction comes from *)

Lemma obj_predict_inv (o : pyobj) (X : matrix) (w w' : world)
    (ys : list float) :
  obj_predict o X w = (Return ys, w') →
  ∃ m, o = ORegressor (Some m)
       ∧ gbr_predict m X = Return ys
       ∧ w' = set_trace (trace w ++ [Predict (length X)]) w.
Proof.
  destruct o as [|[m|]|s|d]; cbn [obj_predict]; try discriminate.
  rewrite bind_run, emit_run. cbv beta iota. rewrite lift_run.
  intros [= H <-]. exists m. done.
Qed.

Lemma predict_first_inv (o : pyobj) (X : matrix) (w w' : world) (y : float) :
  predict_first o X w = (Return y, w') →
  ∃ m ys, o = ORegressor (Some m)
          ∧ gbr_predict m X = Return (y :: ys)
          ∧ w' = set_trace (trace w ++ [Predict (length X)]) w.
Proof.
  unfold predict_first. rewrite bind_run.
  destruct (obj_predict o X w) as [[ys|e] w1] eqn:E; [|discriminate].
  destruct (obj_predict_inv _ _ _ _ _ E) as (m & -> & Hm & ->).
  destruct ys as [|y' ys]; [discriminate|]. rewrite ret_run.
  intros [= -> <-]. exists m, ys. done.
Qed.

Lemma self_scaler_transform_inv (cols : list string) (df : frame)
    (w w' : world) (Xs : matrix) :
  self_scaler_transform cols df w = (Return Xs, w') →
  w' = w
  ∧ ∃ stats X, scaler w = OScaler (Some stats)
               ∧ frame_to_matrix cols df = Return X
               ∧ scaler_transform stats X = Return Xs.
Proof.
  unfold self_scaler_transform. rewrite bind_run, gets_run. cbv beta iota.
  destruct (scaler w) as [| |[stats|]|]; try discriminate.
  rewrite bind_run, lift_run.
  destruct (frame_to_matrix cols df) as [X|] eqn:EX; [|discriminate].
  cbv beta iota. rewrite lift_run. intros [= H <-].
  split; [reflexivity|]. exists stats, X. done.
Qed.

(** A result of the [try] block of [predict_for_bid]. *)
Lemma predict_with_models_inv (feats : row) (w w' : world) (p : prediction) :
  predict_with_models feats w = (Return p, w') →
  ∃ m1 m2 stats Xs ys1 ys2,
    win_predictor w = ORegressor (Some m1)
    ∧ risk_predictor w = ORegressor (Some m2)
    ∧ scaler w = OScaler (Some stats)
    ∧ gbr_predict m1 Xs = Return (win_probability p :: ys1)
    ∧ gbr_predict m2 Xs = Return (risk_score p :: ys2)
    ∧ confidence p = 0.8%float
    ∧ features p = feats
    ∧ timestamp p = Some (clock w)
    ∧ trace w' = trace w ++ [Predict (length Xs); Predict (length Xs)].
Proof.
  unfold predict_with_models. rewrite bind_run.
  destruct (encode_known_columns _ _ w) as [[df|] wa] eqn:E1;
    [|discriminate].
  apply encode_known_columns_world in E1 as ->. rewrite bind_run.
  destruct (self_scaler_transform _ df w) as [[Xs|] wb] eqn:E2;
    [|discriminate].
  destruct (self_scaler_transform_inv _ _ _ _ _ E2)
    as (-> & stats & X & Hs & _ & _).
  rewrite bind_run, gets_run. cbv beta iota. rewrite bind_run.
  destruct (predict_first (win_predictor w) Xs w) as [[y1|] wc] eqn:E3;
    [|discriminate].
  destruct (predict_first_inv _ _ _ _ _ E3) as (m1 & ys1 & Hw & H1 & ->).
  rewrite bind_run, gets_run. cbv beta iota. wsimpl. rewrite bind_run.
  destruct (predict_first (risk_predictor w) Xs _) as [[y2|] wd] eqn:E4;
    [|discriminate].
  destruct (predict_first_inv _ _ _ _ _ E4) as (m2 & ys2 & Hr & H2 & ->).
  rewrite bind_run, gets_run. cbv beta iota. rewrite ret_run.
  intros [= <- <-]. exists m1, m2, stats, Xs, ys1, ys2. wsimpl.
  repeat split; try done. rewrite <- app_assoc. reflexivity.
Qed.

(** X23: where a result of [predict_for_bid] comes from.  It is the default
    result, or else: the predictor holds, after the call, a fitted win
    regressor, a fitted risk regressor and a fitted scaler; the win
    probability and the risk score are the first predictions of the two
    regressors on one and the same scaled input; the confidence is the
    constant 0.8; the features are those extracted from the bid, not
    encoded; and the timestamp is the current time. *)
Theorem predict_for_bid_result (bid : Bid) (w w' : world) (p : prediction) :
  predict_for_bid bid w = (Return p, w') →
  p = _get_default_prediction
  ∨ ∃ m1 m2 stats Xs ys1 ys2,
      win_predictor w' = ORegressor (Some m1)
      ∧ risk_predictor w' = ORegressor (Some m2)
      ∧ scaler w' = OScaler (Some stats)
      ∧ gbr_predict m1 Xs = Return (win_probability p :: ys1)
      ∧ gbr_predict m2 Xs = Return (risk_score p :: ys2)
      ∧ confidence p = 0.8%float
      ∧ _extract_features (table w) (today w) bid = Return (features p)
      ∧ timestamp p = Some (clock w).
Proof.
  intros H.
  assert (∀ w1, models_ready w w1 → table w1 = table w →
    today w1 = today w → clock w1 = clock w →
    p = _get_default_prediction
    ∨ ∃ m1 m2 stats Xs ys1 ys2,
        win_predictor w' = ORegressor (Some m1)
        ∧ risk_predictor w' = ORegressor (Some m2)
        ∧ scaler w' = OScaler (Some stats)
        ∧ gbr_predict m1 Xs = Return (win_probability p :: ys1)
        ∧ gbr_predict m2 Xs = Return (risk_score p :: ys2)
        ∧ confidence p = 0.8%float
        ∧ _extract_features (table w) (today w) bid = Return (features p)
        ∧ timestamp p = Some (clock w)) as Hgo.
  { intros w1 Hready Ht Hd Hc.
    rewrite (predict_for_bid_ready _ _ _ Hready), bind_run,
      extract_features_now_run in H.
    destruct (_extract_features (table w1) (today w1) bid) as [feats|]
      eqn:Ex; [|discriminate].
    cbv beta iota in H. unfold try_except in H.
    destruct (predict_with_models feats _) as [[p'|e] w3] eqn:Eb.
    - injection H as <- <-. right.
      pose proof (preserves_predict_with_models win_predictor
                    (λ _ _, eq_refl) _ _ _ _ Eb) as Hkw.
      pose proof (preserves_predict_with_models risk_predictor
                    (λ _ _, eq_refl) _ _ _ _ Eb) as Hkr.
      pose proof (preserves_predict_with_models scaler
                    (λ _ _, eq_refl) _ _ _ _ Eb) as Hks.
      destruct (predict_with_models_inv _ _ _ _ Eb)
        as (m1 & m2 & stats & Xs & ys1 & ys2
            & Hw & Hr & Hs & H1 & H2 & Hconf & Hfeat & Hts & _).
      exists m1, m2, stats, Xs, ys1, ys2.
      rewrite Hkw, Hkr, Hks, Hfeat. cbn [clock set_trace] in Hts.
      repeat split; try done; congruence.
    - unfold log in H. rewrite bind_run, emit_run in H. cbv beta iota in H.
      rewrite ret_run in H. injection H as <- _. left. reflexivity. }
  assert (win_predictor w = ONone ∨ win_predictor w ≠ ONone) as [Hw|Hw]
    by (destruct (win_predictor w); auto; right; discriminate).
  - destruct (load_models w) as [[[]|e] w1] eqn:El.
    + pose proof (emits_load_models _ _ _ El) as (_ & _ & Ht & Hd & Hc & _).
      apply (Hgo w1); [right; done|done..].
    + rewrite (predict_for_bid_load_raises bid w w1 e Hw El) in H.
      injection H as <- _. left. reflexivity.
  - apply (Hgo w); [left; done|done..].
Qed.

(** ** The prediction task *)

Lemma load_models_first_missing (w : world) :
  files w !! "win_predictor.pkl" = None →
  ∃ w', load_models w = (Raise FileNotFoundError, w')
        ∧ same_models w w'
        ∧ files w' = files w
        ∧ table w' = table w
        ∧ today w' = today w.
Proof.
  intros Hnone. unfold load_models, try_except, log. cbv beta.
  rewrite bind_run, joblib_load_fails by (rewrite Hnone; done).
  rewrite Hnone. mrun. eexists. split; [reflexivity|]. repeat split.
Qed.

Lemma train_models_few_rows_returns (retrain : bool) (w : world) :
  training_path retrain w →
  length (eligible (table w)) < 10 →
  (∀ bid, bid ∈ eligible (table w) →
          returns (_extract_features (table w) (today w) bid)) →
  ∃ w', train_models retrain w = (Return tt, w')
        ∧ same_models w w'
        ∧ files w' = files w
        ∧ table w' = table w.
Proof.
  intros Hpath Hfew Hx. rewrite (train_models_on_training_path _ _ Hpath).
  rewrite bind_run. unfold prepare_training_data at 1. mrun.
  destruct (training_rows_returns (table w) (today w) (eligible (table w))
              Hx w eq_refl eq_refl) as (df & w1 & E).
  rewrite E. cbv beta iota.
  destruct (training_rows_spec _ _ _ _ E) as (Hlen & _ & Hsame & Htr).
  pose proof (emits_training_rows _ _ _ _ E) as (Hf & _ & Ht & _).
  rewrite bool_decide_eq_true_2 by lia. unfold log. rewrite emit_run.
  eexists. split; [reflexivity|]. wsimpl. done.
Qed.

Lemma default_recommendations_run (bid : Bid) :
  get_recommendations bid _get_default_prediction
  = Return default_recommendations.
Proof. reflexivity. Qed.

Section tasks.
Context (bid_save : Bid → bid_update → outcome unit).
Context `{!LibrariesLaws L}.

(** With no model in memory and no win-predictor file, every bid of the
    loop gets the default values. *)
Lemma update_bids_default (bids : list Bid) :
  ∀ (n : nat) (w : world),
  win_predictor w = ONone →
  files w !! "win_predictor.pkl" = None →
  ∃ w',
    update_bids bid_save bids n w
    = (Return (n + length (filter (λ bid, is_return
                                            (bid_save bid default_update)
                                          = true) bids)), w')
    ∧ win_predictor w' = ONone
    ∧ files w' = files w
    ∧ table w' = table w.
Proof.
  induction bids as [|bid bids IH]; intros n w Hw Hnone;
    cbn [update_bids].
  - rewrite ret_run. exists w. rewrite Nat.add_0_r. done.
  - rewrite bind_run. unfold try_except at 1. rewrite bind_run.
    unfold update_bid at 1. rewrite bind_run.
    destruct (load_models_first_missing w Hnone)
      as (w1 & Hload & (Hw1 & _) & Hf1 & Ht1 & _).
    rewrite (predict_for_bid_load_raises bid w w1 _ Hw Hload).
    cbv beta iota. rewrite bind_run, lift_run, default_recommendations_run.
    cbv beta iota. rewrite lift_run.
    change {| new_win_probability := _ |} with default_update.
    rewrite filter_cons.
    destruct (bid_save bid default_update) as [[]|e] eqn:Es.
    + cbv beta iota. rewrite ret_run. cbv beta iota.
      destruct (IH (S n) w1) as (w' & -> & Hw' & Hf' & Ht');
        [congruence..|].
      exists w'. rewrite decide_True by reflexivity.
      cbn [length]. rewrite Nat.add_succ_r.
      repeat split; congruence.
    + unfold log. rewrite bind_run, emit_run. cbv beta iota. rewrite ret_run.
      cbv beta iota.
      edestruct (IH n) as (w' & -> & Hw' & Hf' & Ht');
        [|wsimpl; rewrite Hf1; exact Hnone|].
      { wsimpl. congruence. }
      exists w'. rewrite decide_False by discriminate.
      cbn [files table set_trace] in Hf', Ht'. repeat split; congruence.
Qed.

(** X24: the prediction task without a win-predictor file.  The task builds
    a new predictor, fails to load, and calls [train_models()].  With ten
    or more bids with a decision that call raises, and so does the task.
    With fewer than ten, when the features of those bids can be extracted,
    the task returns "Updated N bids", N being the number of bids not won,
    lost or cancelled whose save with the values of the default prediction
    -- 50, 50, its recommendations and no features -- succeeded.  The
    model files are as before in either case. *)
Theorem update_bid_predictions_without_models (w : world) :
  files w !! "win_predictor.pkl" = None →
  ∃ r w',
    update_bid_predictions bid_save w = (r, w')
    ∧ files w' = files w
    ∧ (10 ≤ length (eligible (table w)) → ∃ e, r = Raise e)
    ∧ (length (eligible (table w)) < 10 →
       (∀ bid, bid ∈ eligible (table w) →
               returns (_extract_features (table w) (today w) bid)) →
       r = Return
             ("Updated "
              +:+ pretty (length (filter
                                    (λ bid, is_return
                                              (bid_save bid default_update)
                                            = true)
                                    (active_bids (table w))))
              +:+ " bids")).
Proof.
  intros Hnone. unfold update_bid_predictions. unfold try_except at 1.
  rewrite bind_run, modify_run. cbv beta iota. rewrite bind_run.
  unfold try_except at 1.
  destruct (load_models_first_missing (init w) Hnone)
    as (w1 & -> & Hm1 & Hf1 & Ht1 & Hd1).
  unfold log at 1. rewrite bind_run, emit_run. cbv beta iota.
  set (w1' := set_trace _ w1).
  assert (training_path false w1') as Hpath.
  { right. exists "win_predictor.pkl". split; [in_model_files|].
    unfold w1'. wsimpl. rewrite Hf1. exact Hnone. }
  destruct (train_models_training_run false w1' Hpath)
    as (r & w2 & evs & Hrun & Hf2 & Ht2 & _ & _ & _ & Hret & Hraise).
  assert (files w2 = files w) as Hfw by (rewrite Hf2; exact Hf1).
  assert (table w2 = table w) as Htw by (rewrite Ht2; exact Ht1).
  change (table w1') with (table w1) in Hret, Hraise.
  rewrite Ht1 in Hret, Hraise. change (table (init w)) with (table w) in *.
  rewrite Hrun. destruct r as [[]|e].
  - cbv beta iota. rewrite bind_run, gets_run. cbv beta iota.
    rewrite bind_run.
    destruct (Hret eq_refl) as (Hfew & (Hw2 & _) & _).
    destruct (update_bids_default (active_bids (table w2)) 0 w2)
      as (w3 & -> & _ & Hf3 & Ht3).
    { rewrite Hw2. unfold w1'. wsimpl. rewrite (proj1 Hm1). reflexivity. }
    { rewrite Hfw. exact Hnone. }
    cbv beta iota. unfold log. rewrite bind_run, emit_run. cbv beta iota.
    rewrite ret_run. eexists _, _. split; [reflexivity|]. wsimpl.
    split; [congruence|]. split; [intros; lia|].
    intros _ _. rewrite Htw. reflexivity.
  - unfold log. rewrite bind_run, emit_run. cbv beta iota. rewrite raise_run.
    eexists _, _. split; [reflexivity|]. wsimpl.
    split; [exact Hfw|]. split; [eauto|].
    intros Hfew Hx. exfalso.
    destruct (train_models_few_rows_returns false w1' Hpath)
      as (w' & Hrun' & _).
    + change (table w1') with (table w1). rewrite Ht1. exact Hfew.
    + change (table w1') with (table w1). change (today w1') with (today w1).
      rewrite Ht1, Hd1. exact Hx.
    + rewrite Hrun in Hrun'. discriminate.
Qed.

End tasks.

(** ** What [predict_for_bid] lets through *)

Lemma extract_features_raises (tbl : list Bid) (now : Z) (bid : Bid)
    (e : exn) :
  _extract_features tbl now bid = Raise e ↔
  e = TypeError ∧ unsized_requirements bid.
Proof.
  unfold _extract_features, unsized_requirements.
  destruct (requirements bid) as [v|items|members] eqn:E;
    cbn [json_truthy json_len].
  - destruct (py_truthy v) eqn:Et.
    + destruct v as [|z|f|s|d]; cbn [mbind outcome_bind]; split;
        try discriminate.
      * intros [= <-]. split; [reflexivity|]. eexists. done.
      * intros [-> _]. reflexivity.
      * intros [= <-]. split; [reflexivity|]. eexists. done.
      * intros [-> _]. reflexivity.
      * intros [_ (v & [= <-] & _ & [=])].
      * intros [= <-]. split; [reflexivity|]. eexists. done.
      * intros [-> _]. reflexivity.
    + cbn [mbind outcome_bind]. split; [discriminate|].
      intros [_ (v' & [= <-] & Hv & _)]. congruence.
  - destruct items; cbn [mbind outcome_bind]; split; try discriminate;
      intros [_ (v & [=] & _)].
  - destruct members; cbn [mbind outcome_bind]; split; try discriminate;
      intros [_ (v & [=] & _)].
Qed.

(** X25: the one exception [predict_for_bid] lets through.  The feature
    extraction stands before the [try] block, so the call raises exactly
    when the models are there -- in memory, or loaded without error --
    and the [requirements] document of the bid is a number or a true
    boolean, on which [len] raises [TypeError].  Every other failure ends
    in the default result. *)
Theorem predict_for_bid_raises (bid : Bid) (w : world) :
  (∀ e w', predict_for_bid bid w = (Raise e, w') →
           e = TypeError ∧ unsized_requirements bid
           ∧ (win_predictor w ≠ ONone ∨ artifacts_loadable w))
  ∧ (unsized_requirements bid →
     win_predictor w ≠ ONone ∨ artifacts_loadable w →
     ∃ w', predict_for_bid bid w = (Raise TypeError, w')).
Proof.
  assert (∀ w1 r w', models_ready w w1 → table w1 = table w →
    today w1 = today w → predict_for_bid bid w = (r, w') →
    (∀ e, r = Raise e → e = TypeError ∧ unsized_requirements bid)
    ∧ (unsized_requirements bid → r = Raise TypeError)) as Hgo.
  { intros w1 r w' Hready Ht Hd H.
    rewrite (predict_for_bid_ready _ _ _ Hready), bind_run,
      extract_features_now_run in H.
    destruct (_extract_features (table w1) (today w1) bid) as [feats|e0]
      eqn:Ex.
    - cbv beta iota in H. unfold try_except in H.
      assert (∃ p, r = Return p) as [p ->].
      { destruct (predict_with_models feats _) as [[p|e1] w3].
        - injection H as <- _. eauto.
        - unfold log in H. rewrite bind_run, emit_run in H.
          cbv beta iota in H. rewrite ret_run in H.
          injection H as <- _. eauto. }
      split; [discriminate|]. intros Hreq. exfalso.
      assert (_extract_features (table w1) (today w1) bid = Raise TypeError)
        as Hraise by (apply extract_features_raises; done).
      congruence.
    - injection H as <- _. apply extract_features_raises in Ex as [-> Hreq].
      split; [|reflexivity]. intros e [= <-]. done. }
  assert (win_predictor w = ONone ∨ win_predictor w ≠ ONone) as [Hw|Hw]
    by (destruct (win_predictor w); auto; right; discriminate).
  - destruct (load_models_cases_loadable w)
      as (n & r0 & w1 & Hload & _ & _ & Ht & Hd & _ & _ & _ & _ & Hiff).
    destruct r0 as [[]|e0].
    + assert (models_ready w w1) as Hready by (right; done).
      pose proof (proj1 Hiff eq_refl) as Hl. split.
      * intros e w' H.
        destruct (Hgo w1 _ _ Hready Ht Hd H) as [Hr _].
        destruct (Hr e eq_refl). auto.
      * intros Hreq _.
        pose proof (surjective_pairing (predict_for_bid bid w)) as H.
        destruct (Hgo w1 _ _ Hready Ht Hd H) as [_ Hr].
        exists (predict_for_bid bid w).2. rewrite <- (Hr Hreq). exact H.
    + rewrite (predict_for_bid_load_raises bid w w1 e0 Hw Hload). split.
      * intros e w' [=].
      * intros _ [Hne|Hl]; [done|].
        apply Hiff in Hl. discriminate.
  - assert (models_ready w w) as Hready by (left; done). split.
    + intros e w' H.
      destruct (Hgo w _ _ Hready eq_refl eq_refl H) as [Hr _].
      destruct (Hr e eq_refl). auto.
    + intros Hreq _.
      pose proof (surjective_pairing (predict_for_bid bid w)) as H.
      destruct (Hgo w _ _ Hready eq_refl eq_refl H) as [_ Hr].
      exists (predict_for_bid bid w).2. rewrite <- (Hr Hreq). exact H.
Qed.

(** ** A training run whose library calls succeed *)













Section training_frame.
Context (tbl : list Bid) (now : Z) (bids : list Bid) (df : frame).
Hypothesis Hrows :
  Forall2 (λ bid r, ∃ feats,
             _extract_features tbl now bid = Return feats
             ∧ r = add_labels bid feats) bids df.





End training_frame.


Section training_run.
Context `{!LibrariesLaws L}.






End training_run.

End properties.

(** * Concrete runs *)

#[global] Instance toy_laws : LibrariesLaws toy_libraries.
Proof.
  split.
  - intros X y Hne. cbn. rewrite bool_decide_eq_false_2 by done. reflexivity.
  - intros n train test. cbn. case_bool_decide as Hlt; [|discriminate].
    intros [= <- <-]. rewrite length_seq. split; [|reflexivity].
    rewrite Permutation_app_comm, <- seq_app.
    replace (n_test_of n + (n - n_test_of n)) with n by lia. reflexivity.
Qed.

(** A run that returned, or raised, in terms of its two components. *)
Lemma returned_run {L : Libraries} {A} (dflt : A) (r : outcome A * world) :
  is_return r.1 = true → r = (Return (returned dflt r.1), r.2).
Proof. destruct r as [[a|e] w]; [reflexivity|discriminate]. Defined.


Lemma risk_label_rule_witness :
  (∃ (df : frame) (w' : world (L := toy_libraries)),
      prepare_training_data (fresh_world [bid_1]) = (Return df, w')
      ∧ _calculate_risk_scores df = Return [0.8999999999999999%float])
  ∧ 0%float = risk_label_spec 5000 80 0.1 60%Z.
Proof.
  split.
  - pose (res := prepare_training_data (fresh_world (L := toy_libraries)
                                          [bid_1])).
    exists (returned [] res.1), res.2.
    assert (res = (Return (returned [] res.1), res.2)) as Hrun
      by (apply returned_run; vm_compute; reflexivity).
    split; [exact Hrun|].
    exact (proj1 (proj2 (risk_label_rule (L := toy_libraries))) _ _ _ Hrun).
  - pose proof (proj1 (risk_label_rule (L := toy_libraries))
                  [risk_row 5000 80 0.1 60] [0%float] eq_refl) as H.
    apply Forall2_cons_1 in H as [H _].
    exact (H 5000%float 80%float 0.1%float 60%Z
             eq_refl eq_refl eq_refl eq_refl).
Defined.

(** The split of ten rows: two for the test side. *)
Example n_test_of_ten : n_test_of 10 = 2 ∧ n_test_of 11 = 3.
Proof. split; reflexivity. Qed.

(** Training on [ten_bids] with the toy libraries: every step succeeds up
    to the fit of the risk regressor, which gets 8 rows of features and 10
    risk labels and raises; the win predictor stays fitted in memory, the
    risk predictor unfitted, and no file is written. *)
Example train_models_ten_bids :
  let res := train_models (L := toy_libraries) true (fresh_world ten_bids) in
  res.1 = Raise ValueError
  ∧ trace res.2
    = [Extract "b-0"; Extract "b-1"; Extract "b-2"; Extract "b-3";
       Extract "b-4"; Extract "b-6"; Extract "b-7"; Extract "b-8";
       Extract "b-9"; Extract "b-10"; EncoderFit "customer_type";
       EncoderFit "customer_industry"; EncoderFit "avg_bid_value";
       EncoderFit "business_unit"; EncoderFit "bid_level";
       EncoderFit "priority"; EncoderFit "complexity"; EncoderFit "region";
       ScalerFit 10; Fit 8 8; Predict 2; Log INFO "Model Performance";
       Fit 8 10]
  ∧ win_predictor res.2 = ORegressor (L := toy_libraries) (Some 0.625%float)
  ∧ risk_predictor res.2 = ORegressor None
  ∧ files res.2 = ∅.
Proof. cbv zeta. repeat split; vm_compute; reflexivity. Qed.


(** C4 (as stated, refuted): it is not so that [train_models], given
    fewer than 10 eligible rows, always returns with the models in memory
    and the files as they were.  With an empty bid table and the four
    artifact files in place ([stocked_world]), [train_models()] replaces
    the models in memory by those of the files. *)
Lemma train_models_few_rows_changes_memory :
  ¬ (∀ (retrain : bool) (w : world (L := toy_libraries)),
       length (eligible (table w)) < 10 →
       ∃ w', train_models retrain w = (Return tt, w')
             ∧ same_models w w'
             ∧ files w' = files w).
Proof.
  intros H.
  destruct (H false stocked_world) as (w' & Hrun & (Hwin & _) & _).
  { vm_compute. lia. }
  assert (w' = (train_models false stocked_world).2) as ->
    by (rewrite Hrun; reflexivity).
  revert Hwin. vm_compute. discriminate.
Qed.

(** The same state with a first file that does not unpickle: the call
    raises. *)
Example train_models_few_rows_raises :
  length (eligible (table corrupt_world)) = 0
  ∧ (train_models false corrupt_world).1 = Raise UnpicklingError.
Proof. split; reflexivity. Qed.

Lemma train_models_insufficient_data_witness :
  let w := fresh_world (L := toy_libraries) [bid_1] in
  after not_a_write w (train_models true w).2
  ∧ ∃ w', train_models true w = (Return tt, w')
          ∧ same_models w w'
          ∧ files w' = files w
          ∧ trace w'
            = trace w ++ (Extract ∘ id <$> eligible (table w))
                ++ [Log WARNING "Not enough training data available"].
Proof.
  intros w.
  assert (length (eligible (table w)) < 10) as Hfew by (vm_compute; lia).
  split.
  - eapply (proj1 (train_models_insufficient_data true w Hfew)).
    apply surjective_pairing.
  - apply (proj2 (train_models_insufficient_data true w Hfew)).
    + left. reflexivity.
    + intros bid Hbid. change (eligible (table w)) with [bid_1] in Hbid.
      apply list_elem_of_singleton in Hbid as ->.
      eexists. vm_compute. reflexivity.
Defined.

Lemma stocked_world_loadable : artifacts_loadable stocked_world.
Proof.
  intros f Hf. unfold model_files in Hf.
  repeat (apply elem_of_cons in Hf as [->|Hf]; [eexists; reflexivity|]).
  inversion Hf.
Defined.

Lemma train_models_short_circuit_witness :
  ∃ w1 w2,
    train_models false stocked_world = (Return tt, w1)
    ∧ files stocked_world !! "win_predictor.pkl"
      = Some (Pickle (win_predictor w1))
    ∧ files stocked_world !! "risk_predictor.pkl"
      = Some (Pickle (risk_predictor w1))
    ∧ files stocked_world !! "scaler.pkl" = Some (Pickle (scaler w1))
    ∧ files stocked_world !! "label_encoders.pkl"
      = Some (Pickle (label_encoders w1))
    ∧ files w1 = files stocked_world ∧ table w1 = table stocked_world
    ∧ trace w1 = trace stocked_world ++ load_events
    ∧ train_models false w1 = (Return tt, w2)
    ∧ same_models w1 w2
    ∧ files w2 = files stocked_world ∧ table w2 = table stocked_world
    ∧ trace w2 = trace w1 ++ load_events.
Proof.
  exact (train_models_short_circuit stocked_world stocked_world_loadable).
Defined.

Lemma recommendations_example_witness :
  ∃ recs, get_recommendations bid_1 _get_default_prediction = Return recs
          ∧ NoDup recs.
Proof.
  eexists. split; [vm_compute; reflexivity|].
  apply (proj2 recommendations_example bid_1 _get_default_prediction).
  vm_compute. reflexivity.
Defined.

Lemma recommendations_without_features_witness :
  ∃ recs, get_recommendations bid_1 _get_default_prediction = Return recs
          ∧ "Schedule customer engagement meetings" ∈ recs
          ∧ "Accelerate review and approval process" ∈ recs.
Proof.
  apply (recommendations_without_features bid_1
           _get_default_prediction eq_refl).
Defined.

(** C8 (as stated, refuted): it is not so that a bid whose customer has no
    prior bid gets the win rate 0.5, nor that with n > 0 prior bids the
    won and approved bids are divided by n.  The query counts the bid
    itself: a saved draft that is the first bid of its customer gets 0/1,
    and with one prior bid, won, it gets 1/2, not 1/1. *)
Lemma historical_win_rate_counts_the_bid :
  ¬ (∀ (tbl : list Bid) (now : Z) (bid : Bid) (features : row),
       _extract_features (L := toy_libraries) tbl now bid = Return features →
       prior_bids tbl bid = [] →
       features !! "historical_win_rate" = Some (PFloat 0.5))
  ∧ ¬ (∀ (tbl : list Bid) (now : Z) (bid : Bid) (features : row),
         _extract_features (L := toy_libraries) tbl now bid
           = Return features →
         0 < length (prior_bids tbl bid) →
         features !! "historical_win_rate"
         = Some (PFloat
                   (float_of_ratio
                      (Z.of_nat (length (won_or_approved
                                           (bids_of_customer tbl bid))))
                      (Pos.of_nat (length (prior_bids tbl bid)))))).
Proof.
  pose (draft := bid_like "b-5" "draft" "EMEA").
  pose (prior := bid_like "b-0" "won" "EMEA").
  split; intros H.
  - assert (∃ f, _extract_features (L := toy_libraries) [draft] 100 draft
                 = Return f
                 ∧ f !! "historical_win_rate" = Some (PFloat 0)) 
      as (f & Hf & Hrate) by (eexists; split; reflexivity).
    specialize (H _ _ _ _ Hf eq_refl). rewrite Hrate in H.
    revert H. intros [=].
  - assert (∃ f, _extract_features (L := toy_libraries) [prior; draft] 100
                   draft = Return f
                 ∧ f !! "historical_win_rate" = Some (PFloat 0.5))
      as (f & Hf & Hrate) by (eexists; split; reflexivity).
    specialize (H _ _ _ _ Hf). rewrite Hrate in H.
    assert (0 < length (prior_bids [prior; draft] draft)) as Hn
      by (vm_compute; lia).
    specialize (H Hn). revert H. vm_compute. intros [=].
Qed.

Lemma historical_win_rate_feature_witness :
  (∃ features,
      _extract_features (L := toy_libraries) [] 100 bid_1 = Return features
      ∧ features !! "historical_win_rate" = Some (PFloat 0.5))
  ∧ (∃ features,
      _extract_features (L := toy_libraries) ten_bids 100
        (bid_like "b-5" "draft" "EMEA") = Return features
      ∧ length (prior_bids ten_bids (bid_like "b-5" "draft" "EMEA")) = 10
      ∧ features !! "historical_win_rate"
        = Some (PFloat (float_of_ratio 6 11))
      ∧ float_of_ratio 6 11 = (6 / 11)%float).
Proof.
  split.
  - eexists. split; [reflexivity|].
    apply (proj1 (historical_win_rate_feature (L := toy_libraries)
                    [] 100%Z bid_1 _ eq_refl)).
    reflexivity.
  - eexists. split; [reflexivity|].
    destruct (proj1 (proj2 (proj2 (historical_win_rate_feature
                                     (L := toy_libraries) ten_bids 100%Z
                                     (bid_like "b-5" "draft" "EMEA")
                                     _ eq_refl))))
      as [Hn Hrate].
    + unfold ten_bids. do 5 apply list_elem_of_further.
      apply list_elem_of_here.
    + apply (bool_decide_unpack _). vm_compute. exact I.
    + split; [reflexivity|]. split; [exact Hrate|reflexivity].
Defined.

Lemma encoder_round_trip_witness :
  (∃ code, [1; 0; 1]%Z !! 2 = Some code
           ∧ LabelEncoder.transform
               (LabelEncoder.LabelEncoder (Some [PStr "JCS"; PStr "JIS"]))
               [PStr "JIS"]
             = Return [code])
  ∧ ∃ (X' : frame) (w' : world (L := toy_libraries)),
      _encode_features ["region"]
        [ {[ "region" := PStr "EMEA" ]}; {[ "region" := PStr "APAC" ]} ]
        (fresh_world []) = (Return X', w')
      ∧ ∃ encs' enc code,
          label_encoders w' = OEncoders encs'
          ∧ encs' !! "region" = Some enc
          ∧ column X' "region" !! 0 = Some (PInt code)
          ∧ LabelEncoder.transform enc [PStr "EMEA"] = Return [code].
Proof.
  split.
  - apply (proj1 (encoder_round_trip (L := toy_libraries))
             [PStr "JIS"; PStr "JCS"; PStr "JIS"] _ [1; 0; 1]%Z 2 (PStr "JIS"));
      reflexivity.
  - pose (X := [ {[ "region" := PStr "EMEA" ]};
                 {[ "region" := PStr "APAC" ]} ] : frame).
    pose (res := _encode_features (L := toy_libraries) ["region"] X
                   (fresh_world [])).
    exists (returned [] res.1), res.2.
    assert (_encode_features ["region"] X (fresh_world [])
            = (Return (returned [] res.1), res.2)) as Hrun
      by (apply returned_run; vm_compute; reflexivity).
    split; [exact Hrun|].
    destruct (proj2 (encoder_round_trip (L := toy_libraries))
                ["region"] X (returned [] res.1) (fresh_world []) res.2
                ∅ "region" 0 {[ "region" := PStr "EMEA" ]})
      as (encs' & enc & code & Hw & He & Hcol & Ht & _).
    + apply NoDup_singleton.
    + reflexivity.
    + exact Hrun.
    + apply (bool_decide_unpack _). vm_compute. exact I.
    + reflexivity.
    + exists encs', enc, code. repeat split; assumption.
Defined.




(** Feature extraction is outside the [try] block of [predict_for_bid] and
    inside no handler of [train_models]: on a [requirements] document that
    is a number, [len] raises [TypeError] and both calls raise. *)
Example extraction_raises :
  _extract_features (L := toy_libraries) [bid_with_number] 100 bid_with_number
    = Raise TypeError
  ∧ (predict_for_bid (L := toy_libraries) bid_with_number (apac_world true)).1
    = Raise TypeError
  ∧ length (eligible [bid_with_number]) = 1
  ∧ (train_models (L := toy_libraries) true (fresh_world [bid_with_number])).1
    = Raise TypeError.
Proof. repeat split; vm_compute; reflexivity. Qed.

(** Python's true division of two ints is the correctly rounded quotient;
    where both ints are binary64 values it is the IEEE division. *)
Example float_of_ratio_examples :
  float_of_ratio 1 3 = (1 / 3)%float
  ∧ float_of_ratio 2 3 = (2 / 3)%float
  ∧ float_of_ratio 7 7 = 1%float
  ∧ float_of_ratio 0 5 = 0%float
  ∧ float_of_decimal (Decimal 123456 (-2)) = 1234.56%float
  ∧ float_of_decimal (Decimal 90 (-2)) = 0.9%float
  ∧ float_of_Z 1000000 = 1000000%float.
Proof. repeat split; reflexivity. Qed.

(** ** More concrete runs *)

Lemma save_then_load_witness :
  ∃ w1,
    save_models (fresh_world (L := toy_libraries) []) = (Return tt, w1)
    ∧ _models_exist w1 = (Return true, w1)
    ∧ ∀ w0, files w0 = files w1 →
        ∃ w2, load_models w0 = (Return tt, w2)
              ∧ win_predictor w2 = ONone
              ∧ risk_predictor w2 = ONone
              ∧ scaler w2 = OScaler None
              ∧ label_encoders w2 = OEncoders ∅
              ∧ files w2 = files w0.
Proof.
  apply (save_then_load (fresh_world (L := toy_libraries) [])).
  intros f _. apply not_elem_of_empty.
Defined.

(** A save that fails at the third file leaves the first two written. *)
Example save_models_not_atomic :
  let res := save_models read_only_scaler_world in
  res.1 = Return tt
  ∧ files res.2 !! "win_predictor.pkl"
    = Some (Pickle (ORegressor (L := toy_libraries) (Some 0.7%float)))
  ∧ files res.2 !! "risk_predictor.pkl"
    = Some (Pickle (ORegressor (L := toy_libraries) (Some 0.2%float)))
  ∧ files res.2 !! "scaler.pkl" = None
  ∧ files res.2 !! "label_encoders.pkl" = None
  ∧ (_models_exist res.2).1 = Return false
  ∧ last (trace res.2) = Some (Log ERROR "Error saving models").
Proof. cbv zeta. repeat split; vm_compute; reflexivity. Qed.

Lemma train_models_corrupt_artifact_witness :
  ∃ n w',
    train_models false corrupt_world = (Raise UnpicklingError, w')
    ∧ n < 4
    ∧ files w' = files corrupt_world
    ∧ table w' = table corrupt_world
    ∧ trace w'
      = trace corrupt_world ++ (Load <$> take (S n) model_files)
          ++ [Log ERROR "Error loading models"].
Proof.
  apply (train_models_corrupt_artifact corrupt_world).
  - intros f Hf. unfold model_files in Hf.
    repeat (apply elem_of_cons in Hf as [->|Hf]; [eexists; reflexivity|]).
    inversion Hf.
  - exists "win_predictor.pkl". split; [left|]. intros o. discriminate.
Defined.

Lemma train_models_never_writes_witness :
  ∃ r w' evs,
    train_models (L := toy_libraries) true (fresh_world ten_bids) = (r, w')
    ∧ files w' = files (fresh_world (L := toy_libraries) ten_bids)
    ∧ table w' = table (fresh_world (L := toy_libraries) ten_bids)
    ∧ trace w' = trace (fresh_world (L := toy_libraries) ten_bids) ++ evs
    ∧ Forall not_a_write evs
    ∧ (r = Return tt → Forall not_a_fit evs).
Proof.
  exact (train_models_never_writes (L := toy_libraries) true
           (fresh_world ten_bids)).
Defined.

Lemma train_then_predict_default_witness :
  ∃ r w1 w2,
    train_models (L := toy_libraries) true (init (fresh_world ten_bids))
    = (r, w1)
    ∧ predict_for_bid bid_1 w1 = (Return _get_default_prediction, w2)
    ∧ files w2 = files (fresh_world (L := toy_libraries) ten_bids).
Proof.
  apply (train_then_predict_default (L := toy_libraries) true
           (fresh_world ten_bids) bid_1).
  - exists "scaler.pkl". split; [|reflexivity].
    right. right. left.
  - apply extract_features_returns. intros v [=].
Defined.

Lemma risk_scores_range_witness :
  length [0.8999999999999999%float; 0%float] = 2
  ∧ Forall (λ x, (0 <=? x)%float = true ∧ (x <? 0.9)%float = true)
      [0.8999999999999999%float; 0%float].
Proof.
  apply (risk_scores_range
           [risk_row 2000000 10 0.9 3; risk_row 5000 80 0.1 60]).
  reflexivity.
Defined.

Lemma get_recommendations_bounded_witness :
  length default_recommendations ≤ 9
  ∧ (∀ s, s ∈ default_recommendations → s ∈ all_recommendations)
  ∧ (∀ s, s ∈ default_recommendations → s ∈ mid_win_block →
          (0.5 <? 0.3)%float = false ∧ (0.5 <? 0.6)%float = true)
  ∧ (∀ s, s ∈ default_recommendations → s ∈ low_win_block →
          (0.5 <? 0.3)%float = true).
Proof.
  apply (get_recommendations_bounded bid_1 _get_default_prediction).
  reflexivity.
Defined.

Lemma recommendations_after_prediction_witness :
  let res := predict_for_bid (L := toy_libraries) bid_1 (apac_world true) in
  ∃ recs,
    get_recommendations bid_1 (returned _get_default_prediction res.1)
    = Return recs
    ∧ (returned _get_default_prediction res.1 = _get_default_prediction →
       recs ≡ₚ mid_win_block ++ [engagement_rec; accelerate_rec]).
Proof.
  intros res.
  apply (recommendations_after_prediction (L := toy_libraries) bid_1
           (apac_world true) res.2).
  apply returned_run. vm_compute. reflexivity.
Defined.

Lemma extract_features_schema_witness :
  ∃ features,
    _extract_features (L := toy_libraries) [bid_1] 100 bid_1
    = Return features
    ∧ dom features = list_to_set feature_columns
    ∧ ∃ s, features !! "region" = Some (PStr s).
Proof.
  eexists. split; [reflexivity|].
  destruct (extract_features_schema (L := toy_libraries) [bid_1] 100%Z
              bid_1 _ eq_refl) as (Hdom & _ & _ & Hstr & _).
  split; [exact Hdom|]. apply Hstr.
  do 6 right. left.
Defined.

Lemma no_due_date_is_urgent_witness :
  ∃ feats,
    _extract_features (L := toy_libraries) [] 100 bid_without_due_date
    = Return feats
    ∧ feats !! "days_until_due" = Some (PInt 0)
    ∧ (∃ x, risk_of_row (add_labels bid_without_due_date feats) = Return x
            ∧ (0.2 <=? x)%float = true).
Proof.
  eexists. split; [reflexivity|].
  destruct (no_due_date_is_urgent (L := toy_libraries) [] 100%Z
              bid_without_due_date _ eq_refl eq_refl) as (Hd & Hrisk & _).
  split; [exact Hd|exact Hrisk].
Defined.

Lemma encode_features_codes_witness :
  let X := [ {[ "region" := PStr "EMEA" ]}; {[ "region" := PStr "APAC" ]} ]
           : frame in
  let res := _encode_features (L := toy_libraries) ["region"] X
               (fresh_world []) in
  length (returned [] res.1) = length X
  ∧ ∃ encs',
      label_encoders res.2 = OEncoders encs'
      ∧ ∃ enc classes,
          encs' !! "region" = Some enc
          ∧ LabelEncoder.classes_ enc = Some classes
          ∧ ∃ k, column (returned [] res.1) "region" !! 0 = Some (PInt k)
                 ∧ (0 ≤ k < Z.of_nat (length classes))%Z.
Proof.
  intros X res.
  destruct (encode_features_codes (L := toy_libraries) ["region"] X
              (returned [] res.1) (fresh_world []) res.2 ∅)
    as (Hlen & encs' & Hw' & _ & Hin).
  - apply NoDup_singleton.
  - reflexivity.
  - apply returned_run. vm_compute. reflexivity.
  - split; [exact Hlen|]. exists encs'. split; [exact Hw'|].
    destruct (Hin "region") as (enc & classes & He & Hcl & Hcodes & _).
    { apply (bool_decide_unpack _). vm_compute. exact I. }
    exists enc, classes. split; [exact He|]. split; [exact Hcl|].
    apply (Hcodes 0 {[ "region" := PStr "EMEA" ]}). reflexivity.
Defined.

Lemma encode_features_reuses_encoders_witness :
  let encs := {[ "region" := LabelEncoder.LabelEncoder (Some [PStr "APAC"]) ]}
              : gmap string LabelEncoder.t in
  ∃ r w' encs',
    _encode_features (L := toy_libraries) ["region"]
      [ {[ "region" := PStr "EMEA" ]} ] (apac_world true) = (r, w')
    ∧ label_encoders w' = OEncoders encs'
    ∧ (∀ c enc, encs !! c = Some enc → encs' !! c = Some enc)
    ∧ ∃ e, r = Raise e.
Proof.
  intros encs.
  destruct (encode_features_reuses_encoders (L := toy_libraries) ["region"]
              [ {[ "region" := PStr "EMEA" ]} ] (apac_world true) encs)
    as (r & w' & encs' & Hrun & Hw' & Hkeep & _ & _ & Hunseen).
  - apply NoDup_singleton.
  - reflexivity.
  - exists r, w', encs'. split; [exact Hrun|]. split; [exact Hw'|].
    split; [exact Hkeep|].
    apply (Hunseen "region" (LabelEncoder.LabelEncoder (Some [PStr "APAC"]))
             [PStr "APAC"] 0 {[ "region" := PStr "EMEA" ]}).
    + apply (bool_decide_unpack _). vm_compute. exact I.
    + reflexivity.
    + reflexivity.
    + reflexivity.
    + vm_compute. reflexivity.
Defined.

(** The status of the models in [stocked_world]: both files unpickle, the
    one of the risk predictor to an unfitted regressor, and both count as
    trained; in an empty directory neither does. *)
Example model_status_examples :
  let status_of (name : string) (w : world (L := toy_libraries)) :=
    ms_status (returned (error_status "")
                 (get_model_status (L := toy_libraries) toy_regressor_bool
                    toy_mtime toy_isoformat name w).1) in
  status_of "win_predictor" stocked_world = "trained"
  ∧ status_of "risk_predictor" stocked_world = "trained"
  ∧ status_of "win_predictor" corrupt_world = "error"
  ∧ status_of "win_predictor" (fresh_world []) = "error"
  ∧ status_of "win_predictor" (apac_world true) = "error"
  ∧ (get_last_training_time (L := toy_libraries) toy_mtime toy_isoformat
       stocked_world).1
    = Return (Some "18")
  ∧ (get_last_training_time (L := toy_libraries) toy_mtime toy_isoformat
       (fresh_world [])).1
    = Return None.
Proof. cbv zeta. repeat split; vm_compute; reflexivity. Qed.

Lemma MLTrainingView_post_answers_witness :
  ∃ resp w',
    MLTrainingView_post (L := toy_libraries) "2024-01-01T00:00:00+00:00"
      (fresh_world ten_bids) = (Return resp, w')
    ∧ files w' = files (fresh_world (L := toy_libraries) ten_bids)
    ∧ table w' = table (fresh_world (L := toy_libraries) ten_bids)
    ∧ (10 ≤ length (eligible (table (fresh_world (L := toy_libraries)
                                       ten_bids))) →
       resp = Response500 "Failed to train models")
    ∧ (∀ body, resp = Response200 body →
         length (eligible (table (fresh_world (L := toy_libraries)
                                    ten_bids))) < 10
         ∧ message body = "ML models trained successfully"
         ∧ win_predictor w' = ONone
         ∧ risk_predictor w' = ONone).
Proof.
  exact (MLTrainingView_post_answers (L := toy_libraries)
           "2024-01-01T00:00:00+00:00" (fresh_world ten_bids)).
Defined.

(** The two answers of the training endpoint: with the ten decided bids
    of [ten_bids] it fails, with one bid it reports success. *)
Example MLTrainingView_post_examples :
  (MLTrainingView_post (L := toy_libraries) "now" (fresh_world ten_bids)).1
  = Return (Response500 "Failed to train models")
  ∧ (MLTrainingView_post (L := toy_libraries) "now" (fresh_world [bid_1])).1
    = Return (Response200
                {| message := "ML models trained successfully";
                   models := ["win_predictor"; "risk_predictor"];
                   report_timestamp := "now" |}).
Proof. split; vm_compute; reflexivity. Qed.

Lemma train_ml_models_result_witness :
  ∃ r w',
    train_ml_models (L := toy_libraries) (fresh_world ten_bids) = (r, w')
    ∧ files w' = files (fresh_world (L := toy_libraries) ten_bids)
    ∧ table w' = table (fresh_world (L := toy_libraries) ten_bids)
    ∧ (10 ≤ length (eligible (table (fresh_world (L := toy_libraries)
                                       ten_bids))) →
       ∃ e, r = Raise e)
    ∧ (∀ s, r = Return s →
         s = "Models trained successfully"
         ∧ length (eligible (table (fresh_world (L := toy_libraries)
                                      ten_bids))) < 10
         ∧ win_predictor w' = ONone
         ∧ risk_predictor w' = ONone).
Proof.
  exact (train_ml_models_result (L := toy_libraries) (fresh_world ten_bids)).
Defined.

Lemma Command_handle_output_witness :
  ∃ last w',
    Command_handle (L := toy_libraries) true (fresh_world ten_bids)
    = (Return [Plain "Initializing ML models...";
               Plain "Training bid predictor..."; last], w')
    ∧ files w' = files (fresh_world (L := toy_libraries) ten_bids)
    ∧ ∃ e, last = StyleError e.
Proof.
  destruct (Command_handle_output (L := toy_libraries) true
              (fresh_world ten_bids))
    as (last & w' & Hrun & Hf & _ & _ & Hpath & _).
  exists last, w'. split; [exact Hrun|]. split; [exact Hf|].
  apply Hpath; [left; reflexivity|]. vm_compute. lia.
Defined.

Lemma predict_for_bid_result_witness :
  let res := predict_for_bid (L := toy_libraries) bid_1 trained_world in
  let p := returned _get_default_prediction res.1 in
  p = _get_default_prediction
  ∨ ∃ (m1 m2 : float) (stats : unit) Xs ys1 ys2,
      win_predictor res.2 = ORegressor (L := toy_libraries) (Some m1)
      ∧ risk_predictor res.2 = ORegressor (L := toy_libraries) (Some m2)
      ∧ scaler res.2 = OScaler (L := toy_libraries) (Some stats)
      ∧ gbr_predict (Libraries := toy_libraries) m1 Xs
        = Return (win_probability p :: ys1)
      ∧ gbr_predict (Libraries := toy_libraries) m2 Xs
        = Return (risk_score p :: ys2)
      ∧ confidence p = 0.8%float
      ∧ _extract_features (L := toy_libraries) (table trained_world)
          (today trained_world) bid_1 = Return (features p)
      ∧ timestamp p = Some (clock trained_world).
Proof.
  intros res p.
  apply (predict_for_bid_result (L := toy_libraries) bid_1 trained_world
           res.2 p).
  apply returned_run. vm_compute. reflexivity.
Defined.

(** With fitted models and an encoder for every string column,
    [predict_for_bid] returns the predictions of the two regressors. *)
Example predict_for_bid_trained :
  let res := predict_for_bid (L := toy_libraries) bid_1 trained_world in
  win_probability (returned _get_default_prediction res.1) = 0.7%float
  ∧ risk_score (returned _get_default_prediction res.1) = 0.2%float
  ∧ confidence (returned _get_default_prediction res.1) = 0.8%float
  ∧ timestamp (returned _get_default_prediction res.1)
    = Some "2024-01-01T00:00:00"
  ∧ trace res.2 = [Extract "b-1"; Predict 1; Predict 1].
Proof. cbv zeta. repeat split; vm_compute; reflexivity. Qed.

Lemma update_bid_predictions_without_models_witness :
  let w := fresh_world (L := toy_libraries)
             [bid_1; bid_like "b-5" "draft" "EMEA";
              bid_like "b-6" "submitted" "APAC"] in
  ∃ r w',
    update_bid_predictions toy_bid_save w = (r, w')
    ∧ files w' = files w
    ∧ r = Return "Updated 1 bids".
Proof.
  intros w.
  destruct (update_bid_predictions_without_models (L := toy_libraries)
              toy_bid_save w eq_refl)
    as (r & w' & Hrun & Hf & _ & Hfew).
  exists r, w'. split; [exact Hrun|]. split; [exact Hf|].
  rewrite Hfew.
  - vm_compute. reflexivity.
  - vm_compute. lia.
  - intros bid Hbid. change (eligible (table w)) with [bid_1] in Hbid.
    apply list_elem_of_singleton in Hbid as ->.
    apply extract_features_returns. intros v [=].
Defined.

Lemma predict_for_bid_raises_witness :
  ∃ w', predict_for_bid (L := toy_libraries) bid_with_number
          (apac_world true) = (Raise TypeError, w').
Proof.
  apply (proj2 (predict_for_bid_raises (L := toy_libraries) bid_with_number
                  (apac_world true))).
  - exists (PInt 5). repeat split.
  - left. discriminate.
Defined.
